(** * ai-cli: the transport client, the stream decoder and the session driver

    A shallow embedding of [ai-cli.py] (classes [AIClient] and [AICLI], and
    the dispatch of [main]) together with the properties its specification
    states about them.

    Conventions of the embedding.
    - Python [str] and [bytes] are both Rocq [string]s: a text is held as
      its UTF-8 bytes.
    - A value that comes out of [json.loads] is a [json]; this is also the
      type of everything the client returns or yields, because the code
      passes such values on without looking at their type.
    - Effects are explicit: a computation is a function from the number of
      HTTP calls made so far to an outcome (a value or a raised exception),
      the events it performed, and the new number of calls.
    - The outside world (server, file system, terminal, typed input) is a
      record [World] that the computations read.
    - The standard output encodes UTF-8. [print] can then fail on one kind
      of text only, a text with a lone surrogate, and such a text can reach
      the program in a value the server sent as JSON. The texts of the
      program itself, of the arguments, of what is typed, and of the
      exceptions are taken to be free of them. *)

From Stdlib Require Import String Ascii List ZArith Bool Lia PeanoNat.
From Stdlib Require Import DecimalString.
Import ListNotations.
Local Open Scope string_scope.
Local Open Scope Z_scope.

(* ===================================================================== *)
(** ** Text *)
(* ===================================================================== *)

Module Text.

(** Characters that cannot be written inside a literal. *)
Definition dq  : string := String "034" EmptyString.   (* double quote *)
Definition nl  : string := String "010" EmptyString.   (* \n *)
Definition esc : string := String "027" EmptyString.   (* \033 *)

(** [q s] is [s] between double quotes. *)
Definition q (s : string) : string := dq ++ s ++ dq.

Definition code (c : ascii) : N := N_of_ascii c.

(** [str.lower()]. On the UTF-8 bytes of a text it is modelled for the
    ASCII letters; the bytes of other characters are kept. The code only
    compares the result with ASCII literals that have no letter k, and
    U+212A (KELVIN SIGN, lowered to k) is the only character outside ASCII
    whose lower-case form is ASCII, so those comparisons come out as in
    Python for every text. *)
Definition lower_char (c : ascii) : ascii :=
  let n := code c in
  if ((65 <=? n) && (n <=? 90))%N then ascii_of_N (n + 32) else c.

Fixpoint lower (s : string) : string :=
  match s with
  | EmptyString => EmptyString
  | String c r => String (lower_char c) (lower r)
  end.

(** [not s.strip()]: every character of [s] is white space. The white
    space of [str.isspace] is U+0009..U+000D, U+001C..U+0020, U+0085,
    U+00A0, U+1680, U+2000..U+200A, U+2028, U+2029, U+202F, U+205F and
    U+3000, read here from the UTF-8 bytes. *)
Definition ascii_space (n : N) : bool :=
  (((9 <=? n) && (n <=? 13)) || ((28 <=? n) && (n <=? 32)))%N.

Fixpoint all_space (s : string) : bool :=
  match s with
  | EmptyString => true
  | String c r =>
      let n := code c in
      if ascii_space n then all_space r
      else match r with
           | String c2 r2 =>
               let n2 := code c2 in
               if ((n =? 194) && ((n2 =? 133) || (n2 =? 160)))%N
               then all_space r2
               else match r2 with
                    | String c3 r3 =>
                        let n3 := code c3 in
                        if (((n =? 225) && (n2 =? 154) && (n3 =? 128))
                            || ((n =? 226) && (n2 =? 128)
                                && (((128 <=? n3) && (n3 <=? 138))
                                    || (n3 =? 168) || (n3 =? 169) || (n3 =? 175)))
                            || ((n =? 226) && (n2 =? 129) && (n3 =? 159))
                            || ((n =? 227) && (n2 =? 128) && (n3 =? 128)))%N
                        then all_space r3
                        else false
                    | EmptyString => false
                    end
           | EmptyString => false
           end
  end.

(** [s * n] *)
Fixpoint repeat_str (s : string) (n : nat) : string :=
  match n with
  | O => EmptyString
  | S k => s ++ repeat_str s k
  end.

(** [f"{s:w}"] for a text [s] of ASCII characters: padded on the right
    with spaces up to width [w]. *)
Definition ljust (s : string) (w : nat) : string :=
  s ++ repeat_str " " (w - String.length s).

(** [needle in hay] for two texts. *)
Fixpoint contains (needle hay : string) : bool :=
  if String.prefix needle hay then true
  else match hay with
       | EmptyString => false
       | String _ r => contains needle r
       end.

(** [str(n)] for an integer. *)
Definition str_of_Z (z : Z) : string := NilZero.string_of_int (Z.to_int z).

(** [bytes.splitlines()]: lines end at \n, \r or \r\n; the terminators
    are dropped and a final terminator opens no further line. *)
Fixpoint splitlines_aux (s : string) (cur : string) : list string :=
  match s with
  | EmptyString =>
      match cur with EmptyString => [] | _ => [cur] end
  | String c r =>
      if (code c =? 10)%N then cur :: splitlines_aux r EmptyString
      else if (code c =? 13)%N then
        match r with
        | String c2 r2 =>
            if (code c2 =? 10)%N then cur :: splitlines_aux r2 EmptyString
            else cur :: splitlines_aux r EmptyString
        | EmptyString => cur :: splitlines_aux r EmptyString
        end
      else splitlines_aux r (cur ++ String c EmptyString)
  end.

Definition splitlines (s : string) : list string :=
  splitlines_aux s EmptyString.

(** Whether a text holds a lone surrogate. In the UTF-8 bytes of a text
    a surrogate is the byte 237 followed by a byte from 160 to 191; a pair
    of surrogates that belong together is one character of four bytes and
    is not met here. *)
Fixpoint has_surrogate (s : string) : bool :=
  match s with
  | EmptyString => false
  | String c r =>
      match r with
      | String c2 _ =>
          if ((code c =? 237) && (160 <=? code c2) && (code c2 <=? 191))%N
          then true
          else has_surrogate r
      | EmptyString => false
      end
  end.

(** [s[:n]]: the first [n] characters of a text. A byte from 128 to 191
    continues the character before it. *)
Fixpoint take_chars (n : nat) (s : string) : string :=
  match s with
  | EmptyString => EmptyString
  | String c r =>
      if ((128 <=? code c) && (code c <=? 191))%N then String c (take_chars n r)
      else match n with
           | O => EmptyString
           | S k => String c (take_chars k r)
           end
  end.

(** [s.replace(a, b)] for two characters of ASCII. *)
Fixpoint replace_char (a b : ascii) (s : string) : string :=
  match s with
  | EmptyString => EmptyString
  | String c r =>
      String (if Ascii.eqb c a then b else c) (replace_char a b r)
  end.

(** Concatenation of a list of texts. *)
Definition concat (l : list string) : string :=
  fold_right String.append EmptyString l.

End Text.

(* ===================================================================== *)
(** ** Exceptions *)
(* ===================================================================== *)

(** The exception classes the program can meet. [RequestException] stands
    for the exceptions of the HTTP library (connection refused, timeout,
    broken transfer, and its own JSON error). *)
Inductive exn_class : Type :=
| JSONDecodeError
| UnicodeDecodeError
| TypeError
| AttributeError
| OSError
| KeyError
| OverflowError
| UnicodeEncodeError
| RequestException
| EOFError
| KeyboardInterrupt.

Record exn : Type := Exn { exn_cls : exn_class; exn_str : string }.

Definition exn_class_eqb (a b : exn_class) : bool :=
  match a, b with
  | JSONDecodeError, JSONDecodeError
  | UnicodeDecodeError, UnicodeDecodeError
  | TypeError, TypeError
  | AttributeError, AttributeError
  | OSError, OSError
  | KeyError, KeyError
  | OverflowError, OverflowError
  | UnicodeEncodeError, UnicodeEncodeError
  | RequestException, RequestException
  | EOFError, EOFError
  | KeyboardInterrupt, KeyboardInterrupt => true
  | _, _ => false
  end.

(** [isinstance(e, Exception)]: every class above but [KeyboardInterrupt],
    which derives from [BaseException] only. *)
Definition is_Exception (e : exn) : bool :=
  negb (exn_class_eqb (exn_cls e) KeyboardInterrupt).

(** The outcome of running a piece of Python: a value or a raised
    exception. *)
Inductive result (A : Type) : Type :=
| Ok (a : A)
| Raise (e : exn).
Arguments Ok {A} a.
Arguments Raise {A} e.

(* ===================================================================== *)
(** ** JSON values and [json.loads] *)
(* ===================================================================== *)

(** What [json.loads] builds: [None], [bool], [int], [float], [str],
    [list] and [dict]. A float keeps the text of its literal. The members
    of an object are kept in the order of the document; a later member
    with the same name overrides an earlier one ([dict_get]). *)
#[warnings="-register-all"]
Inductive json : Type :=
| JNull
| JBool (b : bool)
| JInt (z : Z)
| JFloat (literal : string)
| JString (s : string)
| JArray (items : list json)
| JObject (members : list (string * json)).

Module Json.
Import Text.
Local Open Scope N_scope.

Definition is_ws (c : ascii) : bool :=
  let n := code c in (n =? 32) || (n =? 9) || (n =? 10) || (n =? 13).

Fixpoint skip_ws (s : string) : string :=
  match s with
  | String c r => if is_ws c then skip_ws r else s
  | EmptyString => s
  end.

Definition is_digit (c : ascii) : bool :=
  let n := code c in (48 <=? n) && (n <=? 57).

Definition hex_val (c : ascii) : option N :=
  let n := code c in
  if (48 <=? n) && (n <=? 57) then Some (n - 48)
  else if (97 <=? n) && (n <=? 102) then Some (n - 87)
  else if (65 <=? n) && (n <=? 70) then Some (n - 55)
  else None.

(** Four hexadecimal digits. *)
Definition hex4 (s : string) : option (N * string) :=
  match s with
  | String a (String b (String c (String d r))) =>
      match hex_val a, hex_val b, hex_val c, hex_val d with
      | Some x, Some y, Some z, Some w =>
          Some (((x * 16 + y) * 16 + z) * 16 + w, r)
      | _, _, _, _ => None
      end
  | _ => None
  end.

Definition byte (n : N) : string := String (ascii_of_N n) EmptyString.

(** The UTF-8 bytes of a code point (a lone surrogate gets the three
    bytes its number would have). *)
Definition utf8_encode (cp : N) : string :=
  if cp <? 128 then byte cp
  else if cp <? 2048 then
    byte (192 + cp / 64) ++ byte (128 + cp mod 64)
  else if cp <? 65536 then
    byte (224 + cp / 4096) ++ byte (128 + (cp / 64) mod 64)
         ++ byte (128 + cp mod 64)
  else
    byte (240 + cp / 262144) ++ byte (128 + (cp / 4096) mod 64)
         ++ byte (128 + (cp / 64) mod 64) ++ byte (128 + cp mod 64).

Definition is_high_surrogate (cp : N) : bool := (55296 <=? cp) && (cp <=? 56319).
Definition is_low_surrogate (cp : N) : bool := (56320 <=? cp) && (cp <=? 57343).

(** After the escape of a high surrogate: a following escape of a low
    surrogate is joined with it; a following escape that is not four
    hexadecimal digits is an error. *)
Definition join_surrogate (cp : N) (s : string) : option (N * string) :=
  if is_high_surrogate cp then
    match s with
    | String a (String b r) =>
        if (code a =? 92) && (code b =? 117) then
          match hex4 r with
          | Some (lo, r') =>
              if is_low_surrogate lo
              then Some (65536 + (cp - 55296) * 1024 + (lo - 56320), r')
              else Some (cp, s)
          | None => None
          end
        else Some (cp, s)
    | _ => Some (cp, s)
    end
  else Some (cp, s).

Definition simple_escape (c : ascii) : option string :=
  let n := code c in
  if (n =? 34) || (n =? 92) || (n =? 47) then Some (String c EmptyString)
  else if n =? 98 then Some (byte 8)
  else if n =? 102 then Some (byte 12)
  else if n =? 110 then Some (byte 10)
  else if n =? 114 then Some (byte 13)
  else if n =? 116 then Some (byte 9)
  else None.

Definition prepend (p : string) (o : option (string * string))
  : option (string * string) :=
  match o with
  | Some (t, r) => Some ((p ++ t)%string, r)
  | None => None
  end.

(** The body of a string literal, from behind its opening quote to its
    closing quote (strict mode: no raw control character). *)
Fixpoint scanstring (fuel : nat) (s : string) : option (string * string) :=
  match fuel with
  | O => None
  | S f =>
      match s with
      | EmptyString => None
      | String c r =>
          let n := code c in
          if n =? 34 then Some (EmptyString, r)
          else if n =? 92 then
            match r with
            | EmptyString => None
            | String e r1 =>
                if code e =? 117 then
                  match hex4 r1 with
                  | Some (cp, r2) =>
                      match join_surrogate cp r2 with
                      | Some (cp', r3) => prepend (utf8_encode cp') (scanstring f r3)
                      | None => None
                      end
                  | None => None
                  end
                else
                  match simple_escape e with
                  | Some t => prepend t (scanstring f r1)
                  | None => None
                  end
            end
          else if n <? 32 then None
          else prepend (String c EmptyString) (scanstring f r)
      end
  end.

Definition scan_string (s : string) : option (string * string) :=
  scanstring (S (String.length s)) s.

(** The longest prefix of digits, and the rest. *)
Fixpoint span_digits (s : string) : string * string :=
  match s with
  | String c r =>
      if is_digit c then
        let (d, t) := span_digits r in (String c d, t)
      else (EmptyString, s)
  | EmptyString => (EmptyString, s)
  end.

Fixpoint digits_value (s : string) (acc : N) : N :=
  match s with
  | String c r => digits_value r (acc * 10 + (code c - 48))
  | EmptyString => acc
  end.

Definition starts_digit (s : string) : bool :=
  match s with String c _ => is_digit c | EmptyString => false end.

(** The fraction (a point and digits) if there is one. *)
Definition scan_frac (s : string) : string * string :=
  match s with
  | String c r =>
      if (code c =? 46) && starts_digit r then
        let (d, t) := span_digits r in (String c d, t)
      else (EmptyString, s)
  | EmptyString => (EmptyString, s)
  end.

(** The exponent (e or E, an optional sign, digits) if there is one. *)
Definition scan_exp (s : string) : string * string :=
  match s with
  | String c r =>
      if (code c =? 101) || (code c =? 69) then
        match r with
        | String sg r1 =>
            if ((code sg =? 45) || (code sg =? 43)) && starts_digit r1 then
              let (d, t) := span_digits r1 in (String c (String sg d), t)
            else if is_digit sg then
              let (d, t) := span_digits r in (String c d, t)
            else (EmptyString, s)
        | EmptyString => (EmptyString, s)
        end
      else (EmptyString, s)
  | EmptyString => (EmptyString, s)
  end.

(** A number: an optional minus sign, then 0 or a digit from 1 to 9 with
    further digits, then an optional fraction and an optional exponent;
    an [int] when it has neither fraction nor exponent. *)
Definition scan_number (s : string) : option (json * string) :=
  let '(sign, s1) :=
    match s with
    | String c r => if code c =? 45 then ("-"%string, r) else (EmptyString, s)
    | EmptyString => (EmptyString, s)
    end in
  match s1 with
  | String c r =>
      if is_digit c then
        let '(ip, r1) :=
          if code c =? 48 then ("0"%string, r) else span_digits s1 in
        let '(fp, r2) := scan_frac r1 in
        let '(ep, r3) := scan_exp r2 in
        match fp, ep with
        | EmptyString, EmptyString =>
            let v := Z.of_N (digits_value ip 0) in
            Some (JInt (match sign with EmptyString => v | _ => Z.opp v end), r3)
        | _, _ => Some (JFloat (sign ++ ip ++ fp ++ ep), r3)
        end
      else None
  | EmptyString => None
  end.

Fixpoint strip_prefix (p s : string) : option string :=
  match p, s with
  | EmptyString, _ => Some s
  | String a p', String b s' =>
      if Ascii.eqb a b then strip_prefix p' s' else None
  | _, EmptyString => None
  end.

(** The named constants, tried before a number. *)
Definition scan_constant (s : string) : option (json * string) :=
  match strip_prefix "null" s with
  | Some r => Some (JNull, r)
  | None =>
  match strip_prefix "true" s with
  | Some r => Some (JBool true, r)
  | None =>
  match strip_prefix "false" s with
  | Some r => Some (JBool false, r)
  | None =>
  match strip_prefix "NaN" s with
  | Some r => Some (JFloat "NaN", r)
  | None =>
  match strip_prefix "Infinity" s with
  | Some r => Some (JFloat "Infinity", r)
  | None =>
  match strip_prefix "-Infinity" s with
  | Some r => Some (JFloat "-Infinity", r)
  | None => None
  end end end end end end.

(** One value at the head of [s]. *)
Fixpoint scan_once (fuel : nat) (s : string) : option (json * string) :=
  match fuel with
  | O => None
  | S f =>
      match s with
      | EmptyString => None
      | String c r =>
          let n := code c in
          if n =? 34 then
            match scan_string r with
            | Some (t, r') => Some (JString t, r')
            | None => None
            end
          else if n =? 123 then
            match skip_ws r with
            | String c1 r1 =>
                if code c1 =? 125 then Some (JObject [], r1)
                else match scan_members f (skip_ws r) with
                     | Some (ms, r') => Some (JObject ms, r')
                     | None => None
                     end
            | EmptyString => None
            end
          else if n =? 91 then
            match skip_ws r with
            | String c1 r1 =>
                if code c1 =? 93 then Some (JArray [], r1)
                else match scan_items f (skip_ws r) with
                     | Some (vs, r') => Some (JArray vs, r')
                     | None => None
                     end
            | EmptyString => None
            end
          else
            match scan_constant s with
            | Some v => Some v
            | None => scan_number s
            end
      end
  end

(** The members of an object, from the quote of the first name to the
    closing brace. *)
with scan_members (fuel : nat) (s : string)
  : option (list (string * json) * string) :=
  match fuel with
  | O => None
  | S f =>
      match s with
      | String c r =>
          if code c =? 34 then
            match scan_string r with
            | Some (k, r1) =>
                match skip_ws r1 with
                | String c2 r2 =>
                    if code c2 =? 58 then
                      match scan_once f (skip_ws r2) with
                      | Some (v, r3) =>
                          match skip_ws r3 with
                          | String c4 r4 =>
                              if code c4 =? 125 then Some ([(k, v)], r4)
                              else if code c4 =? 44 then
                                match scan_members f (skip_ws r4) with
                                | Some (ms, r5) => Some ((k, v) :: ms, r5)
                                | None => None
                                end
                              else None
                          | EmptyString => None
                          end
                      | None => None
                      end
                    else None
                | EmptyString => None
                end
            | None => None
            end
          else None
      | EmptyString => None
      end
  end

(** The items of an array, from the first item to the closing bracket. *)
with scan_items (fuel : nat) (s : string) : option (list json * string) :=
  match fuel with
  | O => None
  | S f =>
      match scan_once f s with
      | Some (v, r1) =>
          match skip_ws r1 with
          | String c2 r2 =>
              if code c2 =? 93 then Some ([v], r2)
              else if code c2 =? 44 then
                match scan_items f (skip_ws r2) with
                | Some (vs, r3) => Some (v :: vs, r3)
                | None => None
                end
              else None
          | EmptyString => None
          end
      | None => None
      end
  end.

(** [JSONDecoder.decode]: one value between optional white space, and
    nothing after it. *)
Definition decode (s : string) : option json :=
  match scan_once (2 * String.length s + 2) (skip_ws s) with
  | Some (v, r) =>
      match skip_ws r with
      | EmptyString => Some v
      | String _ _ => None
      end
  | None => None
  end.

Definition cont (n : N) : bool := (128 <=? n) && (n <=? 191).

(** Whether bytes decode as UTF-8 under the error handler
    [surrogatepass] (encoded surrogates are let through). *)
Fixpoint utf8_valid (s : string) : bool :=
  match s with
  | EmptyString => true
  | String a r =>
      let x := code a in
      if x <? 128 then utf8_valid r
      else
        match r with
        | EmptyString => false
        | String b r2 =>
            let y := code b in
            if (194 <=? x) && (x <=? 223) then cont y && utf8_valid r2
            else
              match r2 with
              | EmptyString => false
              | String c r3 =>
                  let z := code c in
                  if (224 <=? x) && (x <=? 239) then
                    (if x =? 224 then (160 <=? y) && (y <=? 191) else cont y)
                    && cont z && utf8_valid r3
                  else
                    match r3 with
                    | EmptyString => false
                    | String d r4 =>
                        let w := code d in
                        if (240 <=? x) && (x <=? 244) then
                          (if x =? 240 then (144 <=? y) && (y <=? 191)
                           else if x =? 244 then (128 <=? y) && (y <=? 143)
                           else cont y)
                          && cont z && cont w && utf8_valid r4
                        else false
                    end
              end
        end
  end.

(** A leading UTF-8 byte order mark is dropped. *)
Definition strip_bom (s : string) : string :=
  match s with
  | String a (String b (String c r)) =>
      if (code a =? 239) && (code b =? 187) && (code c =? 191) then r else s
  | _ => s
  end.

Definition decode_error : exn :=
  Exn JSONDecodeError "Expecting value".
Definition unicode_error : exn :=
  Exn UnicodeDecodeError "'utf-8' codec can't decode byte".

(** [json.loads(line)] for a [bytes] argument: the bytes are decoded,
    which raises [UnicodeDecodeError] when they are not UTF-8, and the
    text is parsed, which raises [JSONDecodeError] when it is not one
    JSON document. The texts of the two messages are shortened: Python
    adds the position. Not modelled: the UTF-16 and UTF-32 forms that
    [json.detect_encoding] recognises (bytes are read as UTF-8), the
    recursion limit and the limit on the digits of an integer. *)
Definition loads (s : string) : result json :=
  if utf8_valid s then
    match decode (strip_bom s) with
    | Some v => Ok v
    | None => Raise decode_error
    end
  else Raise unicode_error.

End Json.

(* ===================================================================== *)
(** ** The operations of Python the code applies to decoded values *)
(* ===================================================================== *)

Module Py.

(** [d[key]] of a [dict] built by [json.loads]: the last member of that
    name. *)
Fixpoint dict_get (key : string) (ms : list (string * json)) : option json :=
  match ms with
  | [] => None
  | (k, v) :: r =>
      match dict_get key r with
      | Some v' => Some v'
      | None => if String.eqb key k then Some v else None
      end
  end.

Definition type_name (v : json) : string :=
  match v with
  | JNull => "NoneType"
  | JBool _ => "bool"
  | JInt _ => "int"
  | JFloat _ => "float"
  | JString _ => "str"
  | JArray _ => "list"
  | JObject _ => "dict"
  end.

Definition is_str (s : string) (v : json) : bool :=
  match v with
  | JString t => String.eqb s t
  | _ => false
  end.

(** [key in data] for a [str] key: membership of the name in a [dict],
    of the text in a [list], as a part in a [str]; a [TypeError] for the
    values that are no containers. *)
Definition contains (key : string) (data : json) : result bool :=
  match data with
  | JObject ms =>
      Ok (match dict_get key ms with Some _ => true | None => false end)
  | JArray vs => Ok (existsb (is_str key) vs)
  | JString s => Ok (Text.contains key s)
  | _ => Raise (Exn TypeError
                  ("argument of type '" ++ type_name data ++ "' is not iterable"))
  end.

(** [data[key]] for a [str] key. *)
Definition getitem (data : json) (key : string) : result json :=
  match data with
  | JObject ms =>
      match dict_get key ms with
      | Some v => Ok v
      | None => Raise (Exn KeyError ("'" ++ key ++ "'"))
      end
  | JArray _ =>
      Raise (Exn TypeError "list indices must be integers or slices, not str")
  | JString _ =>
      Raise (Exn TypeError "string indices must be integers, not 'str'")
  | _ =>
      Raise (Exn TypeError ("'" ++ type_name data ++ "' object is not subscriptable"))
  end.

(** [data.get(key, default)]: only a [dict] has the method. *)
Definition get (data : json) (key : string) (default : json) : result json :=
  match data with
  | JObject ms =>
      Ok (match dict_get key ms with Some v => v | None => default end)
  | _ =>
      Raise (Exn AttributeError
               ("'" ++ type_name data ++ "' object has no attribute 'get'"))
  end.

Fixpoint all_zero_digits (s : string) : bool :=
  match s with
  | EmptyString => true
  | String c r =>
      let n := Text.code c in
      if ((n =? 101) || (n =? 69))%N then true
      else if ((49 <=? n) && (n <=? 57))%N then false
      else if ((n =? 78) || (n =? 73))%N then false
      else all_zero_digits r
  end.

(** [bool(v)]. A float is false when the digits of its literal before
    the exponent are all 0 (a literal that underflows to 0.0 is not
    recognised). *)
Definition truthy (v : json) : bool :=
  match v with
  | JNull => false
  | JBool b => b
  | JInt z => negb (z =? 0)
  | JFloat l => negb (all_zero_digits l)
  | JString s => negb (String.eqb s EmptyString)
  | JArray vs => match vs with [] => false | _ => true end
  | JObject ms => match ms with [] => false | _ => true end
  end.

(** [bool(s)] for an optional text: [None] and the empty text are
    false. *)
Definition truthy_str (s : option string) : bool :=
  match s with
  | Some t => negb (String.eqb t EmptyString)
  | None => false
  end.

(** [s in l] for a list of texts. *)
Definition str_in (s : string) (l : list string) : bool :=
  existsb (String.eqb s) l.

End Py.

(* ===================================================================== *)
(** ** The HTTP library and the world *)
(* ===================================================================== *)

(** The JSON body of a generation request. *)
Record Payload : Type := mkPayload {
  p_model : string;
  p_prompt : string;
  p_stream : bool;
  p_system : option string
}.

(** A call of [requests.get] or [requests.post]. *)
Inductive Request : Type :=
| GET (url : string) (timeout : option Z)
| POST (url : string) (body : Payload) (stream : bool) (timeout : Z).

Definition streamed (req : Request) : bool :=
  match req with
  | GET _ _ => false
  | POST _ _ s _ => s
  end.

Definition is_post (req : Request) : bool :=
  match req with
  | GET _ _ => false
  | POST _ _ _ _ => true
  end.

(** What the server sent: the status, the bytes of the body that arrived,
    and in [broken] the exception of a transfer that failed after them. The
    body is taken to be UTF-8 text. *)
Record Response : Type := mkResponse {
  status_code : Z;
  content : string;
  broken : option exn
}.

(** What a call meets: an exception before any response (connection
    refused, timeout, an interrupt), or a response. *)
Inductive HttpOutcome : Type :=
| Raised (e : exn)
| Responded (r : Response).

(** [Response.text] *)
Definition text (r : Response) : string := content r.

(** [Response.json()]: the body, as text, parsed. (The library replaces
    what it cannot decode, so that only the parse can fail here.) *)
Definition response_json (r : Response) : result json :=
  match Json.decode (content r) with
  | Some v => Ok v
  | None => Raise Json.decode_error
  end.

(** [Response.iter_lines()] of a streamed response: the lines of the body
    and the exception that ends the iteration, if the transfer broke. (The
    library can add empty lines where a chunk of the transfer ends inside a
    line terminator.) *)
Definition iter_lines (r : Response) : list string * option exn :=
  (Text.splitlines (content r), broken r).

(** What is typed at the prompt of the interactive session: a line, or an
    interrupt (Ctrl-C). When nothing is left, the input has ended. *)
Inductive InputEvent : Type :=
| Line (s : string)
| Interrupt.

(** What the program reads from its surroundings. [http n req] is the
    outcome of request [req] when it is the [n]-th HTTP call of the run
    (counted from 0). *)
Record World : Type := mkWorld {
  http : nat -> Request -> HttpOutcome;
  isatty : bool;                         (* sys.stdout.isatty() *)
  posix : bool;                          (* os.name == 'posix' *)
  isfile : string -> bool;               (* os.path.isfile *)
  read_text : string -> result string;   (* open(p, 'r', encoding='utf-8') and read() *)
  stdin : list InputEvent
}.

(** What the program does to its surroundings. *)
Inductive event : Type :=
| Http (req : Request)
| Print (s : string) (end_ : string)        (* print(s, end=end_) *)
| PrintValue (v : json) (end_ : string)     (* print(v, end=end_) of a value from the server *)
| PrintModel (name size modified : json)    (* one row of the table of models *)
| Input (prompt : string)                   (* input(prompt) *)
| System (cmd : string)                     (* os.system(cmd) *)
| IsFile (path : string)                    (* os.path.isfile(path) *)
| ReadFile (path : string).                 (* open(path, 'r', ...) and read() *)

Definition is_network (e : event) : bool :=
  match e with
  | Http _ => true
  | _ => false
  end.

Definition is_post_event (e : event) : bool :=
  match e with
  | Http req => is_post req
  | _ => false
  end.

(** The HTTP calls among a list of events. *)
Definition network_calls (t : list event) : list event := filter is_network t.
(** The POST calls among a list of events. *)
Definition posts (t : list event) : list event := filter is_post_event t.

(* ===================================================================== *)
(** ** Computations *)
(* ===================================================================== *)

(** A computation started after [n] HTTP calls gives an outcome, the
    events it performed in order, and the number of HTTP calls after it. *)
Definition M (A : Type) : Type := nat -> result A * list event * nat.

Definition ret {A} (a : A) : M A := fun n => (Ok a, [], n).

Definition raise {A} (e : exn) : M A := fun n => (Raise e, [], n).

Definition bind {A B} (m : M A) (k : A -> M B) : M B :=
  fun n =>
    match m n with
    | (Ok a, t1, n1) =>
        match k a n1 with
        | (r, t2, n2) => (r, (t1 ++ t2)%list, n2)
        end
    | (Raise e, t1, n1) => (Raise e, t1, n1)
    end.

Definition emit (e : event) : M unit := fun n => (Ok tt, [e], n).

(** A pure outcome as a computation. *)
Definition lift {A} (r : result A) : M A := fun n => (r, [], n).

(** [try: m except <the classes that catches accepts> as e: handler e] *)
Definition try_except {A} (m : M A) (catches : exn -> bool) (handler : exn -> M A)
  : M A :=
  fun n =>
    match m n with
    | (Ok a, t1, n1) => (Ok a, t1, n1)
    | (Raise e, t1, n1) =>
        if catches e then
          match handler e n1 with
          | (r, t2, n2) => (r, (t1 ++ t2)%list, n2)
          end
        else (Raise e, t1, n1)
    end.

Declare Scope comp_scope.
Delimit Scope comp_scope with comp.
Notation "x <- m ;; k" := (bind m (fun x => k))
  (at level 100, m at next level, right associativity) : comp_scope.
Notation "m ;; k" := (bind m (fun _ => k))
  (at level 100, right associativity) : comp_scope.
Local Open Scope comp_scope.

(** [print(s)] and [print(s, end=e)] *)
Definition print (s : string) : M unit := emit (Print s Text.nl).
Definition print_end (s e : string) : M unit := emit (Print s e).

(** Whether [print] can write a value that came from the server: a text
    that holds a lone surrogate (a JSON document can spell one with an
    escape, and [json.loads] keeps one it finds in the bytes of a line)
    cannot be encoded. Of a list or an object the text that is printed
    spells such characters with escapes, and a number, a truth value and
    [None] print as ASCII. *)
Definition printable (v : json) : bool :=
  match v with
  | JString s => negb (Text.has_surrogate s)
  | _ => true
  end.

Definition encode_error : exn :=
  Exn UnicodeEncodeError "'utf-8' codec can't encode character: surrogates not allowed".

(** [print(v, end=e)] of a value that came from the server: it raises
    [UnicodeEncodeError], and writes nothing, when the value cannot be
    encoded. (The message of the exception is shortened: Python names the
    character and its position.) *)
Definition print_value (v : json) (e : string) : M unit :=
  if printable v then emit (PrintValue v e) else raise encode_error.

(** The events of a computation started after [n] calls, and its outcome. *)
Definition events {A} (m : M A) (n : nat) : list event := snd (fst (m n)).
Definition outcome {A} (m : M A) (n : nat) : result A := fst (fst (m n)).

(* ===================================================================== *)
(** ** class AIClient *)
(* ===================================================================== *)

Module AIClient.
Section WithWorld.

Variable w : World.

(** [requests.get] and [requests.post]: one HTTP call. A call that does
    not stream reads the whole body before it returns, so a transfer that
    breaks makes the call itself raise; a streamed call returns as soon as
    the response has begun. *)
Definition send (req : Request) : M Response :=
  fun n =>
    match http w n req with
    | Raised e => (Raise e, [Http req], S n)
    | Responded r =>
        if streamed req then (Ok r, [Http req], S n)
        else match broken r with
             | Some e => (Raise e, [Http req], S n)
             | None => (Ok r, [Http req], S n)
             end
    end.

Definition base_url : string := "http://localhost:11434".
Definition default_model : string := "llama3-small-q3-k-s".

Definition tags_url : string := base_url ++ "/api/tags".
Definition generate_url : string := base_url ++ "/api/generate".

(** [check_connection]: the probe. The bare [except] catches every
    exception. *)
Definition check_connection : M bool :=
  try_except
    (response <- send (GET tags_url (Some 5)) ;;
     ret (status_code response =? 200))
    (fun _ => true)
    (fun _ => ret false).

(** [list_models] *)
Definition list_models : M json :=
  try_except
    (response <- send (GET tags_url None) ;;
     if status_code response =? 200 then
       data <- lift (response_json response) ;;
       lift (Py.get data "models" (JArray []))
     else ret (JArray []))
    (fun _ => true)
    (fun _ => ret (JArray [])).

(** The payload both generation calls build. *)
Definition payload (message : string) (model system_prompt : option string)
           (stream : bool) : Payload :=
  let model :=
    match model with
    | Some m => if Py.truthy_str model then m else default_model
    | None => default_model
    end in
  mkPayload model message stream
            (if Py.truthy_str system_prompt then system_prompt else None).

(** [chat]: the call that does not stream. *)
Definition chat (message : string) (model system_prompt : option string)
  : M json :=
  try_except
    (response <- send (POST generate_url
                            (payload message model system_prompt false)
                            false 120) ;;
     if status_code response =? 200 then
       data <- lift (response_json response) ;;
       lift (Py.get data "response" (JString "No response received"))
     else
       ret (JString ("Error: " ++ Text.str_of_Z (status_code response)
                               ++ " - " ++ text response)))
    is_Exception
    (fun e => ret (JString ("Connection error: " ++ exn_str e))).

(** What a generator has produced when it is consumed to its end: the
    values it yielded, and the exception it raised instead of stopping,
    if any. *)
Definition generated : Type := (list json * option exn)%type.

(** The body of the loop over the lines for one line: the values it
    yields, or the exception that leaves the inner [try]. *)
Definition decode_line (line : string) : result (list json) :=
  if String.eqb line EmptyString then Ok []
  else
    let attempt :=
      match Json.loads line with
      | Ok data =>
          match Py.contains "response" data with
          | Ok true =>
              match Py.getitem data "response" with
              | Ok v => Ok [v]
              | Raise e => Raise e
              end
          | Ok false => Ok []
          | Raise e => Raise e
          end
      | Raise e => Raise e
      end in
    match attempt with
    | Raise e =>
        if exn_class_eqb (exn_cls e) JSONDecodeError then Ok [] else Raise e
    | r => r
    end.

(** [for line in response.iter_lines(): ...] *)
Fixpoint decode_lines (lines : list string) (ending : option exn) : generated :=
  match lines with
  | [] => ([], ending)
  | line :: rest =>
      match decode_line line with
      | Ok vs =>
          let (more, e) := decode_lines rest ending in ((vs ++ more)%list, e)
      | Raise e => ([], Some e)
      end
  end.

(** [except Exception as e: yield f"Connection error: {e}"] around the
    request and the loop. *)
Definition except_yield (g : generated) : generated :=
  match g with
  | (vs, Some e) =>
      if is_Exception e
      then ((vs ++ [JString ("Connection error: " ++ exn_str e)])%list, None)
      else g
  | (_, None) => g
  end.

(** [chat_stream], consumed to its end. The request is made when the
    first value is asked for. *)
Definition chat_stream (message : string) (model system_prompt : option string)
  : M generated :=
  fun n =>
    let req := POST generate_url (payload message model system_prompt true)
                    true 120 in
    match send req n with
    | (Ok response, t, n1) =>
        let (lines, ending) := iter_lines response in
        (Ok (except_yield (decode_lines lines ending)), t, n1)
    | (Raise e, t, n1) => (Ok (except_yield ([], Some e)), t, n1)
    end.

End WithWorld.
End AIClient.

(* ===================================================================== *)
(** ** class AICLI and [main] *)
(* ===================================================================== *)

(** The attributes of the parsed arguments the commands read. [argparse]
    sets the ones of the chosen subcommand. *)
Record Namespace : Type := mkNamespace {
  arg_command : option string;
  arg_model : string;
  arg_stream : bool;
  arg_message : option string;
  arg_interactive : bool;
  arg_prompt : string;
  arg_topic : string;
  arg_text : string;
  arg_to : string;
  arg_input : string;
  arg_file : string
}.

Module AICLI.
Section WithWorld.
Import Text.

Variable w : World.

Definition colors : list (string * string) :=
  [ ("blue", esc ++ "[94m"); ("green", esc ++ "[92m");
    ("yellow", esc ++ "[93m"); ("red", esc ++ "[91m");
    ("purple", esc ++ "[95m"); ("cyan", esc ++ "[96m");
    ("white", esc ++ "[97m"); ("end", esc ++ "[0m");
    ("bold", esc ++ "[1m") ].

Fixpoint colors_get (key : string) (l : list (string * string)) : string :=
  match l with
  | [] => EmptyString
  | (k, v) :: r => if String.eqb key k then v else colors_get key r
  end.

(** [colored] *)
Definition colored (s color : string) : string :=
  if negb (isatty w) then s
  else colors_get color colors ++ s ++ colors_get "end" colors.

(** [print_header] *)
Definition print_header (s : string) : M unit :=
  print (nl ++ colored (repeat_str "═" 60) "blue") ;;
  print (colored ("🤖 AI CLI - " ++ s) "bold") ;;
  print (colored (repeat_str "═" 60) "blue" ++ nl).

(** [check_ollama_status] *)
Definition check_ollama_status : M bool :=
  ok <- AIClient.check_connection w ;;
  if negb ok then
    print (colored "❌ Error:" "red" ++ " Ollama is not running or not accessible.") ;;
    print (colored "💡 Tip:" "yellow" ++ " Start Ollama with: ./ollama.sh start") ;;
    ret false
  else ret true.

(** [for chunk in g: print(chunk, end=EmptyString, flush=True)]: the loop
    is left by the exception of [print] at the first chunk that cannot be
    encoded. *)
Fixpoint print_chunks (vs : list json) : M unit :=
  match vs with
  | [] => ret tt
  | v :: r => print_value v EmptyString ;; print_chunks r
  end.

Definition for_each_print (g : AIClient.generated) : M unit :=
  print_chunks (fst g) ;;
  match snd g with
  | Some e => raise e
  | None => ret tt
  end.

(** The same loop with [response += chunk] in its body, after the
    [print]: it raises a [TypeError] for a chunk that is no text, once the
    chunk is printed. *)
Fixpoint print_and_join (vs : list json) (response : string) : M string :=
  match vs with
  | [] => ret response
  | v :: r =>
      print_value v EmptyString ;;
      match v with
      | JString s => print_and_join r (response ++ s)
      | _ => raise (Exn TypeError
                      ("can only concatenate str (not " ++ q (Py.type_name v)
                                                        ++ ") to str"))
      end
  end.

Definition for_each_print_and_join (g : AIClient.generated) : M string :=
  response <- print_and_join (fst g) EmptyString ;;
  match snd g with
  | Some e => raise e
  | None => ret response
  end.

(** The end of every command but [chat]: the streamed or the plain
    call, printed. *)
Definition respond (args : Namespace) (prompt : string) (system_prompt : string)
  : M unit :=
  if arg_stream args then
    g <- AIClient.chat_stream w prompt (Some (arg_model args)) (Some system_prompt) ;;
    for_each_print g ;;
    print EmptyString
  else
    response <- AIClient.chat w prompt (Some (arg_model args)) (Some system_prompt) ;;
    print_value response nl.

(** [show_interactive_help] *)
Definition show_interactive_help : M unit :=
  print (nl ++ colored "📋 Interactive Commands:" "yellow") ;;
  print (ljust (colored "/quit, /exit, /q" "green") 20 ++ " - Exit the chat") ;;
  print (ljust (colored "/help" "green") 20 ++ " - Show this help") ;;
  print (ljust (colored "/clear" "green") 20 ++ " - Clear screen") ;;
  print (ljust (colored "/models" "green") 20 ++ " - List available models") ;;
  print EmptyString.

(** [format_size] of the [size] of a model, as far as it can raise: the
    comparison [size_bytes < 1024.0] raises a [TypeError] for a value that
    is no number, and an integer that no float can hold raises an
    [OverflowError] at the division or at the format. The text that is
    returned for a number is [format_size] below the program. *)
Definition format_size_check (size : json) : result unit :=
  match size with
  | JInt n =>
      if 2 ^ 1024 - 2 ^ 970 <=? Z.abs n
      then Raise (Exn OverflowError "int too large to convert to float")
      else Ok tt
  | JBool _ | JFloat _ => Ok tt
  | _ =>
      Raise (Exn TypeError
               ("'<' not supported between instances of '"
                  ++ Py.type_name size ++ "' and 'float'"))
  end.

(** [model.get('modified_at', 'Unknown')[:19].replace('T', ' ')] once the
    field is read. (For an object, the slice is looked up as a key: Python
    up to 3.11 cannot hash it and raises [TypeError], as here; from 3.12 on
    the key is missing and [KeyError] is raised.) *)
Definition modified_text (modified : json) : result string :=
  match modified with
  | JString s => Ok (Text.replace_char "T" " " (Text.take_chars 19 s))
  | JArray _ =>
      Raise (Exn AttributeError "'list' object has no attribute 'replace'")
  | JObject _ => Raise (Exn TypeError "unhashable type: 'slice'")
  | _ =>
      Raise (Exn TypeError
               ("'" ++ Py.type_name modified
                    ++ "' object is not subscriptable"))
  end.

(** The field [{self.colored(name, 'green'):40}] of the row: on a terminal
    [colored] returns a text, which takes the width; elsewhere it returns
    the name as it is, and an object of no format of its own refuses the
    width. *)
Definition name_format_check (name : json) : result unit :=
  if isatty w then Ok tt
  else match name with
       | JNull | JArray _ | JObject _ =>
           Raise (Exn TypeError
                    ("unsupported format string passed to "
                       ++ Py.type_name name ++ ".__format__"))
       | _ => Ok tt
       end.

(** The rows of the table of models, in the order of evaluation of the
    source: the name is read, the size is read and formatted, the date is
    read and cut, the row is formatted and printed. Every step that can
    raise does so here; the text of a row that is printed is not computed,
    the event holds the three fields it is made of. *)
Fixpoint print_models (models : list json) : M unit :=
  match models with
  | [] => ret tt
  | model :: r =>
      name <- lift (Py.get model "name" (JString "Unknown")) ;;
      size <- lift (Py.get model "size" (JInt 0)) ;;
      lift (format_size_check size) ;;
      modified <- lift (Py.get model "modified_at" (JString "Unknown")) ;;
      text <- lift (modified_text modified) ;;
      lift (name_format_check name) ;;
      if printable name && negb (Text.has_surrogate text) then
        emit (PrintModel name size modified) ;;
        print_models r
      else raise encode_error
  end.

(** [list_models] *)
Definition list_models : M unit :=
  print_header "Available Models" ;;
  models <- AIClient.list_models w ;;
  if negb (Py.truthy models) then
    print (colored "❌ No models found or Ollama not running" "red")
  else
    print (ljust (colored "Model Name" "bold") 40 ++ " "
           ++ ljust (colored "Size" "bold") 10 ++ " "
           ++ colored "Modified" "bold") ;;
    print (colored (repeat_str "-" 70) "blue") ;;
    match models with
    | JArray vs => print_models vs
    | JObject _ | JString _ =>
        (* the first element of the iteration is a text *)
        raise (Exn AttributeError "'str' object has no attribute 'get'")
    | _ =>
        raise (Exn TypeError ("'" ++ Py.type_name models ++ "' object is not iterable"))
    end.

Definition goodbye : string := colored "👋 Goodbye!" "yellow".
Definition you_prompt : string := colored "👤 You: " "green".

(** [input(prompt)] when [ev] is what is typed next. *)
Definition input (ev : option InputEvent) : M string :=
  emit (Input you_prompt) ;;
  match ev with
  | Some (Line s) => ret s
  | Some Interrupt => raise (Exn KeyboardInterrupt EmptyString)
  | None => raise (Exn EOFError "EOF when reading a line")
  end.

Definition is_KeyboardInterrupt (e : exn) : bool :=
  exn_class_eqb (exn_cls e) KeyboardInterrupt.

(** One turn of the interactive loop, inside its [try]. The result tells
    whether the loop goes on ([true]) or was left by [break]. *)
Definition chat_turn (args : Namespace) (ev : option InputEvent) : M bool :=
  try_except
    (message <- input ev ;;
     if Py.str_in (lower message) ["/quit"; "/exit"; "/q"] then
       print goodbye ;; ret false
     else if String.eqb (lower message) "/help" then
       show_interactive_help ;; ret true
     else if String.eqb (lower message) "/clear" then
       emit (System (if posix w then "clear" else "cls")) ;; ret true
     else if String.eqb (lower message) "/models" then
       list_models ;; ret true
     else if all_space message then ret true
     else
       print_end (colored "🤖 AI:" "blue") " " ;;
       if arg_stream args then
         g <- AIClient.chat_stream w message (Some (arg_model args)) None ;;
         for_each_print g ;;
         print nl ;;
         ret true
       else
         response <- AIClient.chat w message (Some (arg_model args)) None ;;
         print_value response (nl ++ nl) ;;
         ret true)
    is_KeyboardInterrupt
    (fun _ => print (nl ++ goodbye) ;; ret false).

(** [while True: ...] over what is typed. When the input has ended,
    [input] raises [EOFError], which nothing catches. *)
Fixpoint chat_loop (args : Namespace) (inputs : list InputEvent) : M unit :=
  match inputs with
  | [] => go_on <- chat_turn args None ;; ret tt
  | ev :: rest =>
      go_on <- chat_turn args (Some ev) ;;
      if go_on then chat_loop args rest else ret tt
  end.

(** [cmd_chat] *)
Definition cmd_chat (args : Namespace) : M unit :=
  ok <- check_ollama_status ;;
  if negb ok then ret tt
  else
    match arg_message args with
    | Some message =>
        if Py.truthy_str (arg_message args) then
          (* single message *)
          print_header ("Chat with " ++ arg_model args) ;;
          print (colored "👤 You:" "green" ++ " " ++ message) ;;
          print_end (colored "🤖 AI:" "blue") " " ;;
          if arg_stream args then
            g <- AIClient.chat_stream w message (Some (arg_model args)) None ;;
            response <- for_each_print_and_join g ;;
            print EmptyString
          else
            response <- AIClient.chat w message (Some (arg_model args)) None ;;
            print_value response nl
        else
          print_header ("Interactive Chat with " ++ arg_model args) ;;
          print (colored "Type /quit to exit, /help for commands" "yellow" ++ nl) ;;
          chat_loop args (stdin w)
    | None =>
        print_header ("Interactive Chat with " ++ arg_model args) ;;
        print (colored "Type /quit to exit, /help for commands" "yellow" ++ nl) ;;
        chat_loop args (stdin w)
    end.

(** [cmd_code] *)
Definition cmd_code (args : Namespace) : M unit :=
  ok <- check_ollama_status ;;
  if negb ok then ret tt
  else
    let system_prompt :=
      "You are an expert programmer. Provide clean, well-commented code solutions. "
      ++ nl ++
      "        Always include explanations of how the code works. Format code blocks properly with language markers." in
    print_header "Code Assistant" ;;
    print (colored "📝 Request:" "green" ++ " " ++ arg_prompt args) ;;
    print (colored "💻 AI Response:" "blue" ++ nl) ;;
    respond args (arg_prompt args) system_prompt.

(** [with open(path, 'r', encoding='utf-8') as f: content = f.read()] *)
Definition read_file (path : string) : M string :=
  emit (ReadFile path) ;; lift (read_text w path).

(** [os.path.isfile(path)] *)
Definition os_path_isfile (path : string) : M bool :=
  emit (IsFile path) ;; ret (isfile w path).

Definition error_reading_file (e : exn) : M unit :=
  print (colored "❌ Error reading file:" "red" ++ " " ++ exn_str e).

(** [cmd_explain] *)
Definition cmd_explain (args : Namespace) : M unit :=
  ok <- check_ollama_status ;;
  if negb ok then ret tt
  else
    let system_prompt :=
      "You are a helpful teacher. Explain concepts clearly and thoroughly. "
      ++ nl ++
      "        Use examples when helpful. Break down complex topics into understandable parts." in
    is_file <- os_path_isfile (arg_topic args) ;;
    prompt <-
      (if is_file then
         try_except
           (content <- read_file (arg_topic args) ;;
            ret (Some ("Please explain this code:" ++ nl ++ nl ++ "```" ++ nl
                       ++ content ++ nl ++ "```")))
           is_Exception
           (fun e => error_reading_file e ;; ret None)
       else ret (Some ("Please explain: " ++ arg_topic args))) ;;
    match prompt with
    | None => ret tt
    | Some prompt =>
        print_header "Explanation" ;;
        print (colored "❓ Topic:" "green" ++ " " ++ arg_topic args) ;;
        print (colored "📚 Explanation:" "blue" ++ nl) ;;
        respond args prompt system_prompt
    end.

(** [cmd_translate] *)
Definition cmd_translate (args : Namespace) : M unit :=
  ok <- check_ollama_status ;;
  if negb ok then ret tt
  else
    let system_prompt :=
      "You are a professional translator. Translate the given text to "
      ++ arg_to args ++ " accurately, " ++ nl ++
      "        maintaining the original meaning and context. Provide only the translation unless asked otherwise." in
    print_header ("Translation to " ++ arg_to args) ;;
    print (colored "🌐 Original:" "green" ++ " " ++ arg_text args) ;;
    print (colored "🔄 Translation:" "blue" ++ nl) ;;
    let prompt := "Translate this to " ++ arg_to args ++ ": " ++ arg_text args in
    respond args prompt system_prompt.

(** [cmd_summarize] *)
Definition cmd_summarize (args : Namespace) : M unit :=
  ok <- check_ollama_status ;;
  if negb ok then ret tt
  else
    let system_prompt :=
      "You are an expert at creating concise, informative summaries. "
      ++ nl ++
      "        Capture the key points and main ideas while being clear and comprehensive." in
    is_file <- os_path_isfile (arg_input args) ;;
    prompt <-
      (if is_file then
         try_except
           (content <- read_file (arg_input args) ;;
            ret (Some ("Please summarize this content:" ++ nl ++ nl ++ content,
                       "File: " ++ arg_input args)))
           is_Exception
           (fun e => error_reading_file e ;; ret None)
       else ret (Some ("Please summarize: " ++ arg_input args, "Text input"))) ;;
    match prompt with
    | None => ret tt
    | Some (prompt, input_desc) =>
        print_header "Summary" ;;
        print (colored "📄 Input:" "green" ++ " " ++ input_desc) ;;
        print (colored "📝 Summary:" "blue" ++ nl) ;;
        respond args prompt system_prompt
    end.

(** [cmd_review] *)
Definition cmd_review (args : Namespace) : M unit :=
  ok <- check_ollama_status ;;
  if negb ok then ret tt
  else
    let system_prompt :=
      "You are an experienced code reviewer. Analyze code for:" ++ nl ++
      "        - Bugs and potential issues" ++ nl ++
      "        - Performance improvements" ++ nl ++
      "        - Best practices" ++ nl ++
      "        - Security concerns" ++ nl ++
      "        - Code style and readability" ++ nl ++
      "        Provide constructive feedback with specific suggestions." in
    is_file <- os_path_isfile (arg_file args) ;;
    if negb is_file then
      print (colored "❌ Error:" "red" ++ " File not found: " ++ arg_file args)
    else
      content <-
        try_except
          (content <- read_file (arg_file args) ;; ret (Some content))
          is_Exception
          (fun e => error_reading_file e ;; ret None) ;;
      match content with
      | None => ret tt
      | Some content =>
          let prompt :=
            "Please review this code and provide feedback:" ++ nl ++ nl
            ++ "```" ++ nl ++ content ++ nl ++ "```" in
          print_header ("Code Review: " ++ arg_file args) ;;
          print (colored "🔍 Reviewing:" "green" ++ " " ++ arg_file args) ;;
          print (colored "📋 Review:" "blue" ++ nl) ;;
          respond args prompt system_prompt
      end.

Definition command_is (args : Namespace) (name : string) : bool :=
  match arg_command args with
  | Some c => String.eqb c name
  | None => false
  end.

(** The dispatch of [main], after the arguments are parsed. *)
Definition main (args : Namespace) : M unit :=
  let args :=
    if negb (Py.truthy_str (arg_command args)) then
      mkNamespace (Some "chat") (arg_model args) (arg_stream args) None true
                  (arg_prompt args) (arg_topic args) (arg_text args)
                  (arg_to args) (arg_input args) (arg_file args)
    else args in
  if command_is args "chat" then cmd_chat args
  else if command_is args "code" then cmd_code args
  else if command_is args "explain" then cmd_explain args
  else if command_is args "translate" then cmd_translate args
  else if command_is args "summarize" then cmd_summarize args
  else if command_is args "review" then cmd_review args
  else if command_is args "models" then list_models
  else ret tt.

End WithWorld.
End AICLI.

(* ===================================================================== *)
(** ** Worlds and inputs of the scenarios *)
(* ===================================================================== *)

Module Scenario.
Import Text.

(** The line [{"response":"s"}] of a stream, and its final line. *)
Definition response_line (s : string) : string :=
  "{" ++ q "response" ++ ":" ++ q s ++ "}".
Definition done_line : string := "{" ++ q "done" ++ ":true}".

(** Scenario A: the body [{"response": "4"}]. *)
Definition body_A : string := "{" ++ q "response" ++ ": " ++ q "4" ++ "}".

(** Scenario B: three lines, each closed by a newline. *)
Definition body_B : string :=
  response_line "Hel" ++ nl ++ response_line "lo" ++ nl ++ done_line ++ nl.

(** A server that meets every call with the same outcome. *)
Definition always (o : HttpOutcome) : nat -> Request -> HttpOutcome :=
  fun _ _ => o.

Definition ok_200 (body : string) : HttpOutcome :=
  Responded (mkResponse 200 body None).

Definition refused : exn :=
  Exn RequestException "Connection refused".

Definition permission_denied : exn :=
  Exn OSError "[Errno 13] Permission denied: 'code.py'".

(** A world with the given server and typed input, not a terminal, in
    which [code.py] is a file that cannot be read and nothing else is a
    file. *)
Definition world (server : nat -> Request -> HttpOutcome)
           (typed : list InputEvent) : World :=
  mkWorld server false true
          (fun p => String.eqb p "code.py")
          (fun p => Raise permission_denied)
          typed.

Definition args (cmd : option string) (streaming : bool) : Namespace :=
  mkNamespace cmd "llama3-small-q3-k-s" streaming None false
              "Create a function" "code.py" "Hello" "portuguese"
              "code.py" "code.py".

Definition probe : Request := GET AIClient.tags_url (Some 5).

(** Scenario C: the server is down. *)
Definition server_down : World := world (always (Raised refused)) [].

(** A server that answers every call with status 200 and the body of
    scenario A. *)
Definition server_A : World := world (always (ok_200 body_A)) [].

(** Scenario B: the server streams the three lines. *)
Definition server_B : World := world (always (ok_200 body_B)) [].

(** A stream in which a fragment follows the final line. *)
Definition body_after_done : string :=
  done_line ++ nl ++ response_line "x" ++ nl.
Definition server_after_done : World :=
  world (always (ok_200 body_after_done)) [].

(** A stream whose second line was cut inside the two bytes of the
    letter e with acute accent: it ends with the byte 195. *)
Definition cut_line : string :=
  "{" ++ q "response" ++ ":" ++ dq ++ "caf" ++ String "195" EmptyString.
Definition body_cut : string :=
  response_line "a" ++ nl ++ cut_line ++ nl
  ++ response_line "b" ++ nl ++ response_line "c" ++ nl.
Definition server_cut : World := world (always (ok_200 body_cut)) [].

(** A server that answers with status 201 and the body of scenario A. *)
Definition server_201 : World :=
  world (always (Responded (mkResponse 201 body_A None))) [].

(** A server that does not know the model: status 404 and an error body,
    whether the call streams or not. *)
Definition body_404 : string :=
  "{" ++ q "error" ++ ":" ++ q "model 'nope' not found" ++ "}".
Definition server_404 : World :=
  world (always (Responded (mkResponse 404 body_404 None))) [].

(** A catalog whose member [models] is a number. *)
Definition body_models_7 : string := "{" ++ q "models" ++ ": 7}".
Definition server_models_7 : World := world (always (ok_200 body_models_7)) [].

(** A server whose answer has no member [response]. *)
Definition server_done_only : World := world (always (ok_200 done_line)) [].

(** A stream that breaks after its first line. *)
Definition broken_pipe : exn := Exn RequestException "Connection broken".
Definition server_broken : World :=
  world (always (Responded (mkResponse 200 (response_line "Hel" ++ nl)
                                       (Some broken_pipe)))) [].

(** An answer that is half of a surrogate pair, written with the escape
    of JSON: [{"response": "\ud83d"}], alone or as the second line of a
    stream. *)
Definition body_surrogate : string :=
  "{" ++ q "response" ++ ": " ++ q "\ud83d" ++ "}".
Definition server_surrogate : World := world (always (ok_200 body_surrogate)) [].
(** That half of a pair as a text: the bytes 237, 160, 189. *)
Definition half_pair : json :=
  JString (String "237" (String "160" (String "189" EmptyString))).
Definition body_stream_surrogate : string :=
  response_line "Hel" ++ nl ++ response_line "\ud83d" ++ nl
  ++ response_line "lo" ++ nl ++ done_line ++ nl.
Definition server_stream_surrogate : World :=
  world (always (ok_200 body_stream_surrogate)) [].

(** A catalog of two models, the second without size and date. *)
Definition body_catalog : string :=
  "{" ++ q "models" ++ ":[{" ++ q "name" ++ ":" ++ q "llama3:8b" ++ ","
      ++ q "size" ++ ":4661224676,"
      ++ q "modified_at" ++ ":" ++ q "2024-05-01T10:20:30.123456789Z" ++ "},{"
      ++ q "name" ++ ":" ++ q "tiny" ++ "}]}".
Definition server_catalog : World := world (always (ok_200 body_catalog)) [].

(** A catalog whose second model has the size [null]. *)
Definition body_catalog_null : string :=
  "{" ++ q "models" ++ ":[{" ++ q "name" ++ ":" ++ q "llama3:8b" ++ ","
      ++ q "size" ++ ":4661224676,"
      ++ q "modified_at" ++ ":" ++ q "2024-05-01T10:20:30.123456789Z" ++ "},{"
      ++ q "name" ++ ":" ++ q "tiny" ++ "," ++ q "size" ++ ":null},{"
      ++ q "name" ++ ":" ++ q "last" ++ "}]}".
Definition server_catalog_null : World :=
  world (always (ok_200 body_catalog_null)) [].

(** The entries of these catalogs, decoded. *)
Definition entry_llama : json :=
  JObject [("name", JString "llama3:8b"); ("size", JInt 4661224676);
           ("modified_at", JString "2024-05-01T10:20:30.123456789Z")].
Definition entry_tiny : json := JObject [("name", JString "tiny")].
Definition entry_null : json :=
  JObject [("name", JString "tiny"); ("size", JNull)].
Definition entry_last : json := JObject [("name", JString "last")].

(** The request of a generation call. *)
Definition generate (message : string) (model system_prompt : option string)
           (stream : bool) : Request :=
  POST AIClient.generate_url
       (AIClient.payload message model system_prompt stream) stream 120.

End Scenario.

(* ===================================================================== *)
(** ** What the operations compute, by outcome of their call *)
(* ===================================================================== *)

(** Whether the outcome of the probe makes [check_connection] true. *)
Definition probe_ok (o : HttpOutcome) : bool :=
  match o with
  | Raised _ => false
  | Responded r =>
      match broken r with
      | Some _ => false
      | None => status_code r =? 200
      end
  end.

(** What [check_ollama_status] prints when the probe has failed. *)
Definition not_running (w : World) : list event :=
  [ Print (AICLI.colored w "❌ Error:" "red"
           ++ " Ollama is not running or not accessible.") Text.nl;
    Print (AICLI.colored w "💡 Tip:" "yellow"
           ++ " Start Ollama with: ./ollama.sh start") Text.nl ].

(** The chunk in which [chat_stream] reports an exception. *)
Definition error_chunk (e : exn) : json :=
  JString ("Connection error: " ++ exn_str e).

(** What the loop of [chat_stream] produces for each outcome of its call,
    before the outer [except]. *)
Definition stream_of (o : HttpOutcome) : AIClient.generated :=
  match o with
  | Raised e => ([], Some e)
  | Responded r => AIClient.decode_lines (Text.splitlines (content r)) (broken r)
  end.

(** What [chat] returns for each outcome of its call ([chat_run] proves
    it from the code). *)
Definition chat_of (o : HttpOutcome) : result json :=
  match o with
  | Raised e =>
      if is_Exception e then Ok (error_chunk e) else Raise e
  | Responded r =>
      match broken r with
      | Some e =>
          if is_Exception e then Ok (error_chunk e) else Raise e
      | None =>
          if status_code r =? 200 then
            match Json.decode (content r) with
            | Some (JObject ms) =>
                Ok (match Py.dict_get "response" ms with
                    | Some v => v
                    | None => JString "No response received"
                    end)
            | Some v =>
                Ok (JString ("Connection error: '" ++ Py.type_name v
                             ++ "' object has no attribute 'get'"))
            | None => Ok (error_chunk Json.decode_error)
            end
          else
            Ok (JString ("Error: " ++ Text.str_of_Z (status_code r)
                                    ++ " - " ++ content r))
      end
  end.

(** What [list_models] returns for each outcome of its call
    ([list_models_run] proves it from the code). *)
Definition models_of (o : HttpOutcome) : json :=
  match o with
  | Raised _ => JArray []
  | Responded r =>
      match broken r with
      | Some _ => JArray []
      | None =>
          if status_code r =? 200 then
            match Json.decode (content r) with
            | Some (JObject ms) =>
                match Py.dict_get "models" ms with
                | Some v => v
                | None => JArray []
                end
            | _ => JArray []
            end
          else JArray []
      end
  end.

(** The texts among the chunks, joined; [None] when a chunk is no text. *)
Fixpoint join_chunks (vs : list json) : option string :=
  match vs with
  | [] => Some EmptyString
  | JString s :: r =>
      match join_chunks r with
      | Some t => Some (s ++ t)
      | None => None
      end
  | _ :: _ => None
  end.

(** A line the decoder takes for a fragment: a JSON object with a member
    [response]. *)
Definition fragment_line (line : string) : bool :=
  match Json.loads line with
  | Ok (JObject ms) =>
      match Py.dict_get "response" ms with Some _ => true | None => false end
  | _ => false
  end.

(** The fragments a stream carries, in the words of the specification:
    the [response] members of the lines that are JSON objects with such a
    member, in the order of the lines. *)
Definition fragments (lines : list string) : list json :=
  flat_map
    (fun line =>
       match Json.loads line with
       | Ok (JObject ms) =>
           match Py.dict_get "response" ms with
           | Some v => [v]
           | None => []
           end
       | _ => []
       end)
    lines.

(** A line the decoder is written for: empty, or bytes that are text but
    no JSON document, or a JSON object. *)
Definition expected_line (line : string) : bool :=
  String.eqb line EmptyString ||
  match Json.loads line with
  | Ok (JObject _) => true
  | Ok _ => false
  | Raise e => exn_class_eqb (exn_cls e) JSONDecodeError
  end.

(** The outcomes of the probe the specification calls failures: an
    exception instead of a response (network error, timeout), a transfer
    that broke, or a status outside 200..299. *)
Definition probe_failed (o : HttpOutcome) : Prop :=
  match o with
  | Raised _ => True
  | Responded r => broken r <> None \/ ~ (200 <= status_code r <= 299)
  end.

(** The commands that begin with [check_ollama_status]. *)
Definition guarded_commands : list (World -> Namespace -> M unit) :=
  [ AICLI.cmd_chat; AICLI.cmd_code; AICLI.cmd_explain; AICLI.cmd_translate;
    AICLI.cmd_summarize; AICLI.cmd_review ].

(** The commands that read a file named by their argument, each with the
    attribute that holds the path. *)
Definition file_commands
  : list ((World -> Namespace -> M unit) * (Namespace -> string)) :=
  [ (AICLI.cmd_summarize, arg_input); (AICLI.cmd_review, arg_file);
    (AICLI.cmd_explain, arg_topic) ].

(** What is printed when the file cannot be read. *)
Definition error_reading (w : World) (e : exn) : event :=
  Print (AICLI.colored w "❌ Error reading file:" "red" ++ " " ++ exn_str e)
        Text.nl.

(* ===================================================================== *)
(** ** [format_size], and what the further properties speak of *)
(* ===================================================================== *)

(** The text of a number of tenths [t]: its whole part, a point, one
    digit. *)
Definition tenths_text (t : Z) : string :=
  Text.str_of_Z (t / 10) ++ "." ++ Text.str_of_Z (t mod 10).

(** The tenths nearest to the fraction [num / den] (with [0 <= num] and
    [0 < den]); of two tenths equally near, the even one. *)
Definition round_tenths (num den : Z) : Z :=
  let q := (10 * num) / den in
  let r := (10 * num) mod den in
  if 2 * r <? den then q
  else if den <? 2 * r then q + 1
  else if Z.even q then q else q + 1.

(** [f"{x:.1f}"] for the value [num / den]. *)
Definition format_1f (num den : Z) : string :=
  if num <? 0 then "-" ++ tenths_text (round_tenths (- num) den)
  else tenths_text (round_tenths num den).

(** The loop of [format_size] over the units that are left. The value of
    [bytes_size] after its divisions by 1024.0 is held as the fraction
    [num / den], [den] a power of 1024. For an [int] below 2^53 in size the
    floats of the code are these fractions exactly: the conversion is exact
    and a division by 1024.0 only lowers the exponent. *)
Fixpoint format_size_loop (units : list string) (num den : Z) : string :=
  match units with
  | [] => format_1f num den ++ "TB"
  | unit :: rest =>
      if num <? 1024 * den then format_1f num den ++ unit
      else format_size_loop rest num (1024 * den)
  end.

(** [AICLI.format_size] for an [int] argument. *)
Definition format_size (bytes_size : Z) : string :=
  format_size_loop ["B"; "KB"; "MB"; "GB"] bytes_size 1.

(** The units in the order of their size. *)
Definition size_units : list string := ["B"; "KB"; "MB"; "GB"; "TB"].

(** The inputs the interactive loop handles itself. *)
Definition control_commands : list string :=
  ["/quit"; "/exit"; "/q"; "/help"; "/clear"; "/models"].


(** The events of printing chunks one after the other. *)
Definition chunk_prints (vs : list json) : list event :=
  map (fun v => PrintValue v EmptyString) vs.

(** The chunks that are printed before the first one [print] cannot
    encode. *)
Fixpoint printed_prefix (vs : list json) : list json :=
  match vs with
  | [] => []
  | v :: r => if printable v then v :: printed_prefix r else []
  end.

(** The classes of the exceptions that the table of models can raise.
    ([KeyError] is what Python raises from version 3.12 on for a date that
    is an object, where the versions before it raise [TypeError].) *)
Definition table_errors : list exn_class :=
  [TypeError; AttributeError; OverflowError; KeyError; UnicodeEncodeError].

(** What [print_header] prints. *)
Definition header_events (w : World) (s : string) : list event :=
  [ Print (Text.nl ++ AICLI.colored w (Text.repeat_str "═" 60) "blue") Text.nl;
    Print (AICLI.colored w ("🤖 AI CLI - " ++ s) "bold") Text.nl;
    Print (AICLI.colored w (Text.repeat_str "═" 60) "blue" ++ Text.nl) Text.nl ].

(** What is printed before the loop of the interactive session. *)
Definition session_banner (w : World) (args : Namespace) : list event :=
  [ Print (Text.nl ++ AICLI.colored w (Text.repeat_str "═" 60) "blue") Text.nl;
    Print (AICLI.colored w ("🤖 AI CLI - " ++ "Interactive Chat with "
                                           ++ arg_model args) "bold") Text.nl;
    Print (AICLI.colored w (Text.repeat_str "═" 60) "blue" ++ Text.nl) Text.nl;
    Print (AICLI.colored w "Type /quit to exit, /help for commands" "yellow"
           ++ Text.nl) Text.nl ].

(** The three fields of a catalog entry that is an object, with what
    stands for a field that is missing. *)
Definition model_name (ms : list (string * json)) : json :=
  match Py.dict_get "name" ms with Some v => v | None => JString "Unknown" end.
Definition model_size (ms : list (string * json)) : json :=
  match Py.dict_get "size" ms with Some v => v | None => JInt 0 end.
Definition model_modified (ms : list (string * json)) : json :=
  match Py.dict_get "modified_at" ms with
  | Some v => v
  | None => JString "Unknown"
  end.

(** The row of the table for a catalog entry that is an object. *)
Definition model_row (model : json) : event :=
  match model with
  | JObject ms => PrintModel (model_name ms) (model_size ms) (model_modified ms)
  | _ => PrintModel JNull JNull JNull
  end.

Definition is_object (v : json) : bool :=
  match v with
  | JObject _ => true
  | _ => false
  end.

(** A size that can be shown: a truth value, or a number that a float can
    hold. *)
Definition size_ok (size : json) : bool :=
  match size with
  | JInt n => Z.abs n <? 2 ^ 1024 - 2 ^ 970
  | JBool _ | JFloat _ => true
  | _ => false
  end.

(** A date that can be shown: a text whose first 19 characters hold no
    lone surrogate. *)
Definition date_ok (modified : json) : bool :=
  match modified with
  | JString s => negb (Text.has_surrogate (Text.take_chars 19 s))
  | _ => false
  end.

(** A name that can be shown: a text without a lone surrogate, a number
    or a truth value; on a terminal, where the name is wrapped in colour
    codes, also [null], a list or an object. *)
Definition name_ok (w : World) (name : json) : bool :=
  match name with
  | JString s => negb (Text.has_surrogate s)
  | JNull | JArray _ | JObject _ => isatty w
  | _ => true
  end.

(** A catalog entry whose row can be shown. *)
Definition row_ok (w : World) (model : json) : bool :=
  match model with
  | JObject ms =>
      size_ok (model_size ms) && date_ok (model_modified ms)
      && name_ok w (model_name ms)
  | _ => false
  end.


(* ===================================================================== *)
(** ** How the operations run *)
(* ===================================================================== *)

Section Runs.

Variable w : World.

Lemma check_connection_run (n : nat) :
  AIClient.check_connection w n =
  (Ok (probe_ok (http w n Scenario.probe)), [Http Scenario.probe], S n).
Proof.
  unfold AIClient.check_connection, try_except, bind, AIClient.send, probe_ok.
  fold Scenario.probe.
  destruct (http w n Scenario.probe) as [e | r]; simpl; [reflexivity |].
  destruct (broken r); reflexivity.
Qed.

Lemma check_ollama_status_run (n : nat) :
  AICLI.check_ollama_status w n =
  if probe_ok (http w n Scenario.probe)
  then (Ok true, [Http Scenario.probe], S n)
  else (Ok false, Http Scenario.probe :: not_running w, S n).
Proof.
  unfold AICLI.check_ollama_status, bind.
  rewrite check_connection_run.
  destruct (probe_ok (http w n Scenario.probe)); reflexivity.
Qed.

Lemma chat_stream_run (message : string) (model system_prompt : option string)
      (n : nat) :
  let req := Scenario.generate message model system_prompt true in
  AIClient.chat_stream w message model system_prompt n =
  (Ok (AIClient.except_yield (stream_of (http w n req))), [Http req], S n).
Proof.
  unfold AIClient.chat_stream, AIClient.send, Scenario.generate, stream_of.
  cbv zeta. simpl streamed.
  destruct (http w n _) as [e | r]; reflexivity.
Qed.

Lemma chat_run (message : string) (model system_prompt : option string)
      (n : nat) :
  let req := Scenario.generate message model system_prompt false in
  AIClient.chat w message model system_prompt n =
  (chat_of (http w n req), [Http req], S n).
Proof.
  unfold AIClient.chat, try_except, bind, AIClient.send, Scenario.generate,
    chat_of, error_chunk, lift, ret, response_json, text.
  cbv zeta. simpl streamed.
  destruct (http w n _) as [e | r].
  - destruct (is_Exception e); reflexivity.
  - destruct (broken r) as [e |].
    + destruct (is_Exception e); reflexivity.
    + destruct (status_code r =? 200); [| reflexivity].
      destruct (Json.decode (content r)) as [v |]; [| reflexivity].
      destruct v; reflexivity.
Qed.

Lemma list_models_run (n : nat) :
  let req := GET AIClient.tags_url None in
  AIClient.list_models w n = (Ok (models_of (http w n req)), [Http req], S n).
Proof.
  unfold AIClient.list_models, try_except, bind, AIClient.send, models_of,
    lift, ret, response_json.
  cbv zeta. simpl streamed.
  destruct (http w n _) as [e | r]; [reflexivity |].
  destruct (broken r) as [e |]; [reflexivity |].
  destruct (status_code r =? 200); [| reflexivity].
  destruct (Json.decode (content r)) as [v |]; [| reflexivity].
  destruct v; reflexivity.
Qed.

End Runs.

(* ===================================================================== *)
(** ** The session driver *)
(* ===================================================================== *)

(** A turn whose input is an exit command: the prompt, the farewell, and
    the loop is left. *)
Lemma chat_turn_exit (w : World) (args : Namespace) (message : string) (n : nat) :
  Py.str_in (Text.lower message) ["/quit"; "/exit"; "/q"] = true ->
  AICLI.chat_turn w args (Some (Line message)) n =
  (Ok false, [Input (AICLI.you_prompt w); Print (AICLI.goodbye w) Text.nl], n).
Proof.
  intros H.
  unfold AICLI.chat_turn, AICLI.input.
  unfold try_except, bind, emit, ret, print.
  cbv beta iota. rewrite H. reflexivity.
Qed.

(** C1. In the interactive session, an input that is, up to the case of
    its letters, the exit command [/quit] or its alias [/exit] ends the
    session at once: the loop returns after the prompt and the farewell,
    whatever is typed after it, and no HTTP call is made. *)
Theorem exit_command_ends_session
        (w : World) (args : Namespace) (message : string)
        (rest : list InputEvent) (n : nat) :
  Text.lower message = "/quit" \/ Text.lower message = "/exit" ->
  AICLI.chat_loop w args (Line message :: rest) n =
    (Ok tt, [Input (AICLI.you_prompt w); Print (AICLI.goodbye w) Text.nl], n)
  /\ network_calls (events (AICLI.chat_loop w args (Line message :: rest)) n) = [].
Proof.
  intros H.
  assert (E : AICLI.chat_loop w args (Line message :: rest) n =
              (Ok tt, [Input (AICLI.you_prompt w); Print (AICLI.goodbye w) Text.nl], n)).
  { simpl AICLI.chat_loop. unfold bind.
    rewrite chat_turn_exit.
    - reflexivity.
    - destruct H as [H | H]; rewrite H; reflexivity. }
  split; [exact E |].
  unfold events. rewrite E. reflexivity.
Qed.

Lemma exit_command_ends_session_witness :
  (Text.lower "/QUIT" = "/quit" \/ Text.lower "/QUIT" = "/exit")
  /\ AICLI.chat_loop Scenario.server_A
       (Scenario.args None false) (Line "/QUIT" :: [Line "hello"]) 1%nat
     = (Ok tt, [Input "👤 You: "; Print "👋 Goodbye!" Text.nl], 1%nat).
Proof.
  split.
  - left. reflexivity.
  - apply (exit_command_ends_session
             Scenario.server_A
             (Scenario.args None false) "/QUIT" [Line "hello"] 1%nat).
    left. reflexivity.
Defined.

(* ===================================================================== *)
(** ** The guard of the commands *)
(* ===================================================================== *)

Lemma guard_false (w : World) (n : nat) (k : M unit) :
  probe_ok (http w n Scenario.probe) = false ->
  (ok <- AICLI.check_ollama_status w ;; if negb ok then ret tt else k) n =
  (Ok tt, Http Scenario.probe :: not_running w, S n).
Proof.
  intros H. unfold bind. rewrite check_ollama_status_run, H.
  reflexivity.
Qed.

Lemma guard_true (w : World) (n : nat) (k : M unit) :
  probe_ok (http w n Scenario.probe) = true ->
  (ok <- AICLI.check_ollama_status w ;; if negb ok then ret tt else k) n =
  (let '(r, t, n') := k (S n) in (r, Http Scenario.probe :: t, n')).
Proof.
  intros H. unfold bind. rewrite check_ollama_status_run, H.
  simpl. destruct (k (S n)) as [[r t] n']. reflexivity.
Qed.

Lemma guarded_commands_stop (w : World) (args : Namespace) (n : nat)
      (cmd : World -> Namespace -> M unit) :
  probe_ok (http w n Scenario.probe) = false ->
  In cmd guarded_commands ->
  cmd w args n = (Ok tt, Http Scenario.probe :: not_running w, S n).
Proof.
  intros H Hin. unfold guarded_commands in Hin. simpl in Hin.
  repeat (destruct Hin as [<- | Hin]; [now apply guard_false |]).
  contradiction.
Qed.

(** The rows of the table of models: no HTTP call, whether they are all
    printed or one of them raises, and the number of calls is left as it
    was. *)
Lemma print_models_shape (w : World) (models : list json) (n : nat) :
  exists (r : result unit) (t : list event),
    AICLI.print_models w models n = (r, t, n) /\ network_calls t = [].
Proof.
  induction models as [| model rest IH]; [exists (Ok tt), []; split; reflexivity |].
  cbn [AICLI.print_models]. unfold bind, lift, emit, raise.
  destruct (Py.get model "name" _) as [a |]; [| eexists _, _; split; reflexivity].
  destruct (Py.get model "size" _) as [b |]; [| eexists _, _; split; reflexivity].
  destruct (AICLI.format_size_check b) as [[] |];
    [| eexists _, _; split; reflexivity].
  destruct (Py.get model "modified_at" _) as [c |];
    [| eexists _, _; split; reflexivity].
  destruct (AICLI.modified_text c) as [d |]; [| eexists _, _; split; reflexivity].
  destruct (AICLI.name_format_check w a) as [[] |];
    [| eexists _, _; split; reflexivity].
  destruct (printable a && negb (Text.has_surrogate d));
    [| eexists _, _; split; reflexivity].
  destruct IH as (r & t & E & N). rewrite E.
  exists r, (PrintModel a b c :: t)%list. split; [reflexivity | exact N].
Qed.

Lemma print_models_offline (w : World) (models : list json) (n : nat) :
  network_calls (events (AICLI.print_models w models) n) = [].
Proof.
  destruct (print_models_shape w models n) as (r & t & E & N).
  unfold events. rewrite E. exact N.
Qed.

(** The command [models] makes one GET and no POST. *)
Lemma list_models_posts (w : World) (n : nat) :
  posts (events (AICLI.list_models w) n) = [].
Proof.
  unfold events, AICLI.list_models, AICLI.print_header.
  unfold bind at 1 2 3 4. unfold print at 1 2 3. unfold emit. cbv beta iota.
  rewrite list_models_run. cbv beta iota zeta.
  set (models := models_of _).
  destruct (Py.truthy models).
  - cbn [negb]. unfold bind, print, emit. cbv beta iota.
    assert (P : forall m : M unit,
               network_calls (events m (S n)) = [] ->
               posts (snd (fst (m (S n)))) = []).
    { intros m Hm. unfold events, network_calls, posts in *.
      induction (snd (fst (m (S n)))) as [| ev t IHt]; [reflexivity |].
      simpl in *. destruct ev; simpl in *; try discriminate; auto. }
    destruct models; simpl; try reflexivity.
    generalize (print_models_offline w items (S n)). intros Hm.
    apply P in Hm.
    destruct (AICLI.print_models w items (S n)) as [[r t] n'].
    simpl in *. destruct r; simpl; rewrite ?app_nil_r; exact Hm.
  - reflexivity.
Qed.

(** [main] runs one of the guarded commands, the command [models], or
    nothing. *)
Lemma main_cases (w : World) (args : Namespace) (n : nat) :
  (exists cmd args', In cmd guarded_commands /\ AICLI.main w args n = cmd w args' n)
  \/ AICLI.main w args n = AICLI.list_models w n
  \/ AICLI.main w args n = (Ok tt, [], n).
Proof.
  unfold AICLI.main, guarded_commands.
  set (args' := if negb (Py.truthy_str (arg_command args)) then _ else args).
  destruct (AICLI.command_is args' "chat");
    [left; exists AICLI.cmd_chat, args'; split; [simpl; tauto | reflexivity] |].
  destruct (AICLI.command_is args' "code");
    [left; exists AICLI.cmd_code, args'; split; [simpl; tauto | reflexivity] |].
  destruct (AICLI.command_is args' "explain");
    [left; exists AICLI.cmd_explain, args'; split; [simpl; tauto | reflexivity] |].
  destruct (AICLI.command_is args' "translate");
    [left; exists AICLI.cmd_translate, args'; split; [simpl; tauto | reflexivity] |].
  destruct (AICLI.command_is args' "summarize");
    [left; exists AICLI.cmd_summarize, args'; split; [simpl; tauto | reflexivity] |].
  destruct (AICLI.command_is args' "review");
    [left; exists AICLI.cmd_review, args'; split; [simpl; tauto | reflexivity] |].
  destruct (AICLI.command_is args' "models"); [right; left | right; right];
    reflexivity.
Qed.

(** C6. When the probe meets a network error, a timeout or a status that
    is not 2xx, [check_connection] returns false and raises nothing; and
    whenever it returns false, each command that calls it stops after the
    two lines of the error message, so that the probe is its only HTTP
    call, and no dispatch of [main] makes a POST. *)
Theorem failed_probe_stops_dispatch (w : World) (n : nat) :
  (probe_failed (http w n Scenario.probe) ->
   AIClient.check_connection w n = (Ok false, [Http Scenario.probe], S n))
  /\ (outcome (AIClient.check_connection w) n = Ok false ->
      forall args : Namespace,
        (forall cmd, In cmd guarded_commands ->
           cmd w args n = (Ok tt, Http Scenario.probe :: not_running w, S n)
           /\ network_calls (events (cmd w args) n) = [Http Scenario.probe])
        /\ posts (events (AICLI.main w args) n) = []).
Proof.
  split.
  - intros H. rewrite check_connection_run.
    replace (probe_ok (http w n Scenario.probe)) with false; [reflexivity |].
    unfold probe_failed, probe_ok in *.
    destruct (http w n Scenario.probe) as [e | r]; [reflexivity |].
    destruct (broken r) as [e |]; [reflexivity |].
    destruct H as [H | H]; [congruence |].
    symmetry. apply Z.eqb_neq. lia.
  - intros H args.
    unfold outcome in H. rewrite check_connection_run in H. simpl in H.
    assert (F : probe_ok (http w n Scenario.probe) = false) by congruence.
    assert (G : forall cmd a, In cmd guarded_commands ->
                  cmd w a n = (Ok tt, Http Scenario.probe :: not_running w, S n)).
    { intros cmd a Hin. now apply guarded_commands_stop. }
    split.
    + intros cmd Hin. split; [now apply G |].
      unfold events. rewrite (G cmd args Hin). reflexivity.
    + destruct (main_cases w args n) as [(cmd & a & Hin & E) | [E | E]];
        unfold events; rewrite E.
      * rewrite (G cmd a Hin). reflexivity.
      * apply list_models_posts.
      * reflexivity.
Qed.

Lemma failed_probe_stops_dispatch_witness :
  probe_failed (http Scenario.server_down 0%nat Scenario.probe)
  /\ AIClient.check_connection Scenario.server_down 0%nat
     = (Ok false, [Http Scenario.probe], 1%nat)
  /\ outcome (AIClient.check_connection Scenario.server_down) 0%nat = Ok false
  /\ posts (events (AICLI.main Scenario.server_down
                               (Scenario.args (Some "review") true)) 0%nat) = [].
Proof.
  pose proof (failed_probe_stops_dispatch Scenario.server_down 0%nat) as [P Q].
  assert (F : probe_failed (http Scenario.server_down 0%nat Scenario.probe))
    by exact I.
  assert (O : outcome (AIClient.check_connection Scenario.server_down) 0%nat
              = Ok false) by reflexivity.
  split; [exact F |].
  split; [exact (P F) |].
  split; [exact O |].
  exact (proj2 (Q O (Scenario.args (Some "review") true))).
Defined.

(* ===================================================================== *)
(** ** The commands that read a file *)
(* ===================================================================== *)

Lemma probe_ok_of_check (w : World) (n : nat) (b : bool) :
  outcome (AIClient.check_connection w) n = Ok b ->
  probe_ok (http w n Scenario.probe) = b.
Proof.
  unfold outcome. rewrite check_connection_run. simpl. congruence.
Qed.

(** The run of a command after its guard, when the file is there and
    reading it raises. *)
Ltac file_fails :=
  unfold AICLI.os_path_isfile, AICLI.read_file, AICLI.error_reading_file,
    error_reading;
  unfold try_except, bind, emit, lift, ret, print;
  cbv beta iota;
  match goal with
  | Hf : isfile _ _ = true, Hr : read_text _ _ = Raise _,
    He : is_Exception _ = true |- _ =>
      rewrite Hf; cbv beta iota; rewrite Hr; cbv beta iota; rewrite He
  end;
  reflexivity.

(** C2, as the code has it. When the probe has succeeded and the
    argument of summarize, review or explain names a file that cannot be
    opened or decoded, the command prints the error and returns: the probe,
    made before the file is looked at, is its only HTTP call, and no
    generation request is sent. *)
Theorem unreadable_file_stops_before_generation
        (w : World) (args : Namespace) (n : nat) (e : exn)
        (cmd : World -> Namespace -> M unit) (path : Namespace -> string) :
  In (cmd, path) file_commands ->
  outcome (AIClient.check_connection w) n = Ok true ->
  isfile w (path args) = true ->
  read_text w (path args) = Raise e ->
  is_Exception e = true ->
  cmd w args n =
    (Ok tt,
     [Http Scenario.probe; IsFile (path args); ReadFile (path args);
      error_reading w e],
     S n)
  /\ posts (events (cmd w args) n) = [].
Proof.
  intros Hin Hp Hf Hr He.
  apply probe_ok_of_check in Hp.
  assert (E : cmd w args n =
              (Ok tt,
               [Http Scenario.probe; IsFile (path args); ReadFile (path args);
                error_reading w e], S n)).
  { unfold file_commands in Hin. simpl in Hin.
    destruct Hin as [Hin | [Hin | [Hin | []]]];
      injection Hin as <- <-.
    - unfold AICLI.cmd_summarize. rewrite (guard_true w n _ Hp). file_fails.
    - unfold AICLI.cmd_review. rewrite (guard_true w n _ Hp). file_fails.
    - unfold AICLI.cmd_explain. rewrite (guard_true w n _ Hp). file_fails. }
  split; [exact E |].
  unfold events. rewrite E. reflexivity.
Qed.

Lemma unreadable_file_stops_before_generation_witness :
  In (AICLI.cmd_review, arg_file) file_commands
  /\ outcome (AIClient.check_connection Scenario.server_A) 0%nat = Ok true
  /\ isfile Scenario.server_A (arg_file (Scenario.args (Some "review") false)) = true
  /\ read_text Scenario.server_A (arg_file (Scenario.args (Some "review") false))
     = Raise Scenario.permission_denied
  /\ is_Exception Scenario.permission_denied = true
  /\ posts (events (AICLI.cmd_review Scenario.server_A
                                     (Scenario.args (Some "review") false)) 0%nat) = [].
Proof.
  assert (H1 : In (AICLI.cmd_review, arg_file) file_commands)
    by (simpl; tauto).
  repeat (split; [first [exact H1 | reflexivity] |]).
  apply (unreadable_file_stops_before_generation
           Scenario.server_A (Scenario.args (Some "review") false) 0%nat
           Scenario.permission_denied AICLI.cmd_review arg_file H1);
    reflexivity.
Defined.

(** C2, as the specification has it, fails: with the server up, the
    review of a file that cannot be read has made an HTTP call, the probe,
    before the file is opened and the error printed. *)
Lemma unreadable_file_after_probe :
  AICLI.cmd_review Scenario.server_A (Scenario.args (Some "review") false) 0%nat
  = (Ok tt,
     [ Http (GET "http://localhost:11434/api/tags" (Some 5));
       IsFile "code.py";
       ReadFile "code.py";
       Print "❌ Error reading file: [Errno 13] Permission denied: 'code.py'"
             Text.nl ],
     1%nat)
  /\ network_calls (events (AICLI.cmd_review Scenario.server_A
                              (Scenario.args (Some "review") false)) 0%nat)
     <> [].
Proof.
  split; [vm_compute; reflexivity | vm_compute; discriminate].
Qed.

(** [cmd_review] on a path that is no file: the probe, the test, and the
    message. *)
Lemma review_file_not_found (w : World) (args : Namespace) (n : nat) :
  outcome (AIClient.check_connection w) n = Ok true ->
  isfile w (arg_file args) = false ->
  AICLI.cmd_review w args n =
  (Ok tt,
   [ Http Scenario.probe; IsFile (arg_file args);
     Print (AICLI.colored w "❌ Error:" "red" ++ " File not found: "
            ++ arg_file args) Text.nl ],
   S n).
Proof.
  intros Hp Hf. apply probe_ok_of_check in Hp.
  unfold AICLI.cmd_review. rewrite (guard_true w n _ Hp).
  unfold AICLI.os_path_isfile. unfold bind, emit, ret, print.
  cbv beta iota. rewrite Hf. reflexivity.
Qed.

(* ===================================================================== *)
(** ** The stream decoder *)
(* ===================================================================== *)

Lemma decode_lines_app (l1 l2 : list string) (ending : option exn)
      (cs : list json) :
  AIClient.decode_lines l1 None = (cs, None) ->
  AIClient.decode_lines (l1 ++ l2) ending =
  ((cs ++ fst (AIClient.decode_lines l2 ending))%list,
   snd (AIClient.decode_lines l2 ending)).
Proof.
  revert cs. induction l1 as [| line r IH]; intros cs H; simpl in *.
  - injection H as <-. destruct (AIClient.decode_lines l2 ending); reflexivity.
  - destruct (AIClient.decode_line line) as [vs | e]; [| discriminate].
    destruct (AIClient.decode_lines r None) as [more e'] eqn:E.
    injection H as <- ->.
    rewrite (IH more eq_refl).
    destruct (AIClient.decode_lines l2 ending) as [a b]; simpl.
    rewrite app_assoc. reflexivity.
Qed.

(** A line that yields nothing can be taken out of the stream. *)
Lemma silent_line (line : string) (before after : list string)
      (ending : option exn) :
  AIClient.decode_line line = Ok [] ->
  AIClient.decode_lines (before ++ line :: after) ending =
  AIClient.decode_lines (before ++ after) ending.
Proof.
  intros H. induction before as [| l r IH]; simpl.
  - rewrite H. destruct (AIClient.decode_lines after ending); reflexivity.
  - rewrite IH. reflexivity.
Qed.

Lemma expected_line_yield (line : string) :
  expected_line line = true ->
  AIClient.decode_line line = Ok (fragments [line]).
Proof.
  unfold expected_line, fragments, AIClient.decode_line. simpl flat_map.
  rewrite app_nil_r.
  destruct (String.eqb line EmptyString) eqn:E.
  - intros _. apply String.eqb_eq in E. subst line. reflexivity.
  - simpl. destruct (Json.loads line) as [v | e].
    + destruct v; try discriminate. intros _. simpl.
      destruct (Py.dict_get "response" members); reflexivity.
    + intros H. rewrite H. reflexivity.
Qed.

Lemma decode_expected_lines (lines : list string) :
  forallb expected_line lines = true ->
  AIClient.decode_lines lines None = (fragments lines, None).
Proof.
  induction lines as [| line r IH]; simpl; intros H; [reflexivity |].
  apply andb_prop in H as [H1 H2].
  rewrite (expected_line_yield line H1), (IH H2).
  unfold fragments. simpl. rewrite app_nil_r. reflexivity.
Qed.

(** C3, as the code has it. The sequence of chunks ends where the lines
    of the transport end: of a stream of expected lines every fragment, to
    the last line, is yielded, and then the generator stops. The done marker
    itself yields nothing and ends nothing: the stream with it produces what
    the stream without it produces. For the three lines of scenario B the
    chunks are exactly Hel and lo, and the generator stops after them. *)
Theorem done_marker_is_silent :
  (forall lines : list string,
      forallb expected_line lines = true ->
      AIClient.decode_lines lines None = (fragments lines, None))
  /\ (forall (before after : list string) (ending : option exn),
         AIClient.decode_lines (before ++ Scenario.done_line :: after) ending =
         AIClient.decode_lines (before ++ after) ending)
  /\ (forall (w : World) (message : string) (model system_prompt : option string)
             (n : nat) (r : Response),
         http w n (Scenario.generate message model system_prompt true)
         = Responded r ->
         content r = Scenario.body_B ->
         broken r = None ->
         outcome (AIClient.chat_stream w message model system_prompt) n
         = Ok ([JString "Hel"; JString "lo"], None)).
Proof.
  split; [exact decode_expected_lines | split].
  - intros before after ending. apply silent_line. vm_compute. reflexivity.
  - intros w message model system_prompt n r H C B.
    unfold outcome. rewrite chat_stream_run. cbv zeta. rewrite H.
    unfold stream_of. rewrite C, B. vm_compute. reflexivity.
Qed.

Lemma done_marker_is_silent_witness :
  http Scenario.server_B 0%nat (Scenario.generate "hi" None None true)
  = Responded (mkResponse 200 Scenario.body_B None)
  /\ outcome (AIClient.chat_stream Scenario.server_B "hi" None None) 0%nat
     = Ok ([JString "Hel"; JString "lo"], None).
Proof.
  split; [reflexivity |].
  apply (proj2 (proj2 done_marker_is_silent)
               Scenario.server_B "hi" None None 0%nat
               (mkResponse 200 Scenario.body_B None));
    reflexivity.
Defined.

(** C3, as the specification has it, fails: the sequence does not end
    when the done marker is seen. A fragment line that follows the marker
    is still decoded and yielded. *)
Lemma chunk_after_done_marker :
  Text.splitlines Scenario.body_after_done
  = [Scenario.done_line; Scenario.response_line "x"]
  /\ outcome (AIClient.chat_stream Scenario.server_after_done "hi" None None) 0%nat
     = Ok ([JString "x"], None).
Proof.
  split; vm_compute; reflexivity.
Qed.

(** On the lines it is written for, the decoder yields the fragments of
    the stream, one chunk for each fragment line and nothing else, and
    stops only where the lines end. *)
Lemma expected_lines_count (lines : list string) :
  forallb expected_line lines = true ->
  AIClient.decode_lines lines None = (fragments lines, None)
  /\ length (fragments lines) = length (filter fragment_line lines).
Proof.
  intros H. split; [now apply decode_expected_lines |].
  clear H. induction lines as [| line r IH]; [reflexivity |].
  unfold fragments in *. simpl. rewrite length_app, IH.
  unfold fragment_line at 2.
  destruct (Json.loads line) as [[] |]; try reflexivity.
  destruct (Py.dict_get "response" members); reflexivity.
Qed.

(** C4 at a stream with a line that was cut inside a character. The
    line is not UTF-8, [json.loads] raises [UnicodeDecodeError], which the
    inner [except] does not name; the outer one turns it into a chunk and
    the generator stops. Of the three fragment lines only the first is
    yielded, and the malformed line has produced a chunk of its own. *)
Theorem undecodable_line_ends_stream :
  Text.splitlines Scenario.body_cut
  = [ Scenario.response_line "a"; Scenario.cut_line;
      Scenario.response_line "b"; Scenario.response_line "c" ]
  /\ Json.loads Scenario.cut_line = Raise Json.unicode_error
  /\ length (filter fragment_line (Text.splitlines Scenario.body_cut)) = 3%nat
  /\ outcome (AIClient.chat_stream Scenario.server_cut "hi" None None) 0%nat
     = Ok ([ JString "a";
             JString "Connection error: 'utf-8' codec can't decode byte" ],
           None).
Proof.
  repeat split; vm_compute; reflexivity.
Qed.

(** Every exception that leaves the body of the loop is an [Exception]. *)
Lemma decode_line_raises_Exception (line : string) (e : exn) :
  AIClient.decode_line line = Raise e -> is_Exception e = true.
Proof.
  unfold AIClient.decode_line.
  destruct (String.eqb line EmptyString); [discriminate |].
  destruct (Json.loads line) as [data | e0] eqn:L.
  - destruct data; simpl;
      try (intros H; injection H as <-; reflexivity).
    + destruct (Text.contains "response" s); simpl; intros H;
        [injection H as <-; reflexivity | discriminate].
    + destruct (existsb (Py.is_str "response") items); simpl; intros H;
        [injection H as <-; reflexivity | discriminate].
    + destruct (Py.dict_get "response" members); simpl; intros H; discriminate.
  - unfold Json.loads in L.
    destruct (Json.utf8_valid line);
      [destruct (Json.decode _); [discriminate |] |];
      injection L as <-; simpl; intros H; try discriminate;
      injection H as <-; reflexivity.
Qed.

Lemma decode_lines_raises_Exception (lines : list string) (ending : option exn)
      (cs : list json) (e : exn) :
  (forall e', ending = Some e' -> is_Exception e' = true) ->
  AIClient.decode_lines lines ending = (cs, Some e) ->
  is_Exception e = true.
Proof.
  intros He. revert cs. induction lines as [| line r IH]; simpl; intros cs H.
  - injection H as _ H. auto.
  - destruct (AIClient.decode_line line) as [vs | e0] eqn:D.
    + destruct (AIClient.decode_lines r ending) as [more e1].
      injection H as _ ->. eapply IH. reflexivity.
    + injection H as _ <-. eapply decode_line_raises_Exception. exact D.
Qed.

(** With an exception at the end of the lines, the chunks are those of the
    lines and the exception is passed on. *)
Lemma decode_lines_ending (lines : list string) (cs : list json) (e : exn) :
  AIClient.decode_lines lines None = (cs, None) ->
  AIClient.decode_lines lines (Some e) = (cs, Some e).
Proof.
  revert cs. induction lines as [| line r IH]; simpl; intros cs H.
  - injection H as <-. reflexivity.
  - destruct (AIClient.decode_line line) as [vs | e0]; [| discriminate].
    destruct (AIClient.decode_lines r None) as [more e1].
    injection H as <- ->. rewrite (IH more eq_refl). reflexivity.
Qed.

(** C10, as the code has it. When the request raises before a response,
    the sequence is the one chunk with the text of the error; when the
    transfer breaks during the iteration, the chunks decoded before the
    failure are followed by that one chunk. In both cases the generator
    then stops, and as long as the failures of the transport are
    [Exception]s it raises nothing to its consumer. *)
Theorem stream_failure_in_band
        (w : World) (message : string) (model system_prompt : option string)
        (n : nat) :
  (forall e,
      http w n (Scenario.generate message model system_prompt true) = Raised e ->
      is_Exception e = true ->
      outcome (AIClient.chat_stream w message model system_prompt) n
      = Ok ([JString ("Connection error: " ++ exn_str e)], None))
  /\ (forall r e cs,
         http w n (Scenario.generate message model system_prompt true)
         = Responded r ->
         broken r = Some e ->
         is_Exception e = true ->
         AIClient.decode_lines (Text.splitlines (content r)) None = (cs, None) ->
         outcome (AIClient.chat_stream w message model system_prompt) n
         = Ok ((cs ++ [JString ("Connection error: " ++ exn_str e)])%list, None))
  /\ ((forall e,
          http w n (Scenario.generate message model system_prompt true) = Raised e ->
          is_Exception e = true) ->
      (forall r e,
          http w n (Scenario.generate message model system_prompt true)
          = Responded r ->
          broken r = Some e -> is_Exception e = true) ->
      exists cs,
        AIClient.chat_stream w message model system_prompt n
        = (Ok (cs, None),
           [Http (Scenario.generate message model system_prompt true)], S n)).
Proof.
  unfold outcome. rewrite chat_stream_run. cbv zeta.
  set (req := Scenario.generate message model system_prompt true).
  split; [| split].
  - intros e H E. rewrite H. simpl. rewrite E. reflexivity.
  - intros r e cs H B E D. rewrite H. simpl.
    rewrite B, (decode_lines_ending _ _ e D). simpl. rewrite E. reflexivity.
  - intros H1 H2.
    destruct (http w n req) as [e | r] eqn:H; simpl.
    + rewrite (H1 e eq_refl). eexists. reflexivity.
    + destruct (AIClient.decode_lines _ (broken r)) as [cs [e |]] eqn:D; simpl.
      * rewrite (decode_lines_raises_Exception
                   _ _ _ _ (fun e' => H2 r e' eq_refl) D).
        eexists. reflexivity.
      * eexists. reflexivity.
Qed.

Lemma stream_failure_in_band_witness :
  http Scenario.server_down 0%nat (Scenario.generate "hi" None None true)
  = Raised Scenario.refused
  /\ is_Exception Scenario.refused = true
  /\ outcome (AIClient.chat_stream Scenario.server_down "hi" None None) 0%nat
     = Ok ([JString "Connection error: Connection refused"], None).
Proof.
  split; [reflexivity |]. split; [reflexivity |].
  apply (proj1 (stream_failure_in_band Scenario.server_down "hi" None None 0%nat)
               Scenario.refused);
    reflexivity.
Defined.

(** C10, as the specification has it, fails: when the transfer breaks
    during the iteration, after a fragment was decoded, the sequence has
    two chunks, the fragment and the error. *)
Lemma fragment_before_error_chunk :
  http Scenario.server_broken 0%nat (Scenario.generate "hi" None None true)
  = Responded (mkResponse 200 (Scenario.response_line "Hel" ++ Text.nl)
                          (Some Scenario.broken_pipe))
  /\ outcome (AIClient.chat_stream Scenario.server_broken "hi" None None) 0%nat
     = Ok ([JString "Hel"; JString "Connection error: Connection broken"], None).
Proof.
  split; vm_compute; reflexivity.
Qed.

(* ===================================================================== *)
(** ** The call that does not stream *)
(* ===================================================================== *)

(** C5, as the code has it. [chat] makes one POST and returns by cases
    on its outcome: on status 200 with a JSON object as body, the member
    [response] of the body (the text 4 for the body of scenario A); on any
    other status, 201 to 299 included, the text made of [Error:], the
    status and the body; on a failure of the transport, the text made of
    [Connection error:] and the cause. As long as the failures of the
    transport are [Exception]s it raises nothing. *)
Theorem chat_by_outcome
        (w : World) (message : string) (model system_prompt : option string)
        (n : nat) :
  (forall r ms v,
      http w n (Scenario.generate message model system_prompt false)
      = Responded r ->
      broken r = None ->
      status_code r = 200 ->
      Json.decode (content r) = Some (JObject ms) ->
      Py.dict_get "response" ms = Some v ->
      outcome (AIClient.chat w message model system_prompt) n = Ok v)
  /\ (forall r,
         http w n (Scenario.generate message model system_prompt false)
         = Responded r ->
         broken r = None ->
         status_code r = 200 ->
         content r = Scenario.body_A ->
         outcome (AIClient.chat w message model system_prompt) n
         = Ok (JString "4"))
  /\ (forall r,
         http w n (Scenario.generate message model system_prompt false)
         = Responded r ->
         broken r = None ->
         status_code r <> 200 ->
         outcome (AIClient.chat w message model system_prompt) n
         = Ok (JString ("Error: " ++ Text.str_of_Z (status_code r) ++ " - "
                                  ++ text r)))
  /\ (forall e,
         http w n (Scenario.generate message model system_prompt false)
         = Raised e
         \/ (exists r,
                http w n (Scenario.generate message model system_prompt false)
                = Responded r /\ broken r = Some e) ->
         is_Exception e = true ->
         outcome (AIClient.chat w message model system_prompt) n
         = Ok (JString ("Connection error: " ++ exn_str e)))
  /\ ((forall e,
          http w n (Scenario.generate message model system_prompt false)
          = Raised e
          \/ (exists r,
                 http w n (Scenario.generate message model system_prompt false)
                 = Responded r /\ broken r = Some e) ->
          is_Exception e = true) ->
      exists v,
        AIClient.chat w message model system_prompt n
        = (Ok v, [Http (Scenario.generate message model system_prompt false)],
           S n)).
Proof.
  unfold outcome. rewrite chat_run. cbv zeta.
  set (req := Scenario.generate message model system_prompt false).
  unfold chat_of, error_chunk, text. simpl fst.
  repeat split.
  - intros r ms v H B St D G. rewrite H, B, St, D, G. reflexivity.
  - intros r H B St C. rewrite H, B, St, C. vm_compute. reflexivity.
  - intros r H B St. rewrite H, B.
    apply Z.eqb_neq in St. rewrite St. reflexivity.
  - intros e [H | (r & H & B)] E; rewrite H; [| rewrite B]; rewrite E;
      reflexivity.
  - intros He. destruct (http w n req) as [e | r] eqn:H.
    + rewrite (He e (or_introl eq_refl)). eexists. reflexivity.
    + destruct (broken r) as [e |] eqn:B.
      * rewrite (He e (or_intror (ex_intro _ r (conj eq_refl B)))).
        eexists. reflexivity.
      * destruct (status_code r =? 200); [| eexists; reflexivity].
        destruct (Json.decode (content r)) as [[] |]; eexists; reflexivity.
Qed.

Lemma chat_by_outcome_witness :
  http Scenario.server_A 0%nat (Scenario.generate "2+2" None None false)
  = Responded (mkResponse 200 Scenario.body_A None)
  /\ outcome (AIClient.chat Scenario.server_A "2+2" None None) 0%nat
     = Ok (JString "4").
Proof.
  split; [reflexivity |].
  apply (proj1 (proj2 (chat_by_outcome Scenario.server_A "2+2" None None 0%nat))
               (mkResponse 200 Scenario.body_A None));
    reflexivity.
Defined.

(** C5, as the specification has it, fails: status 201 is a success of
    HTTP, and for it [chat] returns the error text, not the completion the
    body carries. *)
Lemma created_status_is_an_error :
  http Scenario.server_201 0%nat (Scenario.generate "2+2" None None false)
  = Responded (mkResponse 201 Scenario.body_A None)
  /\ outcome (AIClient.chat Scenario.server_201 "2+2" None None) 0%nat
     = Ok (JString ("Error: 201 - " ++ Scenario.body_A))
  /\ outcome (AIClient.chat Scenario.server_201 "2+2" None None) 0%nat
     <> Ok (JString "4").
Proof.
  repeat split; try (vm_compute; reflexivity).
  vm_compute. discriminate.
Qed.

(** C9. When the answer has status 200 and its body is a JSON object
    without a member [response], [chat] returns the text [No response
    received], as a plain text and not as a failure: it is the very value
    [chat] returns when a server generates that sentence. *)
Theorem missing_response_is_a_text
        (w : World) (message : string) (model system_prompt : option string)
        (n : nat) (r : Response) (ms : list (string * json)) :
  http w n (Scenario.generate message model system_prompt false) = Responded r ->
  broken r = None ->
  status_code r = 200 ->
  Json.decode (content r) = Some (JObject ms) ->
  Py.dict_get "response" ms = None ->
  AIClient.chat w message model system_prompt n
  = (Ok (JString "No response received"),
     [Http (Scenario.generate message model system_prompt false)], S n)
  /\ (forall (w' : World) (n' : nat) (r' : Response),
         http w' n' (Scenario.generate message model system_prompt false)
         = Responded r' ->
         broken r' = None ->
         status_code r' = 200 ->
         content r' = Scenario.response_line "No response received" ->
         outcome (AIClient.chat w' message model system_prompt) n'
         = outcome (AIClient.chat w message model system_prompt) n).
Proof.
  intros H B St D G.
  assert (E : AIClient.chat w message model system_prompt n
              = (Ok (JString "No response received"),
                 [Http (Scenario.generate message model system_prompt false)],
                 S n)).
  { rewrite chat_run. cbv zeta. unfold chat_of. rewrite H, B, St, D, G.
    reflexivity. }
  split; [exact E |].
  intros w' n' r' H' B' St' C'.
  unfold outcome. rewrite E, chat_run. cbv zeta. unfold chat_of.
  rewrite H', B', St', C'. vm_compute. reflexivity.
Qed.

Lemma missing_response_is_a_text_witness :
  http Scenario.server_done_only 0%nat (Scenario.generate "hi" None None false)
  = Responded (mkResponse 200 Scenario.done_line None)
  /\ Json.decode Scenario.done_line = Some (JObject [("done", JBool true)])
  /\ Py.dict_get "response" [("done", JBool true)] = None
  /\ AIClient.chat Scenario.server_done_only "hi" None None 0%nat
     = (Ok (JString "No response received"),
        [Http (Scenario.generate "hi" None None false)], 1%nat).
Proof.
  repeat (split; [reflexivity |]).
  apply (missing_response_is_a_text
           Scenario.server_done_only "hi" None None 0%nat
           (mkResponse 200 Scenario.done_line None) [("done", JBool true)]);
    reflexivity.
Defined.

(* ===================================================================== *)
(** ** The two modes compared *)
(* ===================================================================== *)

(** C7 at a server that answers a request for an unknown model with
    status 404 and the same error body in both modes. [chat] tests the
    status and returns the error text; [chat_stream] does not test it, finds
    no member [response] in the line of the body and yields nothing, so the
    joined fragments are the empty text. *)
Theorem stream_drops_error_status :
  http Scenario.server_404 0%nat (Scenario.generate "hi" (Some "nope") None false)
  = http Scenario.server_404 0%nat (Scenario.generate "hi" (Some "nope") None true)
  /\ outcome (AIClient.chat Scenario.server_404 "hi" (Some "nope") None) 0%nat
     = Ok (JString ("Error: 404 - " ++ Scenario.body_404))
  /\ outcome (AIClient.chat_stream Scenario.server_404 "hi" (Some "nope") None) 0%nat
     = Ok ([], None)
  /\ join_chunks [] = Some EmptyString.
Proof.
  repeat split; vm_compute; reflexivity.
Qed.

Lemma append_empty_r (s : string) : s ++ EmptyString = s.
Proof.
  induction s as [| c s IH]; simpl; [reflexivity | now rewrite IH].
Qed.

(** Where the two modes do agree: on a failure of the transport before
    any response, the one chunk of the stream is the text [chat] returns. *)
Lemma modes_agree_on_refusal
      (w : World) (message : string) (model system_prompt : option string)
      (n m : nat) (e : exn) :
  http w n (Scenario.generate message model system_prompt true) = Raised e ->
  http w m (Scenario.generate message model system_prompt false) = Raised e ->
  is_Exception e = true ->
  exists (s : string) (cs : list json),
    outcome (AIClient.chat_stream w message model system_prompt) n = Ok (cs, None)
    /\ join_chunks cs = Some s
    /\ outcome (AIClient.chat w message model system_prompt) m = Ok (JString s).
Proof.
  intros H1 H2 E.
  exists ("Connection error: " ++ exn_str e),
         [JString ("Connection error: " ++ exn_str e)].
  unfold outcome. rewrite chat_stream_run, chat_run. cbv zeta.
  rewrite H1, H2. simpl. rewrite E.
  repeat split.
  cbn [join_chunks]. rewrite append_empty_r. reflexivity.
Qed.

(** And on success: when the plain call is answered with status 200 and
    an object whose [response] is the text [s], and the streamed call with
    status 200 and expected lines whose fragments join to [s], the chunks
    of the stream join to what [chat] returns. *)
Lemma modes_agree_on_success
      (w : World) (message : string) (model system_prompt : option string)
      (n m : nat) (r r' : Response) (ms : list (string * json)) (s : string) :
  http w n (Scenario.generate message model system_prompt true) = Responded r' ->
  broken r' = None ->
  status_code r' = 200 ->
  forallb expected_line (Text.splitlines (content r')) = true ->
  join_chunks (fragments (Text.splitlines (content r'))) = Some s ->
  http w m (Scenario.generate message model system_prompt false) = Responded r ->
  broken r = None ->
  status_code r = 200 ->
  Json.decode (content r) = Some (JObject ms) ->
  Py.dict_get "response" ms = Some (JString s) ->
  exists cs : list json,
    outcome (AIClient.chat_stream w message model system_prompt) n = Ok (cs, None)
    /\ join_chunks cs = Some s
    /\ outcome (AIClient.chat w message model system_prompt) m = Ok (JString s).
Proof.
  intros H' B' _ L J H B St D G.
  exists (fragments (Text.splitlines (content r'))).
  unfold outcome. rewrite chat_stream_run, chat_run. cbv zeta.
  rewrite H', H. unfold stream_of, chat_of.
  rewrite B', B, St, D, G, (decode_expected_lines _ L).
  repeat split. exact J.
Qed.

(* ===================================================================== *)
(** ** The catalog of models *)
(* ===================================================================== *)

(** What [list_models] returns, by outcome of its call. Two calls one
    after the other, met by the same outcome, return equal values. The
    value is the empty list when the server cannot be reached, when the
    status is not 200, when the body is not a JSON object and when the
    object has no member [models]; when it has one, the code passes that
    member on without a look at it. *)
Lemma list_models_by_outcome (w : World) (n : nat) :
  (http w (S n) (GET AIClient.tags_url None) = http w n (GET AIClient.tags_url None) ->
   exists v,
     (a <- AIClient.list_models w ;; b <- AIClient.list_models w ;; ret (a, b)) n
     = (Ok (v, v),
        [Http (GET AIClient.tags_url None); Http (GET AIClient.tags_url None)],
        S (S n)))
  /\ ((exists e, http w n (GET AIClient.tags_url None) = Raised e)
      \/ (exists r,
             http w n (GET AIClient.tags_url None) = Responded r
             /\ (broken r <> None
                 \/ status_code r <> 200
                 \/ match Json.decode (content r) with
                    | Some (JObject ms) => Py.dict_get "models" ms = None
                    | _ => True
                    end)) ->
      AIClient.list_models w n
      = (Ok (JArray []), [Http (GET AIClient.tags_url None)], S n))
  /\ (forall r ms v,
         http w n (GET AIClient.tags_url None) = Responded r ->
         broken r = None ->
         status_code r = 200 ->
         Json.decode (content r) = Some (JObject ms) ->
         Py.dict_get "models" ms = Some v ->
         AIClient.list_models w n
         = (Ok v, [Http (GET AIClient.tags_url None)], S n)).
Proof.
  repeat split.
  - intros H. exists (models_of (http w n (GET AIClient.tags_url None))).
    unfold bind. rewrite !list_models_run. cbv zeta. rewrite H. reflexivity.
  - intros H. rewrite list_models_run. cbv zeta. unfold models_of.
    destruct H as [(e & H) | (r & H & C)]; rewrite H; [reflexivity |].
    destruct (broken r) as [e |]; [reflexivity |].
    destruct C as [C | [C | C]]; [congruence | |].
    + apply Z.eqb_neq in C. rewrite C. reflexivity.
    + destruct (status_code r =? 200); [| reflexivity].
      destruct (Json.decode (content r)) as [[] |]; try reflexivity.
      rewrite C. reflexivity.
  - intros r ms v H B St D G. rewrite list_models_run. cbv zeta.
    unfold models_of. rewrite H, B, St, D, G. reflexivity.
Qed.

Lemma list_models_by_outcome_witness :
  http Scenario.server_down 1%nat (GET AIClient.tags_url None)
  = http Scenario.server_down 0%nat (GET AIClient.tags_url None)
  /\ (exists e, http Scenario.server_down 0%nat (GET AIClient.tags_url None)
                = Raised e)
  /\ (exists v,
         (a <- AIClient.list_models Scenario.server_down ;;
          b <- AIClient.list_models Scenario.server_down ;; ret (a, b)) 0%nat
         = (Ok (v, v),
            [Http (GET AIClient.tags_url None); Http (GET AIClient.tags_url None)],
            2%nat))
  /\ AIClient.list_models Scenario.server_down 0%nat
     = (Ok (JArray []), [Http (GET AIClient.tags_url None)], 1%nat).
Proof.
  pose proof (list_models_by_outcome Scenario.server_down 0%nat) as (P & Q & _).
  assert (H1 : http Scenario.server_down 1%nat (GET AIClient.tags_url None)
               = http Scenario.server_down 0%nat (GET AIClient.tags_url None))
    by reflexivity.
  assert (H2 : exists e, http Scenario.server_down 0%nat (GET AIClient.tags_url None)
                         = Raised e)
    by (exists Scenario.refused; reflexivity).
  split; [exact H1 |]. split; [exact H2 |].
  split; [exact (P H1) | exact (Q (or_introl H2))].
Defined.

(** C8 at the catalog [{"models": 7}], sent with status 200: a JSON
    document that is malformed as a catalog. The claim has [list_models]
    return an empty sequence there, so that the caller prints that there
    are no models. The code returns the number 7: against its annotation
    [-> List[Dict]], and unlike every other failure, for which it falls
    back to the empty list. Its one caller, the command [models], then
    prints the header of the table and raises [TypeError] at the loop over
    the number. *)
Theorem malformed_catalog_breaks_listing :
  http Scenario.server_models_7 0%nat (GET AIClient.tags_url None)
  = Responded (mkResponse 200 Scenario.body_models_7 None)
  /\ Json.decode Scenario.body_models_7 = Some (JObject [("models", JInt 7)])
  /\ AIClient.list_models Scenario.server_models_7 0%nat
     = (Ok (JInt 7), [Http (GET AIClient.tags_url None)], 1%nat)
  /\ outcome (AIClient.list_models Scenario.server_models_7) 0%nat
     <> Ok (JArray [])
  /\ outcome (AICLI.list_models Scenario.server_models_7) 0%nat
     = Raise (Exn TypeError "'int' object is not iterable").
Proof.
  repeat split; try (vm_compute; reflexivity).
  vm_compute. discriminate.
Qed.

(* ===================================================================== *)
(** ** Further properties: the turns of the interactive session *)
(* ===================================================================== *)

(** Printing the chunks: all of them, or those before the first one that
    cannot be encoded and the exception of [print]. *)
Lemma print_chunks_run (vs : list json) (n : nat) :
  AICLI.print_chunks vs n
  = (if forallb printable vs then Ok tt else Raise encode_error,
     chunk_prints (printed_prefix vs), n).
Proof.
  induction vs as [| v r IH]; [reflexivity |].
  cbn [AICLI.print_chunks forallb printed_prefix].
  unfold bind, print_value.
  destruct (printable v); [| reflexivity].
  unfold emit. rewrite IH. cbn [andb].
  destruct (forallb printable r); reflexivity.
Qed.

Lemma printed_prefix_all (vs : list json) :
  forallb printable vs = true -> printed_prefix vs = vs.
Proof.
  induction vs as [| v r IH]; [reflexivity |].
  cbn [forallb printed_prefix]. intros H.
  apply andb_true_iff in H as [-> H]. now rewrite IH.
Qed.

(** An input that is no control command fails each test of the loop. *)
Lemma not_control_tests (s : string) :
  Py.str_in s control_commands = false ->
  Py.str_in s ["/quit"; "/exit"; "/q"] = false
  /\ String.eqb s "/help" = false
  /\ String.eqb s "/clear" = false
  /\ String.eqb s "/models" = false.
Proof.
  unfold Py.str_in, control_commands. simpl existsb. intros H.
  repeat (apply orb_false_elim in H as [? H]).
  repeat split; try assumption.
  repeat (apply orb_false_intro; [assumption |]). reflexivity.
Qed.

(** Lower-casing gives a slash only for a slash. *)
Lemma lower_char_slash (c : ascii) :
  Ascii.eqb (Text.lower_char c) "/" = true -> c = "/"%char.
Proof.
  destruct c as [[] [] [] [] [] [] [] []]; vm_compute; intros H;
    first [discriminate H | reflexivity].
Qed.

(** A text of white space is no control command. *)
Lemma blank_not_control (message : string) :
  Text.all_space message = true ->
  Py.str_in (Text.lower message) control_commands = false.
Proof.
  destruct message as [| c r]; [reflexivity |].
  intros H.
  assert (E : Ascii.eqb (Text.lower_char c) "/" = false).
  { destruct (Ascii.eqb (Text.lower_char c) "/") eqn:E; [| reflexivity].
    apply lower_char_slash in E. subst c.
    cbn in H. destruct r as [| c2 [| c3 r3]]; discriminate H. }
  unfold Py.str_in, control_commands. simpl.
  rewrite E. reflexivity.
Qed.

(** Unfolds a turn of the loop down to its tests. *)
Ltac open_turn :=
  unfold AICLI.chat_turn, AICLI.input;
  unfold try_except, bind, print, print_end, emit, ret;
  cbv beta iota.

(** Rewrites the tests of the loop for an input that is no control
    command. *)
Ltac skip_commands H :=
  let H1 := fresh in let H2 := fresh in let H3 := fresh in let H4 := fresh in
  destruct (not_control_tests _ H) as (H1 & H2 & H3 & H4);
  rewrite H1, H2, H3, H4.

(** The turn of a blank input, and the loop over it. *)
Lemma blank_turn (w : World) (args : Namespace) (message : string) (n : nat) :
  Text.all_space message = true ->
  AICLI.chat_turn w args (Some (Line message)) n
  = (Ok true, [Input (AICLI.you_prompt w)], n).
Proof.
  intros H. pose proof (blank_not_control message H) as Hc.
  open_turn. skip_commands Hc. rewrite H. reflexivity.
Qed.

Lemma blank_loop (w : World) (args : Namespace) (message : string)
      (rest : list InputEvent) (n : nat) :
  Text.all_space message = true ->
  AICLI.chat_loop w args (Line message :: rest) n
  = (let '(r, t, n') := AICLI.chat_loop w args rest n in
     (r, Input (AICLI.you_prompt w) :: t, n')).
Proof.
  intros H. simpl AICLI.chat_loop. unfold bind. rewrite (blank_turn w args _ n H).
  destruct (AICLI.chat_loop w args rest n) as [[r t] n']. reflexivity.
Qed.

(** X1. An input of white space only (the empty line included) is
    dropped: the turn prompts, does nothing else, makes no HTTP call, and
    the loop goes on with what is typed next. *)
Theorem blank_input_loops_back
        (w : World) (args : Namespace) (message : string)
        (rest : list InputEvent) (n : nat) :
  Text.all_space message = true ->
  AICLI.chat_turn w args (Some (Line message)) n
  = (Ok true, [Input (AICLI.you_prompt w)], n)
  /\ AICLI.chat_loop w args (Line message :: rest) n
     = (let '(r, t, n') := AICLI.chat_loop w args rest n in
        (r, Input (AICLI.you_prompt w) :: t, n')).
Proof.
  intros H. split; [now apply blank_turn | now apply blank_loop].
Qed.

Lemma blank_input_loops_back_witness :
  Text.all_space "   " = true
  /\ AICLI.chat_turn Scenario.server_A (Scenario.args None false)
                     (Some (Line "   ")) 3%nat
     = (Ok true, [Input "👤 You: "], 3%nat).
Proof.
  split; [reflexivity |].
  apply (blank_input_loops_back Scenario.server_A (Scenario.args None false)
                                "   " [] 3%nat).
  reflexivity.
Defined.

Lemma not_Exception_is_interrupt (e : exn) :
  is_Exception e = false -> AICLI.is_KeyboardInterrupt e = true.
Proof.
  unfold is_Exception, AICLI.is_KeyboardInterrupt.
  destruct (exn_class_eqb (exn_cls e) KeyboardInterrupt); [reflexivity | discriminate].
Qed.

(** What [chat] lets through is an interrupt. *)
Lemma chat_of_raise (o : HttpOutcome) (e : exn) :
  chat_of o = Raise e -> AICLI.is_KeyboardInterrupt e = true.
Proof.
  unfold chat_of. destruct o as [e0 | r].
  - destruct (is_Exception e0) eqn:E; [discriminate |].
    intros H. injection H as <-. now apply not_Exception_is_interrupt.
  - destruct (broken r) as [e0 |].
    + destruct (is_Exception e0) eqn:E; [discriminate |].
      intros H. injection H as <-. now apply not_Exception_is_interrupt.
    + destruct (status_code r =? 200); [| discriminate].
      destruct (Json.decode (content r)) as [[] |]; discriminate.
Qed.

(** What the generator of [chat_stream] lets through is an interrupt. *)
Lemma except_yield_raise (g : AIClient.generated) (e : exn) :
  snd (AIClient.except_yield g) = Some e -> AICLI.is_KeyboardInterrupt e = true.
Proof.
  destruct g as [vs [e0 |]]; simpl; [| discriminate].
  destruct (is_Exception e0) eqn:E; simpl; [discriminate |].
  intros H. injection H as <-. now apply not_Exception_is_interrupt.
Qed.

Lemma for_each_print_run (g : AIClient.generated) (n : nat) :
  AICLI.for_each_print g n
  = (if forallb printable (fst g)
     then match snd g with Some e => Raise e | None => Ok tt end
     else Raise encode_error,
     chunk_prints (printed_prefix (fst g)), n).
Proof.
  unfold AICLI.for_each_print, bind. rewrite print_chunks_run.
  destruct (forallb printable (fst g)); [| reflexivity].
  destruct (snd g); simpl; rewrite app_nil_r; reflexivity.
Qed.

Lemma network_calls_app (a b : list event) :
  network_calls (a ++ b) = (network_calls a ++ network_calls b)%list.
Proof. apply filter_app. Qed.

Lemma chunk_prints_offline (vs : list json) : network_calls (chunk_prints vs) = [].
Proof. induction vs as [| v r IH]; [reflexivity | exact IH]. Qed.

(** An exception at the end of the decoding comes from the transport or is
    an [Exception] raised by a line. *)
Lemma decode_lines_source (lines : list string) (ending : option exn)
      (cs : list json) (e : exn) :
  AIClient.decode_lines lines ending = (cs, Some e) ->
  ending = Some e \/ is_Exception e = true.
Proof.
  revert cs. induction lines as [| line r IH]; simpl; intros cs H.
  - injection H as _ H. now left.
  - destruct (AIClient.decode_line line) as [vs | e0] eqn:D.
    + destruct (AIClient.decode_lines r ending) as [more e1].
      injection H as _ ->. eapply IH. reflexivity.
    + injection H as _ <-. right.
      eapply decode_line_raises_Exception. exact D.
Qed.

(** An exception that leaves the generator of [chat_stream] is an
    interrupt that came from the transport. *)
Lemma stream_interrupt_source (o : HttpOutcome) (e : exn) :
  snd (AIClient.except_yield (stream_of o)) = Some e ->
  AICLI.is_KeyboardInterrupt e = true
  /\ (o = Raised e \/ exists r, o = Responded r /\ broken r = Some e).
Proof.
  intros H. split; [now apply except_yield_raise in H |].
  unfold AIClient.except_yield in H.
  destruct (stream_of o) as [vs [e0 |]] eqn:S0; [| discriminate].
  destruct (is_Exception e0) eqn:E; [discriminate |].
  simpl in H. injection H as <-.
  destruct o as [e1 | r]; simpl in S0.
  - injection S0 as _ ->. now left.
  - right. exists r. split; [reflexivity |].
    destruct (decode_lines_source _ _ _ _ S0) as [B | B]; [exact B | congruence].
Qed.

(** The turn of an input that is neither a control command nor blank:
    one POST; an interrupt during it is caught and ends the loop; the only
    exception that leaves the turn is the one of [print] for an answer it
    cannot encode. *)
Lemma regular_turn
      (w : World) (args : Namespace) (message : string) (n : nat) :
  Py.str_in (Text.lower message) control_commands = false ->
  Text.all_space message = false ->
  let req := Scenario.generate message (Some (arg_model args)) None
                               (arg_stream args) in
  exists (r : result bool) (t : list event),
    AICLI.chat_turn w args (Some (Line message)) n
    = (r,
       (Input (AICLI.you_prompt w)
        :: Print (AICLI.colored w "🤖 AI:" "blue") " "
        :: Http req :: t)%list,
       S n)
    /\ network_calls t = []
    /\ (forall e, r = Raise e -> e = encode_error)
    /\ (r = Ok false ->
        (exists t', t = (t' ++ [Print (Text.nl ++ AICLI.goodbye w) Text.nl])%list)
        /\ exists e, AICLI.is_KeyboardInterrupt e = true
                     /\ (http w n req = Raised e
                         \/ exists r, http w n req = Responded r
                                      /\ broken r = Some e)).
Proof.
  intros Hc Hs req. open_turn. skip_commands Hc. rewrite Hs.
  subst req. destruct (arg_stream args) eqn:St; cbv beta iota.
  - rewrite chat_stream_run. cbv zeta beta iota.
    rewrite for_each_print_run.
    set (req := Scenario.generate message (Some (arg_model args)) None true).
    set (g := AIClient.except_yield (stream_of (http w n req))).
    destruct (forallb printable (fst g)).
    + destruct (snd g) as [e |] eqn:G.
      * destruct (stream_interrupt_source _ _ G) as [K Src]. rewrite K.
        exists (Ok false),
          (chunk_prints (printed_prefix (fst g))
             ++ [Print (Text.nl ++ AICLI.goodbye w) Text.nl])%list.
        split; [simpl; rewrite ?app_nil_r; reflexivity |]. split.
        -- rewrite !network_calls_app, chunk_prints_offline. reflexivity.
        -- split; [discriminate |].
           intros _. split; [eexists; reflexivity |].
           exists e. split; [exact K | exact Src].
      * exists (Ok true),
          (chunk_prints (printed_prefix (fst g)) ++ [Print Text.nl Text.nl])%list.
        split; [simpl; rewrite ?app_nil_r; reflexivity |]. split.
        -- rewrite !network_calls_app, chunk_prints_offline. reflexivity.
        -- split; discriminate.
    + exists (Raise encode_error), (chunk_prints (printed_prefix (fst g))).
      split; [simpl; rewrite ?app_nil_r; reflexivity |]. split.
      * apply chunk_prints_offline.
      * split; [intros e0 Hr; now injection Hr as <- | discriminate].
  - rewrite chat_run. cbv zeta beta iota.
    set (req := Scenario.generate message (Some (arg_model args)) None false).
    destruct (chat_of (http w n req)) as [v | e] eqn:C.
    + unfold print_value. destruct (printable v).
      * exists (Ok true), [PrintValue v (Text.nl ++ Text.nl)].
        split; [reflexivity |]. split; [reflexivity |]. split; discriminate.
      * exists (Raise encode_error), [].
        split; [reflexivity |]. split; [reflexivity |].
        split; [intros e0 Hr; now injection Hr as <- | discriminate].
    + pose proof (chat_of_raise _ _ C) as K. rewrite K.
      exists (Ok false), [Print (Text.nl ++ AICLI.goodbye w) Text.nl].
      split; [reflexivity |]. split; [reflexivity |].
      split; [discriminate |].
      intros _. split; [exists []; reflexivity |].
      exists e. split; [exact K |].
      unfold chat_of in C. destruct (http w n req) as [e0 | r].
      * left. destruct (is_Exception e0); [discriminate | congruence].
      * right. exists r. split; [reflexivity |].
        destruct (broken r) as [e0 |].
        -- destruct (is_Exception e0); [discriminate | congruence].
        -- destruct (status_code r =? 200); [| discriminate].
           destruct (Json.decode (content r)) as [[] |]; discriminate.
Qed.

(** X2. An input that is neither a control command nor blank is sent as
    it was typed: the turn makes exactly one HTTP call, a POST to the
    generation endpoint whose prompt is the input itself (not stripped, not
    lower-cased), with the model of the arguments (the default model when
    that is empty), no system prompt and the streaming flag of the
    arguments. The turn can raise: the one exception that leaves it is the
    [UnicodeEncodeError] of [print] for an answer that cannot be encoded
    (a text with a lone surrogate). In the plain mode, when the server
    answers with status 200 and a JSON object, the turn raises it exactly
    when the member [response] of the object is such a text; any other
    member [response] is printed and the loop goes on. *)
Theorem regular_message_one_request
        (w : World) (args : Namespace) (message : string) (n : nat) :
  Py.str_in (Text.lower message) control_commands = false ->
  Text.all_space message = false ->
  exists (r : result bool) (t : list event),
    AICLI.chat_turn w args (Some (Line message)) n = (r, t, S n)
    /\ network_calls t
       = [Http (POST "http://localhost:11434/api/generate"
                     (mkPayload
                        (if String.eqb (arg_model args) EmptyString
                         then "llama3-small-q3-k-s" else arg_model args)
                        message (arg_stream args) None)
                     (arg_stream args) 120)]
    /\ (forall e, r = Raise e -> exn_cls e = UnicodeEncodeError)
    /\ (arg_stream args = false ->
        forall rsp ms v,
          http w n (Scenario.generate message (Some (arg_model args)) None false)
          = Responded rsp ->
          broken rsp = None ->
          status_code rsp = 200 ->
          Json.decode (content rsp) = Some (JObject ms) ->
          Py.dict_get "response" ms = Some v ->
          r = if printable v then Ok true else Raise encode_error).
Proof.
  intros Hc Hs.
  destruct (regular_turn w args message n Hc Hs) as (r & t & E & N & X & _).
  exists r. eexists. split; [exact E |]. split; [| split].
  - cbn [network_calls filter is_network]. fold (network_calls t). rewrite N.
    unfold Scenario.generate, AIClient.payload, Py.truthy_str.
    destruct (String.eqb (arg_model args) EmptyString); reflexivity.
  - intros e H. rewrite (X e H). reflexivity.
  - intros St rsp ms v H B S200 D G.
    assert (C : chat_of (http w n (Scenario.generate message (Some (arg_model args))
                                                     None false)) = Ok v).
    { unfold chat_of. rewrite H, B, S200, D, G. reflexivity. }
    clear H. revert E. open_turn. skip_commands Hc. rewrite Hs, St.
    cbv beta iota. rewrite chat_run. cbv zeta beta iota. rewrite C.
    unfold print_value, emit, raise. destruct (printable v); cbv beta iota;
      intros E; injection E as <-; reflexivity.
Qed.

Lemma regular_message_one_request_witness :
  Py.str_in (Text.lower "Hello There ") control_commands = false
  /\ Text.all_space "Hello There " = false
  /\ http Scenario.server_surrogate 0%nat
          (Scenario.generate "Hello There " (Some "llama3-small-q3-k-s") None false)
     = Responded (mkResponse 200 Scenario.body_surrogate None)
  /\ Json.decode Scenario.body_surrogate
     = Some (JObject [("response", Scenario.half_pair)])
  /\ printable Scenario.half_pair = false
  /\ exists (t : list event),
       AICLI.chat_turn Scenario.server_surrogate (Scenario.args None false)
                       (Some (Line "Hello There ")) 0%nat
       = (Raise encode_error, t, 1%nat)
       /\ network_calls t
          = [Http (POST "http://localhost:11434/api/generate"
                        (mkPayload "llama3-small-q3-k-s" "Hello There " false None)
                        false 120)].
Proof.
  split; [reflexivity |]. split; [reflexivity |]. split; [reflexivity |].
  split; [vm_compute; reflexivity |]. split; [reflexivity |].
  destruct (regular_message_one_request
              Scenario.server_surrogate (Scenario.args None false)
              "Hello There " 0%nat eq_refl eq_refl)
    as (r & t & E & N & _ & P).
  rewrite (P eq_refl (mkResponse 200 Scenario.body_surrogate None)
             [("response", Scenario.half_pair)] Scenario.half_pair
             eq_refl eq_refl eq_refl eq_refl eq_refl) in E.
  exists t. split; [exact E | exact N].
Defined.

(** X3. An interrupt ends the session with the farewell and is not passed
    on: at the prompt, whatever is typed after it; and during the request
    of a turn, in either mode, after the one POST of that turn. *)
Theorem interrupt_ends_session
        (w : World) (args : Namespace) (rest : list InputEvent) (n : nat) :
  AICLI.chat_loop w args (Interrupt :: rest) n
  = (Ok tt,
     [Input (AICLI.you_prompt w);
      Print (Text.nl ++ AICLI.goodbye w) Text.nl], n)
  /\ (forall (message : string) (e : exn),
         Py.str_in (Text.lower message) control_commands = false ->
         Text.all_space message = false ->
         http w n (Scenario.generate message (Some (arg_model args)) None
                                     (arg_stream args)) = Raised e ->
         AICLI.is_KeyboardInterrupt e = true ->
         AICLI.chat_loop w args (Line message :: rest) n
         = (Ok tt,
            [Input (AICLI.you_prompt w);
             Print (AICLI.colored w "🤖 AI:" "blue") " ";
             Http (Scenario.generate message (Some (arg_model args)) None
                                     (arg_stream args));
             Print (Text.nl ++ AICLI.goodbye w) Text.nl],
            S n)).
Proof.
  split; [reflexivity |].
  intros message e Hc Hs H K.
  assert (X : is_Exception e = false).
  { unfold is_Exception. unfold AICLI.is_KeyboardInterrupt in K.
    rewrite K. reflexivity. }
  simpl AICLI.chat_loop. unfold bind at 1.
  assert (T : AICLI.chat_turn w args (Some (Line message)) n
              = (Ok false,
                 [Input (AICLI.you_prompt w);
                  Print (AICLI.colored w "🤖 AI:" "blue") " ";
                  Http (Scenario.generate message (Some (arg_model args)) None
                                          (arg_stream args));
                  Print (Text.nl ++ AICLI.goodbye w) Text.nl],
                 S n)).
  { open_turn. skip_commands Hc. rewrite Hs.
    destruct (arg_stream args) eqn:St; cbv beta iota.
    - rewrite chat_stream_run. cbv zeta beta iota. rewrite for_each_print_run.
      rewrite H. simpl. rewrite X. simpl. rewrite K. reflexivity.
    - rewrite chat_run. cbv zeta beta iota. rewrite H. simpl. rewrite X, K.
      reflexivity. }
  rewrite T. reflexivity.
Qed.

Lemma interrupt_ends_session_witness :
  Py.str_in (Text.lower "hello") control_commands = false
  /\ Text.all_space "hello" = false
  /\ AICLI.is_KeyboardInterrupt (Exn KeyboardInterrupt EmptyString) = true
  /\ AICLI.chat_loop
       (Scenario.world (Scenario.always (Raised (Exn KeyboardInterrupt EmptyString))) [])
       (Scenario.args None false) (Line "hello" :: [Line "again"]) 0%nat
     = (Ok tt,
        [Input "👤 You: "; Print "🤖 AI:" " ";
         Http (Scenario.generate "hello" (Some "llama3-small-q3-k-s") None false);
         Print (Text.nl ++ "👋 Goodbye!") Text.nl],
        1%nat).
Proof.
  repeat (split; [reflexivity |]).
  apply (proj2 (interrupt_ends_session
                  (Scenario.world
                     (Scenario.always (Raised (Exn KeyboardInterrupt EmptyString))) [])
                  (Scenario.args None false) [Line "again"] 0%nat)
               "hello" (Exn KeyboardInterrupt EmptyString));
    reflexivity.
Defined.

(** The command [models]: one GET of the catalog and no other call. *)
Lemma list_models_shape (w : World) (n : nat) :
  exists (r : result unit) (t : list event),
    AICLI.list_models w n = (r, t, S n)
    /\ network_calls t = [Http (GET AIClient.tags_url None)].
Proof.
  unfold AICLI.list_models, AICLI.print_header.
  unfold bind at 1 2 3 4. unfold print at 1 2 3. unfold emit. cbv beta iota.
  rewrite list_models_run. cbv beta iota zeta.
  set (models := models_of _).
  destruct (Py.truthy models); cbn [negb].
  - unfold bind, print, emit. cbv beta iota.
    destruct models; try (eexists _, _; split; reflexivity).
    destruct (print_models_shape w items (S n)) as (r & t & E & N). rewrite E.
    eexists _, _. split; [reflexivity |].
    simpl. rewrite N. reflexivity.
  - eexists _, _. split; reflexivity.
Qed.

Lemma show_interactive_help_run (w : World) (n : nat) :
  exists t, AICLI.show_interactive_help w n = (Ok tt, t, n)
            /\ network_calls t = [].
Proof.
  eexists. split; reflexivity.
Qed.

(** X5. The control commands are handled without a generation request:
    [/help] and [/clear] (in any case of letters) make no HTTP call and the
    session goes on; [/models] makes exactly one call, the GET of the
    catalog. *)
Theorem control_commands_stay_local
        (w : World) (args : Namespace) (message : string) (n : nat) :
  (Text.lower message = "/help" \/ Text.lower message = "/clear" ->
   exists t, AICLI.chat_turn w args (Some (Line message)) n = (Ok true, t, n)
             /\ network_calls t = [])
  /\ (Text.lower message = "/models" ->
      exists (r : result bool) (t : list event),
        AICLI.chat_turn w args (Some (Line message)) n = (r, t, S n)
        /\ network_calls t = [Http (GET "http://localhost:11434/api/tags" None)]).
Proof.
  split.
  - intros [H | H]; open_turn; rewrite H; cbv beta iota;
      (eexists; split; [reflexivity | reflexivity]).
  - intros H.
    assert (T1 : Py.str_in (Text.lower message) ["/quit"; "/exit"; "/q"] = false)
      by (rewrite H; reflexivity).
    assert (T2 : String.eqb (Text.lower message) "/help" = false)
      by (rewrite H; reflexivity).
    assert (T3 : String.eqb (Text.lower message) "/clear" = false)
      by (rewrite H; reflexivity).
    assert (T4 : String.eqb (Text.lower message) "/models" = true)
      by (rewrite H; reflexivity).
    open_turn. rewrite T1, T2, T3, T4.
    destruct (list_models_shape w n) as (r & t & E & N). rewrite E.
    destruct r as [[] | e].
    + eexists _, _. split; [reflexivity |]. simpl. rewrite app_nil_r. exact N.
    + destruct (AICLI.is_KeyboardInterrupt e);
        eexists _, _; (split; [reflexivity |]); simpl;
        rewrite ?network_calls_app, ?N; try reflexivity; exact N.
Qed.

Lemma control_commands_stay_local_witness :
  (Text.lower "/Help" = "/help" \/ Text.lower "/Help" = "/clear")
  /\ Text.lower "/MODELS" = "/models"
  /\ (exists t, AICLI.chat_turn Scenario.server_A (Scenario.args None false)
                                (Some (Line "/Help")) 0%nat = (Ok true, t, 0%nat)
                /\ network_calls t = [])
  /\ (exists (r : result bool) (t : list event),
         AICLI.chat_turn Scenario.server_A (Scenario.args None false)
                         (Some (Line "/MODELS")) 0%nat = (r, t, 1%nat)
         /\ network_calls t = [Http (GET "http://localhost:11434/api/tags" None)]).
Proof.
  assert (H1 : Text.lower "/Help" = "/help" \/ Text.lower "/Help" = "/clear")
    by (left; reflexivity).
  assert (H2 : Text.lower "/MODELS" = "/models") by reflexivity.
  split; [exact H1 |]. split; [exact H2 |]. split.
  - exact (proj1 (control_commands_stay_local
                    Scenario.server_A (Scenario.args None false) "/Help" 0%nat) H1).
  - exact (proj2 (control_commands_stay_local
                    Scenario.server_A (Scenario.args None false) "/MODELS" 0%nat) H2).
Defined.

Lemma control_tests (s : string) :
  Py.str_in s control_commands
  = Py.str_in s ["/quit"; "/exit"; "/q"]
    || String.eqb s "/help" || String.eqb s "/clear" || String.eqb s "/models".
Proof.
  unfold Py.str_in, control_commands. simpl.
  rewrite !orb_false_r, !orb_assoc. reflexivity.
Qed.


Lemma get_raise (data : json) (key : string) (default : json) (e : exn) :
  Py.get data key default = Raise e -> In (exn_cls e) table_errors.
Proof.
  destruct data; simpl; try discriminate;
    intros H; injection H as <-; simpl; tauto.
Qed.

Lemma format_size_check_raise (size : json) (e : exn) :
  AICLI.format_size_check size = Raise e -> In (exn_cls e) table_errors.
Proof.
  unfold AICLI.format_size_check.
  destruct size as [| b | z | f | s | vs | ms]; try discriminate;
    try (intros H; injection H as <-; simpl; tauto).
  destruct (_ <=? Z.abs z); [| discriminate].
  intros H; injection H as <-; simpl; tauto.
Qed.

Lemma modified_text_raise (modified : json) (e : exn) :
  AICLI.modified_text modified = Raise e -> In (exn_cls e) table_errors.
Proof.
  destruct modified; simpl; try discriminate;
    intros H; injection H as <-; simpl; tauto.
Qed.

Lemma name_format_check_raise (w : World) (name : json) (e : exn) :
  AICLI.name_format_check w name = Raise e -> In (exn_cls e) table_errors.
Proof.
  unfold AICLI.name_format_check.
  destruct (isatty w); [discriminate |].
  destruct name; try discriminate;
    intros H; injection H as <-; simpl; tauto.
Qed.

(** The exceptions of the table of models: those of a field of an
    unexpected type, and the one of [print]. *)
Lemma print_models_raise (w : World) (models : list json) (n n' : nat)
      (t : list event) (e : exn) :
  AICLI.print_models w models n = (Raise e, t, n') ->
  In (exn_cls e) table_errors.
Proof.
  revert t n'. induction models as [| model rest IH]; intros t n';
    [discriminate |].
  cbn [AICLI.print_models]. unfold bind, lift, emit, raise.
  destruct (Py.get model "name" _) as [a | e0] eqn:G1;
    [| intros H; injection H as <- _ _; eapply get_raise; exact G1].
  destruct (Py.get model "size" _) as [b | e0] eqn:G2;
    [| intros H; injection H as <- _ _; eapply get_raise; exact G2].
  destruct (AICLI.format_size_check b) as [[] | e0] eqn:G3;
    [| intros H; injection H as <- _ _; eapply format_size_check_raise; exact G3].
  destruct (Py.get model "modified_at" _) as [c | e0] eqn:G4;
    [| intros H; injection H as <- _ _; eapply get_raise; exact G4].
  destruct (AICLI.modified_text c) as [d | e0] eqn:G5;
    [| intros H; injection H as <- _ _; eapply modified_text_raise; exact G5].
  destruct (AICLI.name_format_check w a) as [[] | e0] eqn:G6;
    [| intros H; injection H as <- _ _; eapply name_format_check_raise; exact G6].
  destruct (printable a && negb (Text.has_surrogate d));
    [| intros H; injection H as <- _ _; simpl; tauto].
  destruct (AICLI.print_models w rest n) as [[[[] | e1] t1] n1] eqn:P;
    [discriminate |].
  intros H. injection H as <- _ _. eapply (IH t1 n1). reflexivity.
Qed.





(* ===================================================================== *)
(** ** Further properties: the two generation calls *)
(* ===================================================================== *)

(** X6. Neither generation call lets an exception out, except an
    interrupt that the transport raised: [chat] returns a value in every
    other case, and the generator of [chat_stream] stops without raising in
    every other case. Each makes exactly one POST. *)
Theorem only_interrupts_escape
        (w : World) (message : string) (model system_prompt : option string)
        (n : nat) :
  (forall (r : result json) (t : list event) (n' : nat),
      AIClient.chat w message model system_prompt n = (r, t, n') ->
      t = [Http (Scenario.generate message model system_prompt false)]
      /\ n' = S n
      /\ forall e, r = Raise e ->
           AICLI.is_KeyboardInterrupt e = true
           /\ (http w n (Scenario.generate message model system_prompt false)
               = Raised e
               \/ exists rsp,
                    http w n (Scenario.generate message model system_prompt false)
                    = Responded rsp /\ broken rsp = Some e))
  /\ (exists g : AIClient.generated,
         AIClient.chat_stream w message model system_prompt n
         = (Ok g, [Http (Scenario.generate message model system_prompt true)], S n)
         /\ forall e, snd g = Some e ->
              AICLI.is_KeyboardInterrupt e = true
              /\ (http w n (Scenario.generate message model system_prompt true)
                  = Raised e
                  \/ exists rsp,
                       http w n (Scenario.generate message model system_prompt true)
                       = Responded rsp /\ broken rsp = Some e)).
Proof.
  split.
  - intros r t n'. rewrite chat_run. cbv zeta. intros H.
    injection H as <- <- <-. repeat split.
    + now apply chat_of_raise in H.
    + unfold chat_of in H.
      destruct (http w n _) as [e0 | rsp].
      * left. destruct (is_Exception e0); [discriminate | congruence].
      * right. exists rsp. split; [reflexivity |].
        destruct (broken rsp) as [e0 |].
        -- destruct (is_Exception e0); [discriminate | congruence].
        -- destruct (status_code rsp =? 200); [| discriminate].
           destruct (Json.decode (content rsp)) as [[] |]; discriminate.
  - rewrite chat_stream_run. cbv zeta. eexists. split; [reflexivity |].
    intros e H. now apply stream_interrupt_source.
Qed.

Lemma only_interrupts_escape_witness :
  AIClient.chat
    (Scenario.world (Scenario.always (Raised (Exn KeyboardInterrupt EmptyString))) [])
    "hi" None None 0%nat
  = (Raise (Exn KeyboardInterrupt EmptyString),
     [Http (Scenario.generate "hi" None None false)], 1%nat)
  /\ AICLI.is_KeyboardInterrupt (Exn KeyboardInterrupt EmptyString) = true.
Proof.
  assert (E : AIClient.chat
                (Scenario.world
                   (Scenario.always (Raised (Exn KeyboardInterrupt EmptyString))) [])
                "hi" None None 0%nat
              = (Raise (Exn KeyboardInterrupt EmptyString),
                 [Http (Scenario.generate "hi" None None false)], 1%nat))
    by reflexivity.
  split; [exact E |].
  exact (proj1 (proj2 (proj2 (proj1 (only_interrupts_escape
                                       (Scenario.world
                                          (Scenario.always
                                             (Raised (Exn KeyboardInterrupt EmptyString)))
                                          [])
                                       "hi" None None 0%nat) _ _ _ E))
                      _ eq_refl)).
Defined.

(** What the body of the loop yields for a line, when it yields, is the
    fragment of that line. *)
Lemma decode_line_fragment (line : string) (vs : list json) :
  AIClient.decode_line line = Ok vs -> vs = fragments [line].
Proof.
  unfold AIClient.decode_line, fragments. simpl flat_map. rewrite app_nil_r.
  destruct (String.eqb line EmptyString) eqn:E.
  - apply String.eqb_eq in E. subst line. intros H. injection H as <-.
    reflexivity.
  - destruct (Json.loads line) as [data | e].
    + destruct data; simpl; try discriminate.
      * destruct (Text.contains "response" s); simpl; intros H;
          [discriminate | now injection H as <-].
      * destruct (existsb (Py.is_str "response") items); simpl; intros H;
          [discriminate | now injection H as <-].
      * destruct (Py.dict_get "response" members); simpl; intros H;
          now injection H as <-.
    + destruct (exn_class_eqb (exn_cls e) JSONDecodeError); intros H;
        [now injection H as <- | discriminate].
Qed.

Lemma fragments_app (l1 l2 : list string) :
  fragments (l1 ++ l2) = (fragments l1 ++ fragments l2)%list.
Proof. unfold fragments. apply flat_map_app. Qed.

Lemma decode_lines_prefix (lines : list string) (ending : option exn) :
  exists rest,
    fragments lines = (fst (AIClient.decode_lines lines ending) ++ rest)%list.
Proof.
  induction lines as [| line r IH].
  - exists []. reflexivity.
  - change (line :: r) with ([line] ++ r)%list at 1. rewrite fragments_app.
    simpl AIClient.decode_lines.
    destruct (AIClient.decode_line line) as [vs | e] eqn:D.
    + apply decode_line_fragment in D. subst vs.
      destruct IH as (rest & IH).
      destruct (AIClient.decode_lines r ending) as [more e1]. simpl in *.
      exists rest. rewrite IH, app_assoc. reflexivity.
    + eexists. reflexivity.
Qed.

(** X7. The decoder yields the fragments of the stream in their order and
    invents none: the chunks of [chat_stream] are a prefix of the fragments
    of the lines of the body, followed by at most one chunk, the report of
    an error. *)
Theorem chunks_are_a_prefix_of_the_fragments
        (w : World) (message : string) (model system_prompt : option string)
        (n : nat) (r : Response) :
  http w n (Scenario.generate message model system_prompt true) = Responded r ->
  exists (g : AIClient.generated) (pre rest tail : list json),
    outcome (AIClient.chat_stream w message model system_prompt) n = Ok g
    /\ fragments (Text.splitlines (content r)) = (pre ++ rest)%list
    /\ fst g = (pre ++ tail)%list
    /\ (tail = []
        \/ exists e, tail = [JString ("Connection error: " ++ exn_str e)]).
Proof.
  intros H. unfold outcome. rewrite chat_stream_run. cbv zeta. rewrite H.
  unfold stream_of.
  destruct (decode_lines_prefix (Text.splitlines (content r)) (broken r))
    as (rest & P).
  destruct (AIClient.decode_lines _ (broken r)) as [cs ending].
  simpl in P. unfold AIClient.except_yield.
  destruct ending as [e |].
  - destruct (is_Exception e).
    + eexists _, cs, rest, _. repeat split; [exact P | right; eexists; reflexivity].
    + exists (cs, Some e), cs, rest, [].
      repeat split; [exact P | simpl; now rewrite app_nil_r | now left].
  - exists (cs, None), cs, rest, [].
    repeat split; [exact P | simpl; now rewrite app_nil_r | now left].
Qed.

Lemma chunks_are_a_prefix_of_the_fragments_witness :
  http Scenario.server_cut 0%nat (Scenario.generate "hi" None None true)
  = Responded (mkResponse 200 Scenario.body_cut None)
  /\ exists (g : AIClient.generated) (pre rest tail : list json),
       outcome (AIClient.chat_stream Scenario.server_cut "hi" None None) 0%nat
       = Ok g
       /\ fragments (Text.splitlines Scenario.body_cut) = (pre ++ rest)%list
       /\ fst g = (pre ++ tail)%list
       /\ (tail = []
           \/ exists e, tail = [JString ("Connection error: " ++ exn_str e)]).
Proof.
  split; [reflexivity |].
  apply (chunks_are_a_prefix_of_the_fragments
           Scenario.server_cut "hi" None None 0%nat
           (mkResponse 200 Scenario.body_cut None)).
  reflexivity.
Defined.

(** X8. [chat_stream] never looks at the status of the response: two
    responses with the same body, ended the same way, give the same chunks
    whatever their status codes. *)
Theorem stream_ignores_status
        (w w' : World) (message : string) (model system_prompt : option string)
        (n n' : nat) (r r' : Response) :
  http w n (Scenario.generate message model system_prompt true) = Responded r ->
  http w' n' (Scenario.generate message model system_prompt true) = Responded r' ->
  content r = content r' ->
  broken r = broken r' ->
  outcome (AIClient.chat_stream w message model system_prompt) n
  = outcome (AIClient.chat_stream w' message model system_prompt) n'.
Proof.
  intros H H' C B. unfold outcome. rewrite !chat_stream_run. cbv zeta.
  rewrite H, H'. unfold stream_of. rewrite C, B. reflexivity.
Qed.

Lemma stream_ignores_status_witness :
  http Scenario.server_404 0%nat (Scenario.generate "hi" None None true)
  = Responded (mkResponse 404 Scenario.body_404 None)
  /\ http (Scenario.world (Scenario.always (Scenario.ok_200 Scenario.body_404)) [])
          0%nat (Scenario.generate "hi" None None true)
     = Responded (mkResponse 200 Scenario.body_404 None)
  /\ outcome (AIClient.chat_stream Scenario.server_404 "hi" None None) 0%nat
     = outcome (AIClient.chat_stream
                  (Scenario.world (Scenario.always (Scenario.ok_200 Scenario.body_404)) [])
                  "hi" None None) 0%nat.
Proof.
  split; [reflexivity |]. split; [reflexivity |].
  apply (stream_ignores_status
           Scenario.server_404
           (Scenario.world (Scenario.always (Scenario.ok_200 Scenario.body_404)) [])
           "hi" None None 0%nat 0%nat
           (mkResponse 404 Scenario.body_404 None)
           (mkResponse 200 Scenario.body_404 None));
    reflexivity.
Defined.

(* ===================================================================== *)
(** ** Further properties: the commands *)
(* ===================================================================== *)

Lemma append_assoc (a b c : string) : (a ++ b) ++ c = a ++ (b ++ c).
Proof.
  induction a as [| x a IH]; simpl; [reflexivity | now rewrite IH].
Qed.

(** The loop that prints and joins, on chunks that are all texts that
    [print] can encode. *)
Lemma print_and_join_texts (vs : list json) (s response : string) (n : nat) :
  join_chunks vs = Some s ->
  forallb printable vs = true ->
  AICLI.print_and_join vs response n = (Ok (response ++ s), chunk_prints vs, n).
Proof.
  revert s response.
  induction vs as [| v r IH]; cbn [join_chunks forallb AICLI.print_and_join];
    intros s response H P.
  - injection H as <-. rewrite append_empty_r. reflexivity.
  - destruct v; try discriminate.
    destruct (join_chunks r) as [t |]; [| discriminate].
    injection H as <-. apply andb_true_iff in P as [P1 P2].
    unfold bind, print_value. rewrite P1. unfold emit.
    rewrite (IH t _ eq_refl P2).
    rewrite append_assoc. reflexivity.
Qed.

(** The same loop on chunks of which one is no text: it raises after it
    has printed that chunk. *)
Lemma print_and_join_other (vs : list json) (response : string) (n : nat) :
  join_chunks vs = None ->
  forallb printable vs = true ->
  exists (pre post : list json) (v : json),
    vs = (pre ++ v :: post)%list
    /\ (forall s, v <> JString s)
    /\ AICLI.print_and_join vs response n
       = (Raise (Exn TypeError
                   ("can only concatenate str (not " ++ Text.q (Py.type_name v)
                                                     ++ ") to str")),
          chunk_prints (pre ++ [v]), n).
Proof.
  revert response.
  induction vs as [| v r IH]; cbn [join_chunks forallb AICLI.print_and_join];
    intros response H P; [discriminate |].
  apply andb_true_iff in P as [P1 P2].
  unfold bind, print_value. rewrite P1. unfold emit.
  destruct v;
    try (exists [], r; eexists; split; [reflexivity |];
         split; [discriminate | reflexivity]).
  destruct (join_chunks r) as [t |] eqn:J; [discriminate |].
  destruct (IH (response ++ s) eq_refl P2) as (pre & post & v & -> & V & E).
  exists (JString s :: pre)%list, post, v.
  split; [reflexivity |]. split; [exact V |].
  rewrite E. reflexivity.
Qed.

(** The same loop on chunks of which one cannot be encoded: it raises, at
    that chunk or at a chunk before it that is no text. *)
Lemma print_and_join_unprintable (vs : list json) (response : string) (n : nat) :
  forallb printable vs = false ->
  exists (e : exn) (t : list event),
    AICLI.print_and_join vs response n = (Raise e, t, n)
    /\ network_calls t = []
    /\ (exn_cls e = UnicodeEncodeError \/ exn_cls e = TypeError).
Proof.
  revert response.
  induction vs as [| v r IH]; cbn [forallb AICLI.print_and_join];
    intros response P; [discriminate |].
  unfold bind, print_value.
  destruct (printable v) eqn:P1.
  - cbn [andb] in P. unfold emit.
    destruct v;
      try (eexists _, _; split; [reflexivity |]; split; [reflexivity | now right]).
    destruct (IH (response ++ s) P) as (e & t & E & N & C). rewrite E.
    exists e, (PrintValue (JString s) EmptyString :: t)%list.
    split; [reflexivity |]. split; [exact N | exact C].
  - eexists _, _. split; [reflexivity |]. split; [reflexivity | now left].
Qed.

Lemma print_header_run (w : World) (s : string) (n : nat) :
  AICLI.print_header w s n
  = (Ok tt,
     [ Print (Text.nl ++ AICLI.colored w (Text.repeat_str "═" 60) "blue") Text.nl;
       Print (AICLI.colored w ("🤖 AI CLI - " ++ s) "bold") Text.nl;
       Print (AICLI.colored w (Text.repeat_str "═" 60) "blue" ++ Text.nl) Text.nl ],
     n).
Proof. reflexivity. Qed.

(** A computation that has run, in front of another. *)
Lemma bind_run {A B : Type} (m : M A) (k : A -> M B) (n n1 : nat)
      (a : A) (t : list event) :
  m n = (Ok a, t, n1) ->
  bind m k n = (let '(r, t2, n2) := k a n1 in (r, (t ++ t2)%list, n2)).
Proof.
  intros H. unfold bind. rewrite H. destruct (k a n1) as [[r t2] n2]. reflexivity.
Qed.

(** The end of a single-shot command: one POST, with the model and the
    streaming flag of the arguments, and nothing else on the network. *)
Lemma respond_shape (w : World) (args : Namespace) (prompt system_prompt : string)
      (n : nat) :
  exists (r : result unit) (t : list event),
    AICLI.respond w args prompt system_prompt n
    = (r,
       (Http (Scenario.generate prompt (Some (arg_model args)) (Some system_prompt)
                                (arg_stream args)) :: t)%list,
       S n)
    /\ network_calls t = [].
Proof.
  unfold AICLI.respond. destruct (arg_stream args).
  - unfold bind. rewrite chat_stream_run. cbv zeta beta iota.
    rewrite for_each_print_run.
    destruct (forallb printable _);
      [destruct (snd _) |];
      eexists _, _; (split; [simpl; reflexivity |]);
      rewrite ?network_calls_app, chunk_prints_offline; reflexivity.
  - unfold bind. rewrite chat_run. cbv zeta beta iota.
    destruct (chat_of _) as [v | e]; [| eexists _, _; split; reflexivity].
    unfold print_value. destruct (printable v);
      eexists _, _; split; reflexivity.
Qed.

(** X9. A single message in streaming mode, under these conditions: the
    arguments hold a message that is not empty and ask for streaming, the
    probe has succeeded, the server has answered the POST, the transfer of
    the body has not broken, and every line of the body is an expected
    line (empty, text that is no JSON document, or a JSON object). Then,
    after exactly one POST: when every fragment of the stream is a text
    that [print] can encode, the command prints the fragments one by one in
    their order, between the label of the answer and a final newline, and
    returns; when every fragment can be encoded and one of them is no text
    (a number, say), the command raises [TypeError]; and when a fragment
    cannot be encoded (a text with a lone surrogate), the command raises
    [UnicodeEncodeError], or [TypeError] for a fragment before that one. *)
Theorem single_message_stream_prints_fragments
        (w : World) (args : Namespace) (message : string) (n : nat)
        (r : Response) :
  arg_message args = Some message ->
  message <> EmptyString ->
  arg_stream args = true ->
  outcome (AIClient.check_connection w) n = Ok true ->
  http w (S n) (Scenario.generate message (Some (arg_model args)) None true)
  = Responded r ->
  broken r = None ->
  forallb expected_line (Text.splitlines (content r)) = true ->
  (forall s,
      join_chunks (fragments (Text.splitlines (content r))) = Some s ->
      forallb printable (fragments (Text.splitlines (content r))) = true ->
      AICLI.cmd_chat w args n
      = (Ok tt,
         ([ Http Scenario.probe;
            Print (Text.nl ++ AICLI.colored w (Text.repeat_str "═" 60) "blue")
                  Text.nl;
            Print (AICLI.colored w ("🤖 AI CLI - " ++ "Chat with " ++ arg_model args)
                                 "bold") Text.nl;
            Print (AICLI.colored w (Text.repeat_str "═" 60) "blue" ++ Text.nl)
                  Text.nl;
            Print (AICLI.colored w "👤 You:" "green" ++ " " ++ message) Text.nl;
            Print (AICLI.colored w "🤖 AI:" "blue") " ";
            Http (Scenario.generate message (Some (arg_model args)) None true) ]
          ++ chunk_prints (fragments (Text.splitlines (content r)))
          ++ [Print EmptyString Text.nl])%list,
         S (S n)))
  /\ (join_chunks (fragments (Text.splitlines (content r))) = None ->
      forallb printable (fragments (Text.splitlines (content r))) = true ->
      exists (msg : string) (t : list event),
        AICLI.cmd_chat w args n = (Raise (Exn TypeError msg), t, S (S n)))
  /\ (forallb printable (fragments (Text.splitlines (content r))) = false ->
      exists (e : exn) (t : list event),
        AICLI.cmd_chat w args n = (Raise e, t, S (S n))
        /\ (exn_cls e = UnicodeEncodeError \/ exn_cls e = TypeError)).
Proof.
  intros Hm Hne Hst Hp H B L.
  apply probe_ok_of_check in Hp.
  assert (T : Py.truthy_str (Some message) = true).
  { simpl. destruct (String.eqb message EmptyString) eqn:E; [| reflexivity].
    apply String.eqb_eq in E. contradiction. }
  assert (G : AIClient.chat_stream w message (Some (arg_model args)) None (S n)
              = (Ok (fragments (Text.splitlines (content r)), None),
                 [Http (Scenario.generate message (Some (arg_model args)) None true)],
                 S (S n))).
  { rewrite chat_stream_run. cbv zeta. rewrite H. unfold stream_of.
    rewrite B, (decode_expected_lines _ L). reflexivity. }
  unfold AICLI.cmd_chat. rewrite (guard_true w n _ Hp).
  rewrite Hm, T, Hst.
  unfold AICLI.for_each_print_and_join.
  split; [| split].
  - intros s J P.
    unfold bind, print, print_end, emit. rewrite print_header_run, G.
    cbv beta iota. cbn [fst snd].
    rewrite (print_and_join_texts _ s EmptyString _ J P).
    simpl. rewrite !app_nil_r. reflexivity.
  - intros J P.
    destruct (print_and_join_other _ EmptyString (S (S n)) J P)
      as (pre & post & v & _ & _ & E).
    unfold bind, print, print_end, emit. rewrite print_header_run, G.
    cbv beta iota. cbn [fst snd]. rewrite E.
    eexists _, _. reflexivity.
  - intros P.
    destruct (print_and_join_unprintable _ EmptyString (S (S n)) P)
      as (e & t & E & _ & C).
    unfold bind, print, print_end, emit. rewrite print_header_run, G.
    cbv beta iota. cbn [fst snd]. rewrite E.
    exists e. eexists. split; [reflexivity | exact C].
Qed.

Lemma single_message_stream_prints_fragments_witness :
  arg_message (mkNamespace (Some "chat") "m" true (Some "hi") false
                           "p" "t" "x" "l" "i" "f") = Some "hi"
  /\ "hi" <> EmptyString
  /\ outcome (AIClient.check_connection Scenario.server_B) 0%nat = Ok true
  /\ forallb expected_line (Text.splitlines Scenario.body_B) = true
  /\ join_chunks (fragments (Text.splitlines Scenario.body_B)) = Some "Hello"
  /\ forallb printable (fragments (Text.splitlines Scenario.body_B)) = true
  /\ AICLI.cmd_chat Scenario.server_B
       (mkNamespace (Some "chat") "m" true (Some "hi") false "p" "t" "x" "l" "i" "f")
       0%nat
     = (Ok tt,
        ([ Http Scenario.probe;
           Print (Text.nl ++ Text.repeat_str "═" 60) Text.nl;
           Print "🤖 AI CLI - Chat with m" Text.nl;
           Print (Text.repeat_str "═" 60 ++ Text.nl) Text.nl;
           Print "👤 You: hi" Text.nl;
           Print "🤖 AI:" " ";
           Http (Scenario.generate "hi" (Some "m") None true) ]
         ++ chunk_prints [JString "Hel"; JString "lo"]
         ++ [Print EmptyString Text.nl])%list,
        2%nat)
  /\ forallb printable
             (fragments (Text.splitlines Scenario.body_stream_surrogate)) = false
  /\ exists (e : exn) (t : list event),
       AICLI.cmd_chat Scenario.server_stream_surrogate
         (mkNamespace (Some "chat") "m" true (Some "hi") false
                      "p" "t" "x" "l" "i" "f")
         0%nat
       = (Raise e, t, 2%nat)
       /\ (exn_cls e = UnicodeEncodeError \/ exn_cls e = TypeError).
Proof.
  split; [reflexivity |]. split; [discriminate |].
  split; [reflexivity |]. split; [reflexivity |]. split; [reflexivity |].
  split; [reflexivity |]. split; [| split; [reflexivity |]].
  - apply (proj1 (single_message_stream_prints_fragments
                    Scenario.server_B
                    (mkNamespace (Some "chat") "m" true (Some "hi") false
                                 "p" "t" "x" "l" "i" "f")
                    "hi" 0%nat (mkResponse 200 Scenario.body_B None)
                    eq_refl ltac:(discriminate) eq_refl eq_refl eq_refl eq_refl
                    eq_refl)
                 "Hello" eq_refl eq_refl).
  - apply (proj2 (proj2 (single_message_stream_prints_fragments
                    Scenario.server_stream_surrogate
                    (mkNamespace (Some "chat") "m" true (Some "hi") false
                                 "p" "t" "x" "l" "i" "f")
                    "hi" 0%nat
                    (mkResponse 200 Scenario.body_stream_surrogate None)
                    eq_refl ltac:(discriminate) eq_refl eq_refl eq_refl eq_refl
                    eq_refl))
                 eq_refl).
Defined.





Ltac open_file_command :=
  unfold AICLI.os_path_isfile, AICLI.read_file, AICLI.error_reading_file;
  unfold try_except, bind, print, emit, lift, ret; cbv beta iota.

(** Names the run of [respond] in the goal and leaves what comes after
    its POST as a trace without HTTP call. *)
Ltac name_respond w args :=
  match goal with
  | |- context [AICLI.respond w args ?p ?s ?k] =>
      let r := fresh "r" in let t := fresh "t" in
      let E := fresh "E" in let N := fresh "N" in
      destruct (respond_shape w args p s k) as (r & t & E & N);
      rewrite E; exists r, t, s; split; [reflexivity | exact N]
  end.

(** X11. An argument of summarize or explain that names no file is taken
    as the text itself: the command does not try to open it and asks the
    model about the argument as it was given. Review does not: for a path
    that is no file it prints that the file was not found and sends
    nothing. *)
Theorem missing_file_is_text_or_refused
        (w : World) (args : Namespace) (n : nat) :
  outcome (AIClient.check_connection w) n = Ok true ->
  (isfile w (arg_input args) = false ->
   exists (r : result unit) (t : list event) (system_prompt : string),
     AICLI.cmd_summarize w args n
     = (r,
        (Http Scenario.probe :: IsFile (arg_input args)
         :: header_events w "Summary"
         ++ [ Print (AICLI.colored w "📄 Input:" "green" ++ " " ++ "Text input")
                    Text.nl;
              Print (AICLI.colored w "📝 Summary:" "blue" ++ Text.nl) Text.nl;
              Http (Scenario.generate ("Please summarize: " ++ arg_input args)
                                      (Some (arg_model args)) (Some system_prompt)
                                      (arg_stream args)) ]
         ++ t)%list,
        S (S n))
     /\ network_calls t = [])
  /\ (isfile w (arg_topic args) = false ->
      exists (r : result unit) (t : list event) (system_prompt : string),
        AICLI.cmd_explain w args n
        = (r,
           (Http Scenario.probe :: IsFile (arg_topic args)
            :: header_events w "Explanation"
            ++ [ Print (AICLI.colored w "❓ Topic:" "green" ++ " " ++ arg_topic args)
                       Text.nl;
                 Print (AICLI.colored w "📚 Explanation:" "blue" ++ Text.nl) Text.nl;
                 Http (Scenario.generate ("Please explain: " ++ arg_topic args)
                                         (Some (arg_model args)) (Some system_prompt)
                                         (arg_stream args)) ]
            ++ t)%list,
           S (S n))
        /\ network_calls t = [])
  /\ (isfile w (arg_file args) = false ->
      AICLI.cmd_review w args n
      = (Ok tt,
         [ Http Scenario.probe; IsFile (arg_file args);
           Print (AICLI.colored w "❌ Error:" "red" ++ " File not found: "
                  ++ arg_file args) Text.nl ],
         S n)).
Proof.
  intros Hp. pose proof (probe_ok_of_check w n true Hp) as Hp'.
  split; [| split].
  - intros Hf. unfold AICLI.cmd_summarize. rewrite (guard_true w n _ Hp').
    open_file_command. rewrite Hf. rewrite print_header_run. cbv beta iota.
    name_respond w args.
  - intros Hf. unfold AICLI.cmd_explain. rewrite (guard_true w n _ Hp').
    open_file_command. rewrite Hf. rewrite print_header_run. cbv beta iota.
    name_respond w args.
  - now apply review_file_not_found.
Qed.

Lemma missing_file_is_text_or_refused_witness :
  outcome (AIClient.check_connection Scenario.server_A) 0%nat = Ok true
  /\ isfile Scenario.server_A
            (arg_input (mkNamespace (Some "summarize") "m" false None false
                                    "p" "t" "x" "l" "notes.txt" "f")) = false
  /\ exists (r : result unit) (t : list event) (system_prompt : string),
       AICLI.cmd_summarize Scenario.server_A
         (mkNamespace (Some "summarize") "m" false None false
                      "p" "t" "x" "l" "notes.txt" "f") 0%nat
       = (r,
          (Http Scenario.probe :: IsFile "notes.txt"
           :: header_events Scenario.server_A "Summary"
           ++ [ Print "📄 Input: Text input" Text.nl;
                Print ("📝 Summary:" ++ Text.nl) Text.nl;
                Http (Scenario.generate "Please summarize: notes.txt"
                                        (Some "m") (Some system_prompt) false) ]
           ++ t)%list,
          2%nat)
       /\ network_calls t = [].
Proof.
  split; [reflexivity |]. split; [reflexivity |].
  apply (proj1 (missing_file_is_text_or_refused
                  Scenario.server_A
                  (mkNamespace (Some "summarize") "m" false None false
                               "p" "t" "x" "l" "notes.txt" "f")
                  0%nat eq_refl)).
  reflexivity.
Defined.

(** X12. The text of a file that can be read goes into the prompt as it
    is: after the probe, the test and the read, summarize, explain and
    review send one request whose prompt is the content of the file behind
    a fixed opening, for explain and review between two code fences. *)
Theorem file_content_goes_into_the_prompt
        (w : World) (args : Namespace) (n : nat) (content : string) :
  outcome (AIClient.check_connection w) n = Ok true ->
  (isfile w (arg_input args) = true ->
   read_text w (arg_input args) = Ok content ->
   exists (r : result unit) (t : list event) (system_prompt : string),
     AICLI.cmd_summarize w args n
     = (r,
        (Http Scenario.probe :: IsFile (arg_input args) :: ReadFile (arg_input args)
         :: header_events w "Summary"
         ++ [ Print (AICLI.colored w "📄 Input:" "green" ++ " "
                     ++ "File: " ++ arg_input args) Text.nl;
              Print (AICLI.colored w "📝 Summary:" "blue" ++ Text.nl) Text.nl;
              Http (Scenario.generate
                      ("Please summarize this content:" ++ Text.nl ++ Text.nl
                       ++ content)
                      (Some (arg_model args)) (Some system_prompt)
                      (arg_stream args)) ]
         ++ t)%list,
        S (S n))
     /\ network_calls t = [])
  /\ (isfile w (arg_topic args) = true ->
      read_text w (arg_topic args) = Ok content ->
      exists (r : result unit) (t : list event) (system_prompt : string),
        AICLI.cmd_explain w args n
        = (r,
           (Http Scenario.probe :: IsFile (arg_topic args)
            :: ReadFile (arg_topic args)
            :: header_events w "Explanation"
            ++ [ Print (AICLI.colored w "❓ Topic:" "green" ++ " " ++ arg_topic args)
                       Text.nl;
                 Print (AICLI.colored w "📚 Explanation:" "blue" ++ Text.nl) Text.nl;
                 Http (Scenario.generate
                         ("Please explain this code:" ++ Text.nl ++ Text.nl
                          ++ "```" ++ Text.nl ++ content ++ Text.nl ++ "```")
                         (Some (arg_model args)) (Some system_prompt)
                         (arg_stream args)) ]
            ++ t)%list,
           S (S n))
        /\ network_calls t = [])
  /\ (isfile w (arg_file args) = true ->
      read_text w (arg_file args) = Ok content ->
      exists (r : result unit) (t : list event) (system_prompt : string),
        AICLI.cmd_review w args n
        = (r,
           (Http Scenario.probe :: IsFile (arg_file args)
            :: ReadFile (arg_file args)
            :: header_events w ("Code Review: " ++ arg_file args)
            ++ [ Print (AICLI.colored w "🔍 Reviewing:" "green" ++ " "
                        ++ arg_file args) Text.nl;
                 Print (AICLI.colored w "📋 Review:" "blue" ++ Text.nl) Text.nl;
                 Http (Scenario.generate
                         ("Please review this code and provide feedback:"
                          ++ Text.nl ++ Text.nl
                          ++ "```" ++ Text.nl ++ content ++ Text.nl ++ "```")
                         (Some (arg_model args)) (Some system_prompt)
                         (arg_stream args)) ]
            ++ t)%list,
           S (S n))
        /\ network_calls t = []).
Proof.
  intros Hp. pose proof (probe_ok_of_check w n true Hp) as Hp'.
  split; [| split]; intros Hf Hr.
  - unfold AICLI.cmd_summarize. rewrite (guard_true w n _ Hp').
    open_file_command. rewrite Hf, Hr. cbv beta iota.
    rewrite print_header_run. cbv beta iota. name_respond w args.
  - unfold AICLI.cmd_explain. rewrite (guard_true w n _ Hp').
    open_file_command. rewrite Hf, Hr. cbv beta iota.
    rewrite print_header_run. cbv beta iota. name_respond w args.
  - unfold AICLI.cmd_review. rewrite (guard_true w n _ Hp').
    open_file_command. rewrite Hf. cbn [negb]. rewrite Hr. cbv beta iota.
    rewrite print_header_run. cbv beta iota. name_respond w args.
Qed.

Lemma file_content_goes_into_the_prompt_witness :
  outcome (AIClient.check_connection
             (mkWorld (Scenario.always (Scenario.ok_200 Scenario.body_A)) false true
                      (fun p => String.eqb p "a.py")
                      (fun p => Ok "print(1)") [])) 0%nat = Ok true
  /\ exists (r : result unit) (t : list event) (system_prompt : string),
       AICLI.cmd_review
         (mkWorld (Scenario.always (Scenario.ok_200 Scenario.body_A)) false true
                  (fun p => String.eqb p "a.py") (fun p => Ok "print(1)") [])
         (mkNamespace (Some "review") "m" false None false "p" "t" "x" "l" "i" "a.py")
         0%nat
       = (r,
          (Http Scenario.probe :: IsFile "a.py" :: ReadFile "a.py"
           :: header_events
                (mkWorld (Scenario.always (Scenario.ok_200 Scenario.body_A)) false true
                         (fun p => String.eqb p "a.py") (fun p => Ok "print(1)") [])
                "Code Review: a.py"
           ++ [ Print "🔍 Reviewing: a.py" Text.nl;
                Print ("📋 Review:" ++ Text.nl) Text.nl;
                Http (Scenario.generate
                        ("Please review this code and provide feedback:"
                         ++ Text.nl ++ Text.nl
                         ++ "```" ++ Text.nl ++ "print(1)" ++ Text.nl ++ "```")
                        (Some "m") (Some system_prompt) false) ]
           ++ t)%list,
          2%nat)
       /\ network_calls t = [].
Proof.
  split; [reflexivity |].
  apply (proj2 (proj2 (file_content_goes_into_the_prompt
                         (mkWorld (Scenario.always (Scenario.ok_200 Scenario.body_A))
                                  false true (fun p => String.eqb p "a.py")
                                  (fun p => Ok "print(1)") [])
                         (mkNamespace (Some "review") "m" false None false
                                      "p" "t" "x" "l" "i" "a.py")
                         0%nat "print(1)" eq_refl)));
    reflexivity.
Defined.

(* ===================================================================== *)
(** ** Further properties: [format_size] *)
(* ===================================================================== *)

(** The rounding to tenths is to the nearest tenth. *)
Lemma round_tenths_near (num den : Z) :
  0 <= num -> 0 < den ->
  2 * Z.abs (10 * num - round_tenths num den * den) <= den.
Proof.
  intros Hn Hd. unfold round_tenths.
  pose proof (Z.div_mod (10 * num) den ltac:(lia)) as E.
  pose proof (Z.mod_pos_bound (10 * num) den Hd) as B.
  set (q := 10 * num / den) in *. set (r := (10 * num) mod den) in *.
  destruct (Z.ltb_spec (2 * r) den); [nia |].
  destruct (Z.ltb_spec den (2 * r)); [nia |].
  destruct (Z.even q); nia.
Qed.

Lemma format_1f_nonneg (num den : Z) :
  0 <= num -> format_1f num den = tenths_text (round_tenths num den).
Proof.
  intros H. unfold format_1f.
  destruct (Z.ltb_spec num 0); [lia | reflexivity].
Qed.

(** X13. A size below 1024 is shown in bytes with one decimal that is
    always 0: the number itself, [.0] and the unit B. *)
Theorem format_size_bytes (n : Z) :
  0 <= n < 1024 ->
  format_size n = Text.str_of_Z n ++ ".0B".
Proof.
  intros H. unfold format_size. cbn [format_size_loop].
  destruct (Z.ltb_spec n (1024 * 1)); [| lia].
  rewrite format_1f_nonneg by lia.
  assert (R : round_tenths n 1 = 10 * n).
  { unfold round_tenths. rewrite Z.div_1_r, Z.mod_1_r. reflexivity. }
  rewrite R. unfold tenths_text.
  replace (10 * n / 10) with n by (apply Z.div_unique with 0; lia).
  replace ((10 * n) mod 10) with 0 by (apply Z.mod_unique with n; lia).
  rewrite append_assoc. reflexivity.
Qed.

Lemma format_size_bytes_witness :
  0 <= 512 < 1024 /\ format_size 512 = "512.0B".
Proof.
  split; [lia |]. apply (format_size_bytes 512). lia.
Defined.

(** X14. [format_size] shows a size in the largest unit that does not
    exceed it, up to TB, as the tenths nearest to the size in that unit:
    what is shown differs from the size by at most a twentieth of the
    unit. *)
Theorem format_size_unit_and_accuracy (n : Z) :
  0 <= n < 2 ^ 53 ->
  exists (k : nat) (t : Z),
    (k <= 4)%nat
    /\ format_size n = tenths_text t ++ nth k size_units EmptyString
    /\ (k = 0%nat \/ 1024 ^ Z.of_nat k <= n)
    /\ (k = 4%nat \/ n < 1024 ^ Z.of_nat (S k))
    /\ 2 * Z.abs (10 * n - t * 1024 ^ Z.of_nat k) <= 1024 ^ Z.of_nat k.
Proof.
  intros H. unfold format_size. cbn [format_size_loop].
  destruct (Z.ltb_spec n (1024 * 1)).
  { exists 0%nat, (round_tenths n 1). rewrite format_1f_nonneg by lia.
    repeat split; [lia | now left | right; simpl; lia |].
    apply (round_tenths_near n 1); lia. }
  destruct (Z.ltb_spec n (1024 * (1024 * 1))).
  { exists 1%nat, (round_tenths n (1024 * 1)). rewrite format_1f_nonneg by lia.
    repeat split; [lia | right; simpl; lia | right; simpl; lia |].
    apply (round_tenths_near n (1024 * 1)); lia. }
  destruct (Z.ltb_spec n (1024 * (1024 * (1024 * 1)))).
  { exists 2%nat, (round_tenths n (1024 * (1024 * 1))).
    rewrite format_1f_nonneg by lia.
    repeat split; [lia | right; simpl; lia | right; simpl; lia |].
    apply (round_tenths_near n (1024 * (1024 * 1))); lia. }
  destruct (Z.ltb_spec n (1024 * (1024 * (1024 * (1024 * 1))))).
  { exists 3%nat, (round_tenths n (1024 * (1024 * (1024 * 1)))).
    rewrite format_1f_nonneg by lia.
    repeat split; [lia | right; simpl; lia | right; simpl; lia |].
    apply (round_tenths_near n (1024 * (1024 * (1024 * 1)))); lia. }
  exists 4%nat, (round_tenths n (1024 * (1024 * (1024 * (1024 * 1))))).
  rewrite format_1f_nonneg by lia.
  repeat split; [lia | right; simpl; lia | now left |].
  apply (round_tenths_near n (1024 * (1024 * (1024 * (1024 * 1))))); lia.
Qed.

Lemma format_size_unit_and_accuracy_witness :
  0 <= 1536 < 2 ^ 53
  /\ exists (k : nat) (t : Z),
       (k <= 4)%nat
       /\ format_size 1536 = tenths_text t ++ nth k size_units EmptyString
       /\ (k = 0%nat \/ 1024 ^ Z.of_nat k <= 1536)
       /\ (k = 4%nat \/ 1536 < 1024 ^ Z.of_nat (S k))
       /\ 2 * Z.abs (10 * 1536 - t * 1024 ^ Z.of_nat k) <= 1024 ^ Z.of_nat k.
Proof.
  assert (H : 0 <= 1536 < 2 ^ 53) by (simpl; lia).
  split; [exact H |]. exact (format_size_unit_and_accuracy 1536 H).
Defined.

(** The tenths of a value within a twentieth below 1024 are 10240. *)
Lemma round_tenths_up (n den : Z) :
  0 < den -> 20479 * den <= 20 * n -> n < 1024 * den ->
  round_tenths n den = 10240.
Proof.
  intros Hd H1 H2. unfold round_tenths.
  pose proof (Z.div_mod (10 * n) den ltac:(lia)) as E.
  pose proof (Z.mod_pos_bound (10 * n) den Hd) as B.
  assert (Q : 10 * n / den = 10239) by nia.
  rewrite Q in *.
  destruct (Z.ltb_spec (2 * ((10 * n) mod den)) den); [nia |].
  destruct (Z.ltb_spec den (2 * ((10 * n) mod den))); reflexivity.
Qed.

(** X15. Just below the next unit the size is shown as 1024.0 of the
    smaller one: a size of at least 1023.95 KB, MB or GB that is not yet a
    whole MB, GB or TB reads [1024.0KB], [1024.0MB] or [1024.0GB]. *)
Theorem format_size_rounds_up_to_1024 (n : Z) (k : nat) :
  (1 <= k <= 3)%nat ->
  20479 * 1024 ^ Z.of_nat k <= 20 * n ->
  n < 1024 ^ Z.of_nat (S k) ->
  format_size n = "1024.0" ++ nth k size_units EmptyString.
Proof.
  intros Hk H1 H2.
  assert (K : k = 1%nat \/ k = 2%nat \/ k = 3%nat) by lia.
  unfold format_size. cbn [format_size_loop].
  destruct K as [-> | [-> | ->]];
    change (1024 ^ Z.of_nat 1) with 1024 in *;
    change (1024 ^ Z.of_nat 2) with 1048576 in *;
    change (1024 ^ Z.of_nat 3) with 1073741824 in *;
    change (1024 ^ Z.of_nat 4) with 1099511627776 in *.
  - destruct (Z.ltb_spec n (1024 * 1)); [lia |].
    destruct (Z.ltb_spec n (1024 * (1024 * 1))); [| lia].
    rewrite format_1f_nonneg, round_tenths_up by lia. reflexivity.
  - destruct (Z.ltb_spec n (1024 * 1)); [lia |].
    destruct (Z.ltb_spec n (1024 * (1024 * 1))); [lia |].
    destruct (Z.ltb_spec n (1024 * (1024 * (1024 * 1)))); [| lia].
    rewrite format_1f_nonneg, round_tenths_up by lia. reflexivity.
  - destruct (Z.ltb_spec n (1024 * 1)); [lia |].
    destruct (Z.ltb_spec n (1024 * (1024 * 1))); [lia |].
    destruct (Z.ltb_spec n (1024 * (1024 * (1024 * 1)))); [lia |].
    destruct (Z.ltb_spec n (1024 * (1024 * (1024 * (1024 * 1))))); [| lia].
    rewrite format_1f_nonneg, round_tenths_up by lia. reflexivity.
Qed.

Lemma format_size_rounds_up_to_1024_witness :
  (1 <= 1 <= 3)%nat
  /\ 20479 * 1024 ^ Z.of_nat 1 <= 20 * 1048575
  /\ 1048575 < 1024 ^ Z.of_nat 2
  /\ format_size 1048575 = "1024.0KB".
Proof.
  split; [lia |]. split; [simpl; lia |]. split; [simpl; lia |].
  apply (format_size_rounds_up_to_1024 1048575 1); simpl; lia.
Defined.

(* ===================================================================== *)
(** ** Further properties: the table of models and the entry of the session *)
(* ===================================================================== *)

(** Replacing the letter T by a space neither makes nor removes a
    surrogate. *)
Lemma has_surrogate_replace_T (s : string) :
  Text.has_surrogate (Text.replace_char "T" " " s) = Text.has_surrogate s.
Proof.
  induction s as [| c r IH]; [reflexivity |].
  cbn [Text.replace_char]. destruct r as [| c2 r2]; [reflexivity |].
  cbn [Text.replace_char] in *. cbn [Text.has_surrogate] in *.
  rewrite IH.
  destruct (Ascii.eqb_spec c "T") as [-> |], (Ascii.eqb_spec c2 "T") as [-> |];
    reflexivity.
Qed.

(** The row of an entry that can be shown is printed, and the table goes
    on. *)
Lemma print_models_row (w : World) (model : json) (rest : list json) (n : nat) :
  row_ok w model = true ->
  AICLI.print_models w (model :: rest) n
  = (let '(r, t, n') := AICLI.print_models w rest n in
     (r, model_row model :: t, n')).
Proof.
  destruct model as [| | | | | | ms]; try discriminate.
  cbn [row_ok model_row]. intros H.
  apply andb_true_iff in H as [H Hn]. apply andb_true_iff in H as [Hs Hd].
  cbn [AICLI.print_models Py.get]. unfold bind, lift, emit, raise.
  fold (model_name ms). fold (model_size ms). fold (model_modified ms).
  assert (E1 : AICLI.format_size_check (model_size ms) = Ok tt).
  { unfold AICLI.format_size_check, size_ok in *.
    destruct (model_size ms) as [| b | z | f | s | vs | os];
      try discriminate; try reflexivity.
    rewrite Z.leb_antisym, Hs. reflexivity. }
  rewrite E1.
  destruct (model_modified ms) as [| | | | d | |]; try discriminate.
  cbn [AICLI.modified_text date_ok] in *.
  assert (E2 : AICLI.name_format_check w (model_name ms) = Ok tt).
  { unfold AICLI.name_format_check, name_ok in *.
    destruct (isatty w); [reflexivity |].
    destruct (model_name ms); try discriminate; reflexivity. }
  rewrite E2.
  assert (E3 : printable (model_name ms) = true).
  { unfold printable, name_ok in *. destruct (model_name ms); auto. }
  rewrite E3, has_surrogate_replace_T, Hd. cbn [andb].
  destruct (AICLI.print_models w rest n) as [[r t] n']. reflexivity.
Qed.

(** The row of an entry that cannot be shown is not printed: the table
    raises there. *)
Lemma print_models_bad_row (w : World) (model : json) (rest : list json)
      (n : nat) :
  row_ok w model = false ->
  exists e,
    AICLI.print_models w (model :: rest) n = (Raise e, [], n)
    /\ In (exn_cls e) table_errors.
Proof.
  intros H.
  assert (X : exists e, AICLI.print_models w (model :: rest) n = (Raise e, [], n)).
  { destruct model as [| | | | | | ms];
      try (eexists; reflexivity).
    cbn [row_ok] in H.
    cbn [AICLI.print_models Py.get]. unfold bind, lift, emit, raise.
    fold (model_name ms). fold (model_size ms). fold (model_modified ms).
    destruct (AICLI.format_size_check (model_size ms)) as [[] | e1] eqn:E1;
      [| eexists; reflexivity].
    assert (Hs : size_ok (model_size ms) = true).
    { unfold AICLI.format_size_check, size_ok in *.
      destruct (model_size ms) as [| b | z | f | s | vs | os];
        try discriminate; try reflexivity.
      rewrite Z.ltb_antisym.
      destruct (_ <=? Z.abs z); [discriminate | reflexivity]. }
    rewrite Hs in H. cbn [andb] in H.
    destruct (model_modified ms) as [| | | | d | |];
      try (eexists; reflexivity).
    cbn [AICLI.modified_text date_ok] in *.
    destruct (AICLI.name_format_check w (model_name ms)) as [[] | e2] eqn:E2;
      [| eexists; reflexivity].
    rewrite has_surrogate_replace_T.
    destruct (Text.has_surrogate (Text.take_chars 19 d));
      [rewrite andb_false_r; eexists; reflexivity |].
    cbn [negb andb] in H. rewrite andb_true_r.
    assert (P : printable (model_name ms) = false).
    { unfold AICLI.name_format_check, name_ok, printable in *.
      destruct (model_name ms); destruct (isatty w);
        try discriminate; try assumption. }
    rewrite P. eexists; reflexivity. }
  destruct X as (e & E). exists e. split; [exact E |].
  eapply print_models_raise. exact E.
Qed.

(** The rows of entries that can be shown, in front of the rest of the
    catalog. *)
Lemma print_models_rows (w : World) (pre rest : list json) (n : nat) :
  forallb (row_ok w) pre = true ->
  AICLI.print_models w (pre ++ rest) n
  = (let '(r, t, n') := AICLI.print_models w rest n in
     (r, (map model_row pre ++ t)%list, n')).
Proof.
  induction pre as [| v pre IH]; cbn [forallb app map]; intros H.
  - destruct (AICLI.print_models w rest n) as [[r t] n']. reflexivity.
  - apply andb_true_iff in H as [H1 H2].
    rewrite (print_models_row w v _ n H1), (IH H2).
    destruct (AICLI.print_models w rest n) as [[r t] n']. reflexivity.
Qed.

(** X16. The command [models] and its table. Its one HTTP call is the GET
    of the catalog. When the catalog cannot be fetched, whatever was
    raised, the command prints that no models were found and returns. When
    the catalog is a list that is not empty, the command prints the header
    of the table and then one row for each entry, in the order of the
    catalog, as long as the entries can be shown; a field that an entry
    lacks is replaced by [Unknown] (name, date) or 0 (size). An entry can
    be shown when it is an object, its size is a truth value or a number
    that a float can hold, its date is a text, its name is a text, a number
    or a truth value (on a terminal any value), and neither the name nor
    the first 19 characters of the date hold a lone surrogate. When every
    entry can be shown the command returns after the last row. At the
    first entry that cannot be shown the command raises ([TypeError],
    [AttributeError], [OverflowError], [KeyError] or [UnicodeEncodeError])
    after the rows of the entries before it, and prints no row for that
    entry or for those behind it. *)
Theorem models_table_rows (w : World) (n : nat) :
  (forall r ms v vs,
      http w n (GET AIClient.tags_url None) = Responded r ->
      broken r = None ->
      status_code r = 200 ->
      Json.decode (content r) = Some (JObject ms) ->
      Py.dict_get "models" ms = Some (JArray (v :: vs)) ->
      forallb (row_ok w) (v :: vs) = true ->
      AICLI.list_models w n
      = (Ok tt,
         (header_events w "Available Models"
          ++ [ Http (GET AIClient.tags_url None);
               Print (Text.ljust (AICLI.colored w "Model Name" "bold") 40 ++ " "
                      ++ Text.ljust (AICLI.colored w "Size" "bold") 10 ++ " "
                      ++ AICLI.colored w "Modified" "bold") Text.nl;
               Print (AICLI.colored w (Text.repeat_str "-" 70) "blue") Text.nl ]
          ++ map model_row (v :: vs))%list,
         S n))
  /\ (forall r ms pre bad post,
         http w n (GET AIClient.tags_url None) = Responded r ->
         broken r = None ->
         status_code r = 200 ->
         Json.decode (content r) = Some (JObject ms) ->
         Py.dict_get "models" ms = Some (JArray (pre ++ bad :: post)) ->
         forallb (row_ok w) pre = true ->
         row_ok w bad = false ->
         exists e,
           AICLI.list_models w n
           = (Raise e,
              (header_events w "Available Models"
               ++ [ Http (GET AIClient.tags_url None);
                    Print (Text.ljust (AICLI.colored w "Model Name" "bold") 40
                           ++ " "
                           ++ Text.ljust (AICLI.colored w "Size" "bold") 10 ++ " "
                           ++ AICLI.colored w "Modified" "bold") Text.nl;
                    Print (AICLI.colored w (Text.repeat_str "-" 70) "blue")
                          Text.nl ]
               ++ map model_row pre)%list,
              S n)
           /\ In (exn_cls e) table_errors)
  /\ (forall e,
         http w n (GET AIClient.tags_url None) = Raised e ->
         AICLI.list_models w n
         = (Ok tt,
            (header_events w "Available Models"
             ++ [ Http (GET AIClient.tags_url None);
                  Print (AICLI.colored w "❌ No models found or Ollama not running"
                                       "red") Text.nl ])%list,
            S n)).
Proof.
  split; [| split].
  - intros r ms v vs H B St D G O.
    unfold AICLI.list_models. unfold bind at 1.
    rewrite print_header_run. unfold bind at 1.
    rewrite list_models_run. cbv zeta beta iota.
    unfold models_of. rewrite H, B, St, D, G, Z.eqb_refl.
    cbn [Py.truthy negb].
    unfold bind, print, emit. cbv beta iota.
    rewrite <- (app_nil_r (v :: vs)) at 1.
    rewrite (print_models_rows w _ [] _ O).
    cbn [AICLI.print_models]. unfold ret. rewrite !app_nil_r. reflexivity.
  - intros r ms pre bad post H B St D G O Bad.
    destruct (print_models_bad_row w bad post (S n) Bad) as (e & E & C).
    exists e. split; [| exact C].
    unfold AICLI.list_models. unfold bind at 1.
    rewrite print_header_run. unfold bind at 1.
    rewrite list_models_run. cbv zeta beta iota.
    unfold models_of. rewrite H, B, St, D, G, Z.eqb_refl.
    assert (T : Py.truthy (JArray (pre ++ bad :: post)) = true)
      by (destruct pre; reflexivity).
    rewrite T. cbn [negb].
    unfold bind, print, emit. cbv beta iota.
    rewrite (print_models_rows w _ _ _ O), E.
    rewrite !app_nil_r. reflexivity.
  - intros e H.
    unfold AICLI.list_models. unfold bind at 1.
    rewrite print_header_run. unfold bind at 1.
    rewrite list_models_run. cbv zeta beta iota.
    unfold models_of. rewrite H. reflexivity.
Qed.

Lemma models_table_rows_witness :
  (Json.decode Scenario.body_catalog
   = Some (JObject [("models",
                     JArray [Scenario.entry_llama; Scenario.entry_tiny])])
   /\ forallb (row_ok Scenario.server_catalog)
              [Scenario.entry_llama; Scenario.entry_tiny] = true
   /\ AICLI.list_models Scenario.server_catalog 0%nat
      = (Ok tt,
         (header_events Scenario.server_catalog "Available Models"
          ++ [ Http (GET AIClient.tags_url None);
               Print (Text.ljust "Model Name" 40 ++ " " ++ Text.ljust "Size" 10
                                 ++ " " ++ "Modified") Text.nl;
               Print (Text.repeat_str "-" 70) Text.nl ]
          ++ [ PrintModel (JString "llama3:8b") (JInt 4661224676)
                          (JString "2024-05-01T10:20:30.123456789Z");
               PrintModel (JString "tiny") (JInt 0) (JString "Unknown") ])%list,
         1%nat))
  /\ (Json.decode Scenario.body_catalog_null
      = Some (JObject [("models",
                        JArray ([Scenario.entry_llama]
                                  ++ Scenario.entry_null
                                  :: [Scenario.entry_last]))])
      /\ row_ok Scenario.server_catalog_null Scenario.entry_null = false
      /\ exists e,
           AICLI.list_models Scenario.server_catalog_null 0%nat
           = (Raise e,
              (header_events Scenario.server_catalog_null "Available Models"
               ++ [ Http (GET AIClient.tags_url None);
                    Print (Text.ljust "Model Name" 40 ++ " "
                                      ++ Text.ljust "Size" 10
                                      ++ " " ++ "Modified") Text.nl;
                    Print (Text.repeat_str "-" 70) Text.nl ]
               ++ [ PrintModel (JString "llama3:8b") (JInt 4661224676)
                               (JString "2024-05-01T10:20:30.123456789Z") ])%list,
              1%nat)
           /\ In (exn_cls e) table_errors)
  /\ (http Scenario.server_down 0%nat (GET AIClient.tags_url None)
      = Raised Scenario.refused
      /\ AICLI.list_models Scenario.server_down 0%nat
         = (Ok tt,
            (header_events Scenario.server_down "Available Models"
             ++ [ Http (GET AIClient.tags_url None);
                  Print "❌ No models found or Ollama not running" Text.nl ])%list,
            1%nat)).
Proof.
  split; [| split].
  - split; [vm_compute; reflexivity |]. split; [vm_compute; reflexivity |].
    apply (proj1 (models_table_rows Scenario.server_catalog 0%nat)
                 (mkResponse 200 Scenario.body_catalog None)
                 [("models", JArray [Scenario.entry_llama; Scenario.entry_tiny])]
                 Scenario.entry_llama [Scenario.entry_tiny]);
      vm_compute; reflexivity.
  - split; [vm_compute; reflexivity |]. split; [vm_compute; reflexivity |].
    apply (proj1 (proj2 (models_table_rows Scenario.server_catalog_null 0%nat))
                 (mkResponse 200 Scenario.body_catalog_null None)
                 [("models",
                   JArray ([Scenario.entry_llama]
                             ++ Scenario.entry_null :: [Scenario.entry_last]))]
                 [Scenario.entry_llama] Scenario.entry_null
                 [Scenario.entry_last]);
      vm_compute; reflexivity.
  - split; [reflexivity |].
    apply (proj2 (proj2 (models_table_rows Scenario.server_down 0%nat))
                 Scenario.refused).
    reflexivity.
Defined.

(** The start of the interactive session, after a probe that succeeded. *)
Lemma interactive_entry (w : World) (args : Namespace) (n : nat) :
  probe_ok (http w n Scenario.probe) = true ->
  Py.truthy_str (arg_message args) = false ->
  AICLI.cmd_chat w args n
  = (let '(r, t, n') := AICLI.chat_loop w args (stdin w) (S n) in
     (r, (Http Scenario.probe :: session_banner w args ++ t)%list, n')).
Proof.
  intros Hp Hm. unfold AICLI.cmd_chat. rewrite (guard_true w n _ Hp).
  assert (E : (AICLI.print_header w ("Interactive Chat with " ++ arg_model args) ;;
               print (AICLI.colored w "Type /quit to exit, /help for commands"
                                    "yellow" ++ Text.nl) ;;
               AICLI.chat_loop w args (stdin w))%comp (S n)
              = (let '(r, t, n') := AICLI.chat_loop w args (stdin w) (S n) in
                 (r, (session_banner w args ++ t)%list, n'))).
  { unfold bind, print, emit. rewrite print_header_run. cbv beta iota.
    destruct (AICLI.chat_loop w args (stdin w) (S n)) as [[r t] n'].
    reflexivity. }
  destruct (arg_message args) as [message |].
  - rewrite Hm, E.
    destruct (AICLI.chat_loop w args (stdin w) (S n)) as [[r t] n']. reflexivity.
  - rewrite E.
    destruct (AICLI.chat_loop w args (stdin w) (S n)) as [[r t] n']. reflexivity.
Qed.

(** X17. How the interactive session is entered. [cmd_chat] without a
    message, or with the empty text as message, prints the banner after the
    probe and runs the loop over what is typed; and [main] without a
    subcommand does the same, whatever message the arguments hold. *)
Theorem no_message_starts_the_session
        (w : World) (args : Namespace) (n : nat) :
  outcome (AIClient.check_connection w) n = Ok true ->
  (Py.truthy_str (arg_message args) = false ->
   AICLI.cmd_chat w args n
   = (let '(r, t, n') := AICLI.chat_loop w args (stdin w) (S n) in
      (r, (Http Scenario.probe :: session_banner w args ++ t)%list, n')))
  /\ (Py.truthy_str (arg_command args) = false ->
      AICLI.main w args n
      = (let '(r, t, n') :=
           AICLI.chat_loop w
             (mkNamespace (Some "chat") (arg_model args) (arg_stream args) None true
                          (arg_prompt args) (arg_topic args) (arg_text args)
                          (arg_to args) (arg_input args) (arg_file args))
             (stdin w) (S n) in
         (r, (Http Scenario.probe :: session_banner w args ++ t)%list, n'))).
Proof.
  intros Hp. apply probe_ok_of_check in Hp. split.
  - intros Hm. now apply interactive_entry.
  - intros Hc. unfold AICLI.main. rewrite Hc. cbn [negb].
    set (args' := mkNamespace (Some "chat") (arg_model args) (arg_stream args)
                              None true (arg_prompt args) (arg_topic args)
                              (arg_text args) (arg_to args) (arg_input args)
                              (arg_file args)).
    change (AICLI.command_is args' "chat") with true. cbv iota.
    rewrite (interactive_entry w args' n Hp eq_refl). reflexivity.
Qed.

Lemma no_message_starts_the_session_witness :
  outcome (AIClient.check_connection
             (Scenario.world (Scenario.always (Scenario.ok_200 Scenario.body_A))
                             [Line "/quit"])) 0%nat = Ok true
  /\ Py.truthy_str (arg_message (mkNamespace (Some "chat") "m" false
                                             (Some EmptyString) false
                                             "p" "t" "x" "l" "i" "f")) = false
  /\ AICLI.cmd_chat
       (Scenario.world (Scenario.always (Scenario.ok_200 Scenario.body_A))
                       [Line "/quit"])
       (mkNamespace (Some "chat") "m" false (Some EmptyString) false
                    "p" "t" "x" "l" "i" "f") 0%nat
     = (Ok tt,
        [ Http Scenario.probe;
          Print (Text.nl ++ Text.repeat_str "═" 60) Text.nl;
          Print "🤖 AI CLI - Interactive Chat with m" Text.nl;
          Print (Text.repeat_str "═" 60 ++ Text.nl) Text.nl;
          Print ("Type /quit to exit, /help for commands" ++ Text.nl) Text.nl;
          Input "👤 You: ";
          Print "👋 Goodbye!" Text.nl ],
        1%nat).
Proof.
  split; [reflexivity |]. split; [reflexivity |].
  rewrite (proj1 (no_message_starts_the_session
                    (Scenario.world (Scenario.always (Scenario.ok_200 Scenario.body_A))
                                    [Line "/quit"])
                    (mkNamespace (Some "chat") "m" false (Some EmptyString) false
                                 "p" "t" "x" "l" "i" "f")
                    0%nat eq_refl) eq_refl).
  reflexivity.
Defined.

(* ===================================================================== *)
(** ** Further properties: the requests of a whole session *)
(* ===================================================================== *)

Lemma posts_app (a b : list event) :
  posts (a ++ b) = (posts a ++ posts b)%list.
Proof. apply filter_app. Qed.

(** The POSTs of a trace are among its HTTP calls. *)
Lemma posts_of_calls (t : list event) : posts t = posts (network_calls t).
Proof.
  induction t as [| ev t IH]; [reflexivity |].
  destruct ev as [[] | | | | | | |]; simpl; rewrite <- ?IH; reflexivity.
Qed.

Lemma offline_posts (t : list event) : network_calls t = [] -> posts t = [].
Proof. intros H. rewrite posts_of_calls, H. reflexivity. Qed.

(** A turn of the loop makes at most one POST. *)
Lemma chat_turn_posts (w : World) (args : Namespace) (ev : option InputEvent)
      (n : nat) :
  (length (posts (events (AICLI.chat_turn w args ev) n)) <= 1)%nat.
Proof.
  unfold events.
  destruct ev as [[message |] |]; [| simpl; lia | simpl; lia].
  destruct (Py.str_in (Text.lower message) control_commands) eqn:Hc.
  - rewrite control_tests in Hc.
    destruct (Py.str_in (Text.lower message) ["/quit"; "/exit"; "/q"]) eqn:T1.
    { open_turn. rewrite T1. simpl. lia. }
    destruct (String.eqb (Text.lower message) "/help") eqn:T2.
    { open_turn. rewrite T1, T2. simpl. lia. }
    destruct (String.eqb (Text.lower message) "/clear") eqn:T3.
    { open_turn. rewrite T1, T2, T3. simpl. lia. }
    destruct (String.eqb (Text.lower message) "/models") eqn:T4;
      [| discriminate].
    open_turn. rewrite T1, T2, T3, T4.
    destruct (list_models_shape w n) as (r & t & E & N). rewrite E.
    assert (P : posts t = []) by (rewrite posts_of_calls, N; reflexivity).
    destruct r as [[] | e]; [simpl; rewrite posts_app, P; simpl; lia |].
    destruct (AICLI.is_KeyboardInterrupt e); simpl;
      rewrite ?posts_app, P; simpl; lia.
  - destruct (Text.all_space message) eqn:Hs.
    + rewrite (blank_turn w args message n Hs). simpl. lia.
    + destruct (regular_turn w args message n Hc Hs) as (b & t & E & N & _).
      rewrite E. cbn [fst snd posts filter is_post_event].
      fold (posts t). rewrite (offline_posts t N).
      destruct (is_post _); simpl; lia.
Qed.

(** X18. A session makes at most one generation request for each line
    that is typed: the number of POSTs of the interactive loop never exceeds
    the number of its inputs, whatever the server does. *)
Theorem session_requests_bounded
        (w : World) (args : Namespace) (inputs : list InputEvent) (n : nat) :
  (length (posts (events (AICLI.chat_loop w args inputs) n)) <= length inputs)%nat.
Proof.
  revert n. induction inputs as [| ev rest IH]; intros n.
  - reflexivity.
  - pose proof (chat_turn_posts w args (Some ev) n) as T.
    unfold events in *. simpl AICLI.chat_loop. unfold bind.
    destruct (AICLI.chat_turn w args (Some ev) n) as [[[[] | e] t0] n0];
      simpl in T.
    + specialize (IH n0).
      destruct (AICLI.chat_loop w args rest n0) as [[r t1] n1].
      simpl in *. rewrite posts_app, length_app. lia.
    + simpl. rewrite posts_app, length_app. simpl. lia.
    + simpl. lia.
Qed.
